(** * Categorical meta-prompting: the quality model, the recursive
    meta-prompting monad, the task-to-prompt functor, the context comonad
    and the natural transformations between prompting strategies.

    Shallow embedding of
      - [meta_prompting_engine/categorical/quality.py]
      - [meta_prompting_engine/categorical/monad.py]
      - the [ContextStore] comonad of [tests/test_comonad_laws.py]
      - the prompt functors and the natural transformations of
        [tests/test_natural_transformation_laws.py]
      - the mock completion client and the oracles of [tests/categorical/].

    Conventions of the embedding.
      - A Python [float] is an exact rational ([Q]) and a float literal is
        the decimal it writes; rounding is not modelled.  Equalities between
        scores are therefore stated with [==].
      - A Python [int] is a [Z]; a [str] is a [string].  The built-ins
        [lower], [strip], [split], [len] and the regex class [\w] are
        modelled on ASCII characters, where they are Python's; a statement
        that depends on what they do to a text assumes [PyStr.is_ascii] of
        that text.
      - A [dict] with string keys is a [gmap string _]; a dictionary value of
        type [Any] is a [PyVal].
      - A function that may raise returns a [result]; code that calls the
        completion collaborator or reads the clock threads a [World]. *)

From Stdlib Require Import Ascii QArith Qminmax Qabs Lqa.
From stdpp Require Import base option list strings gmap pretty.

#[local] Set Warnings "-clear-no-such-hyp".

Local Open Scope string_scope.
Local Open Scope Z_scope.

(* ===================================================================== *)
(** * Python string built-ins *)
(* ===================================================================== *)

Module PyStr.

Definition is_space (c : ascii) : bool :=
  let n := nat_of_ascii c in
  ((9 <=? n)%nat && (n <=? 13)%nat) || ((28 <=? n)%nat && (n <=? 32)%nat).

Definition is_upper (c : ascii) : bool :=
  let n := nat_of_ascii c in (65 <=? n)%nat && (n <=? 90)%nat.

(** [\w] : letters, digits and the underscore. *)
Definition is_word (c : ascii) : bool :=
  let n := nat_of_ascii c in
  ((48 <=? n)%nat && (n <=? 57)%nat) || ((65 <=? n)%nat && (n <=? 90)%nat)
  || ((97 <=? n)%nat && (n <=? 122)%nat) || (n =? 95)%nat.

Definition lower_char (c : ascii) : ascii :=
  if is_upper c then ascii_of_nat (nat_of_ascii c + 32) else c.

(** [s.lower()] *)
Fixpoint lower (s : string) : string :=
  match s with
  | EmptyString => EmptyString
  | String c s' => String (lower_char c) (lower s')
  end.

(** [len(s)] *)
Definition len (s : string) : Z := Z.of_nat (String.length s).

Fixpoint lstrip (s : string) : string :=
  match s with
  | EmptyString => EmptyString
  | String c s' => if is_space c then lstrip s' else s
  end.

Definition rstrip (s : string) : string :=
  String.rev (lstrip (String.rev s)).

(** [s.strip()] *)
Definition strip (s : string) : string := rstrip (lstrip s).

(** [sub in s] *)
Fixpoint contains (sub s : string) : bool :=
  String.prefix sub s ||
  match s with
  | EmptyString => false
  | String _ s' => contains sub s'
  end.

(** [s.count(sub)] for a non-empty [sub]: occurrences are counted from the
    left and do not overlap; [skip] characters of the last match are still
    to be passed over. *)
Fixpoint count_from (sub s : string) (skip : nat) : Z :=
  match s with
  | EmptyString => 0
  | String _ s' =>
      match skip with
      | S k => count_from sub s' k
      | O => if String.prefix sub s
             then 1 + count_from sub s' (String.length sub - 1)
             else count_from sub s' 0
      end
  end.

Definition count (s sub : string) : Z := count_from sub s 0.

(** The pieces of [s] between the characters satisfying [sep]; there is
    always at least one piece, and pieces may be empty. *)
Fixpoint pieces (sep : ascii -> bool) (s : string) : list string :=
  match s with
  | EmptyString => [EmptyString]
  | String c s' =>
      if sep c then EmptyString :: pieces sep s'
      else match pieces sep s' with
           | h :: t => String c h :: t
           | [] => [String c EmptyString]
           end
  end.

Definition nonempty (s : string) : bool :=
  match s with EmptyString => false | _ => true end.

(** [s.split(d)] for a one-character delimiter. *)
Definition split_on (d : ascii) (s : string) : list string :=
  pieces (fun c => bool_decide (c = d)) s.

(** [s.split()] : runs of blanks separate, no empty word is produced. *)
Definition split (s : string) : list string :=
  List.filter nonempty (pieces is_space s).

(** [re.findall(r'\b\w+\b', s)] : the maximal runs of word characters. *)
Definition findall_words (s : string) : list string :=
  List.filter nonempty (pieces (fun c => negb (is_word c)) s).

(** [any(k in s for k in ks)] *)
Definition any_in (ks : list string) (s : string) : bool :=
  existsb (fun k => contains k s) ks.

Definition nl : string := String (ascii_of_nat 10) EmptyString.

(** [sep.join(l)] *)
Fixpoint join (sep : string) (l : list string) : string :=
  match l with
  | [] => EmptyString
  | [x] => x
  | x :: l' => x +:+ sep +:+ join sep l'
  end.

(** [s.split(sep)[0]] for a non-empty [sep]: the text before the first
    occurrence of [sep], all of [s] when there is none. *)
Fixpoint before (sep s : string) : string :=
  if String.prefix sep s then EmptyString
  else match s with
       | EmptyString => EmptyString
       | String c s' => String c (before sep s')
       end.

(** Every character of [s] satisfies [P]. *)
Fixpoint all_chars (P : ascii -> bool) (s : string) : bool :=
  match s with
  | EmptyString => true
  | String c s' => P c && all_chars P s'
  end.

(** [s.isascii()]: on such a text the built-ins above are Python's. *)
Definition is_ascii (s : string) : bool :=
  all_chars (fun c => (nat_of_ascii c <? 128)%nat) s.

End PyStr.

(* ===================================================================== *)
(** * Values, exceptions *)
(* ===================================================================== *)

Inductive exn : Set := TypeError | ValueError | IndexError.

Inductive result (A : Type) : Type :=
| Ok (a : A)
| Raise (e : exn).
Arguments Ok {A} a.
Arguments Raise {A} e.

(** Modelled from the spec: the closed enumeration of strategies the functor
    selects from (section 3, Strategy); [strategy.py] is not part of the
    sources.  [Strategy_name] is the [name] attribute the tests read. *)
Inductive Strategy : Set :=
| DirectExecution
| MultiApproachSynthesis
| AutonomousEvolution.

Definition Strategy_name (s : Strategy) : string :=
  match s with
  | DirectExecution => "Direct Execution"
  | MultiApproachSynthesis => "Multi-Approach Synthesis"
  | AutonomousEvolution => "Autonomous Evolution"
  end.

(** Modelled from the spec: [ComplexityAnalysis] (section 3); only the
    [overall] score is described. *)
Record ComplexityAnalysis : Set := mkComplexity { overall : Q }.

(** The values a dictionary of type [Dict[str, Any]] holds in this code. *)
Inductive PyVal : Type :=
| VNone
| VBool (b : bool)
| VInt (n : Z)
| VFloat (x : Q)
| VStr (s : string)
| VKeys (ks : list string)
| VStrategy (s : Strategy)
| VComplexity (c : ComplexityAnalysis).

(** The number a value stands for in a comparison with a float ([bool] is a
    subclass of [int]); the other values make [<=] raise [TypeError]. *)
Definition as_number (v : PyVal) : option Q :=
  match v with
  | VBool b => Some (if b then 1%Q else 0%Q)
  | VInt n => Some (inject_Z n)
  | VFloat x => Some x
  | _ => None
  end.

Definition Qltb (x y : Q) : bool := negb (Qle_bool y x).

(** [x <= v] for a float [x] and an arbitrary value [v]. *)
Definition float_le (x : Q) (v : PyVal) : result bool :=
  match as_number v with
  | Some y => Ok (Qle_bool x y)
  | None => Raise TypeError
  end.

(** [v == s] for a string literal [s]. *)
Definition eq_str (v : PyVal) (s : string) : bool :=
  match v with
  | VStr t => bool_decide (t = s)
  | _ => false
  end.

(* ===================================================================== *)
(** * Data model ([types.py] is not part of the sources) *)
(* ===================================================================== *)

Module Prompt.
(** Modelled from the spec: [Prompt] (section 3), with the fields the
    sources read and write. *)
Record t : Type := mk {
  template : string;
  variables : gmap string string;
  context : gmap string PyVal;
  meta_level : Z
}.
End Prompt.

Module QualityScore.
(** Modelled from the spec: [QualityScore] (section 3). *)
Record t : Type := mk {
  value : Q;
  components : gmap string Q
}.
End QualityScore.

Module MonadPrompt.
(** [monad.py], class [MonadPrompt]. *)
Record t : Type := mk {
  prompt : Prompt.t;
  quality : QualityScore.t;
  meta_level : Z;
  history : list Prompt.t;
  timestamp : Z
}.
End MonadPrompt.


Global Instance Q_inhabited : Inhabited Q := populate 0%Q.

(** [sum(xs)] : Python adds from the left, starting at [0]. *)
Definition py_sum (xs : list Q) : Q := fold_left Qplus xs 0%Q.

Definition py_sum_Z (xs : list Z) : Z := fold_left Z.add xs 0.

(* ===================================================================== *)
(** * [quality.py] *)
(* ===================================================================== *)

Section Quality.

(** [Prompt.render] belongs to [types.py]; the spec (section 3) makes it a
    total, deterministic function of the prompt. *)
Variable render : Prompt.t -> string.

Local Open Scope Q_scope.

Definition _assess_correctness (output : string) (prompt : Prompt.t) : Q :=
  let score := 0.5 in
  let score :=
    if (10 <? PyStr.len (PyStr.strip output))%Z then score + 0.2 else score in
  let score := if (50 <? PyStr.len output)%Z then score + 0.1 else score in
  let score := if (PyStr.len output <? 2000)%Z then score + 0.1 else score in
  let error_keywords :=
    ["error"; "cannot"; "unable"; "impossible"; "unclear"] in
  let score :=
    if negb (PyStr.any_in error_keywords (PyStr.lower output))
    then score + 0.1 else score in
  Qmin score 1.0.

Definition _assess_clarity (output : string) : Q :=
  let score := 0.5 in
  let score :=
    if (1 <=? PyStr.count output (PyStr.nl +:+ PyStr.nl))%Z
    then score + 0.15 else score in
  let score :=
    if existsb (fun marker => PyStr.contains marker output)
               ["- "; "* "; "1."; "2."]
    then score + 0.15 else score in
  let sentences := PyStr.split_on "." output in
  let avg_sentence_len :=
    inject_Z (py_sum_Z (map (fun s => Z.of_nat (length (PyStr.split s)))
                            sentences))
    / inject_Z (Z.max (Z.of_nat (length sentences)) 1) in
  let score :=
    if Qle_bool 10 avg_sentence_len && Qle_bool avg_sentence_len 30
    then score + 0.1 else score in
  let explanatory_words := ["because"; "therefore"; "thus"; "since"; "so"] in
  let score :=
    if PyStr.any_in explanatory_words (PyStr.lower output)
    then score + 0.1 else score in
  Qmin score 1.0.

Definition extract_keywords (text : string) : list string :=
  let stop_words :=
    ["the"; "a"; "an"; "and"; "or"; "but"; "in"; "on"; "at"; "to"; "for";
     "is"; "are"; "was"; "were"] in
  let words := PyStr.findall_words (PyStr.lower text) in
  let keywords :=
    List.filter (fun w => negb (bool_decide (w ∈ stop_words))
                          && (3 <? PyStr.len w)%Z) words in
  remove_dups keywords.

Definition _assess_completeness (output : string) (prompt : Prompt.t) : Q :=
  let score := 0.6 in
  let prompt_keywords := extract_keywords (render prompt) in
  let output_lower := PyStr.lower output in
  let keyword_coverage :=
    inject_Z (py_sum_Z (map (fun _ => 1%Z)
                (List.filter (fun kw => PyStr.contains kw output_lower)
                             prompt_keywords)))
    / inject_Z (Z.max (Z.of_nat (length prompt_keywords)) 1) in
  let score := score + 0.2 * keyword_coverage in
  let score :=
    if PyStr.contains "example" (PyStr.lower output)
       || PyStr.contains "e.g." (PyStr.lower output)
    then score + 0.1 else score in
  let score :=
    if PyStr.any_in ["edge case"; "corner case"; "special case"]
                    (PyStr.lower output)
    then score + 0.1 else score in
  Qmin score 1.0.

Definition _assess_efficiency (output : string) : Q :=
  let score := 0.7 in
  let score :=
    if PyStr.any_in ["o(n)"; "o(log n)"; "complexity"; "efficient"]
                    (PyStr.lower output)
    then score + 0.15 else score in
  let score :=
    if PyStr.any_in ["optimize"; "improve"; "faster"; "better"]
                    (PyStr.lower output)
    then score + 0.1 else score in
  let inefficient_keywords :=
    ["nested loop"; "o(n^3)"; "brute force"; "exponential"] in
  let score :=
    if negb (PyStr.any_in inefficient_keywords (PyStr.lower output))
    then score + 0.05 else score in
  Qmin score 1.0.

(** The keys of [components], in the order the four assignments insert
    them: the order in which [for k in components] visits them. *)
Definition component_keys : list string :=
  ["correctness"; "clarity"; "completeness"; "efficiency"].

Definition weights : gmap string Q :=
  <["efficiency" := 0.1]> (<["completeness" := 0.2]>
  (<["clarity" := 0.3]> (<["correctness" := 0.4]> ∅))).

Definition assess_quality (output : string) (prompt : Prompt.t)
  : QualityScore.t :=
  let components : gmap string Q := ∅ in
  let components :=
    <["correctness" := _assess_correctness output prompt]> components in
  let components := <["clarity" := _assess_clarity output]> components in
  let components :=
    <["completeness" := _assess_completeness output prompt]> components in
  let components :=
    <["efficiency" := _assess_efficiency output]> components in
  let overall :=
    py_sum (map (fun k => (components !!! k) * (weights !!! k))
                component_keys) in
  QualityScore.mk overall components.

End Quality.

Section Improvement.

Local Open Scope Q_scope.

(** The three rules of [extract_improvement], as the conditions of its
    three [if] statements. *)
Definition rule_quality (mp : MonadPrompt.t) : bool :=
  Qltb (QualityScore.value (MonadPrompt.quality mp)) 0.80.

Definition rule_meta_level (mp : MonadPrompt.t) : bool :=
  (MonadPrompt.meta_level mp =? 0)%Z.

(** [monad_prompt.history[-1].context.get('quality', 0.5)], when the
    history is not empty. *)
Definition prev_quality (mp : MonadPrompt.t) : option PyVal :=
  prev ← last (MonadPrompt.history mp);
  Some (default (VFloat 0.5) (Prompt.context prev !! "quality")).

Definition extract_improvement (monad_prompt : MonadPrompt.t)
  : result (gmap string PyVal) :=
  let improvements : gmap string PyVal := ∅ in
  let improvements :=
    if rule_quality monad_prompt
    then <["strategy" := VStr "add_structure"]>
           (<["needs_clarity" := VBool true]> improvements)
    else improvements in
  let improvements :=
    if rule_meta_level monad_prompt
    then <["strategy" := VStr "add_reasoning_steps"]>
           (<["add_meta_reflection" := VBool true]> improvements)
    else improvements in
  match prev_quality monad_prompt with
  | None => Ok improvements
  | Some prev_quality =>
      let current_quality :=
        QualityScore.value (MonadPrompt.quality monad_prompt) in
      match float_le current_quality prev_quality with
      | Raise e => Raise e
      | Ok true =>
          Ok (<["strategy" := VStr "try_different_approach"]>
                (<["quality_stagnant" := VBool true]> improvements))
      | Ok false => Ok improvements
      end
  end.

(** The third rule fires: the history is not empty and the current quality
    is not above the quality its last entry records. *)
Definition rule_stagnant (mp : MonadPrompt.t) : bool :=
  match prev_quality mp with
  | Some v =>
      match float_le (QualityScore.value (MonadPrompt.quality mp)) v with
      | Ok b => b
      | Raise _ => false
      end
  | None => false
  end.

(** The comparison of the third rule is defined: the history is empty, or
    the quality its last entry records is a number. *)
Definition comparable (mp : MonadPrompt.t) : Prop :=
  match prev_quality mp with
  | Some v => is_Some (as_number v)
  | None => True
  end.

(** The quality a prompt records in its context, [0.5] when it records
    none, is a number. *)
Definition records_number (p : Prompt.t) : Prop :=
  is_Some (as_number (default (VFloat 0.5) (Prompt.context p !! "quality"))).

Definition integrate_improvement (prompt : Prompt.t)
    (improvement : gmap string PyVal) : Prompt.t :=
  let enhanced_template := Prompt.template prompt in
  let strategy := default (VStr "") (improvement !! "strategy") in
  let enhanced_template :=
    if eq_str strategy "add_structure" then
      "Let's approach this systematically:

" +:+ enhanced_template +:+ "

Provide your solution with clear structure:
1. Analysis
2. Approach
3. Solution
4. Verification"
    else if eq_str strategy "add_reasoning_steps" then
      "Think step-by-step about this problem:

" +:+ enhanced_template +:+ "

Show your reasoning process:
- What is the core problem?
- What approach will you use?
- Why is this approach optimal?
- What is the final solution?"
    else if eq_str strategy "try_different_approach" then
      "Consider alternative approaches to this problem:

" +:+ enhanced_template +:+ "

Explore multiple solution strategies:
1. Approach A: [describe]
2. Approach B: [describe]
3. Best approach: [select and justify]
4. Final solution: [implement]"
    else enhanced_template in
  Prompt.mk enhanced_template
            (Prompt.variables prompt)
            (<["improvement_strategy" := strategy]>
               (<["improved" := VBool true]> (Prompt.context prompt)))
            (Prompt.meta_level prompt + 1)%Z.

End Improvement.

(* ===================================================================== *)
(** * Effects: the completion collaborator and the clock *)
(* ===================================================================== *)

(** A computation reads and updates the [World] (the state of the
    completion client, the clock) and returns a value or raises; an
    exception leaves the effects performed so far in place. *)
Definition M (World A : Type) : Type := World -> result A * World.

Global Instance M_ret {World} : MRet (M World) :=
  fun A (a : A) (w : World) => (Ok a, w).

Global Instance M_bind {World} : MBind (M World) :=
  fun A B (f : A -> M World B) (m : M World A) (w : World) =>
    match m w with
    | (Ok a, w') => f a w'
    | (Raise e, w') => (Raise e, w')
    end.

(** A call that cannot raise. *)
Definition call {World A} (op : World -> A * World) : M World A :=
  fun w => let (a, w') := op w in (Ok a, w').

(** A pure step that may raise. *)
Definition lift_result {World A} (r : result A) : M World A :=
  fun w => (r, w).

(** Modelled from the spec: [QualityScore.tensor_product] (section 3),
    [tensor_product(q1, q2).value = min(q1.value, q2.value)]; the method
    belongs to [types.py].  The spec does not say which component breakdown
    the product carries: [merge] stands for it. *)
Definition tensor_product (merge : gmap string Q -> gmap string Q -> gmap string Q)
    (q1 q2 : QualityScore.t) : QualityScore.t :=
  QualityScore.mk
    (Qmin (QualityScore.value q1) (QualityScore.value q2))
    (merge (QualityScore.components q1) (QualityScore.components q2)).

(* ===================================================================== *)
(** * [monad.py] *)
(* ===================================================================== *)

Module Monad.
Section Defs.

Context {World : Type}.

(** [hashlib.sha256(s.encode()).hexdigest()] *)
Variable sha256_hex : string -> string.
(** [datetime.now()] *)
Variable now : World -> Z * World.
Variable merge : gmap string Q -> gmap string Q -> gmap string Q.

(** class [Monad]: the two callables it is built from. *)
Record t : Type := mk {
  unit : Prompt.t -> M World MonadPrompt.t;
  join : MonadPrompt.t -> M World MonadPrompt.t
}.

(** The nested value [M(M(B))] that [bind] hands to [join]. *)
Definition nested (ma mb : MonadPrompt.t) (timestamp : Z) : MonadPrompt.t :=
  MonadPrompt.mk
    (MonadPrompt.prompt mb)
    (tensor_product merge (MonadPrompt.quality ma) (MonadPrompt.quality mb))
    (MonadPrompt.meta_level ma + 1)
    (MonadPrompt.history ma ++ [MonadPrompt.prompt ma])
    timestamp.

Definition bind (self : t) (ma : MonadPrompt.t)
    (f : Prompt.t -> M World MonadPrompt.t) : M World MonadPrompt.t :=
  mb ← f (MonadPrompt.prompt ma);
  timestamp ← call now;
  join self (nested ma mb timestamp).

Definition _hash_prompt (prompt : Prompt.t) : string :=
  let prompt_str :=
    Prompt.template prompt +:+ "_" +:+ pretty (Prompt.meta_level prompt) in
  sha256_hex prompt_str.

Definition _monadic_prompts_equal (mp1 mp2 : MonadPrompt.t) : bool :=
  bool_decide (_hash_prompt (MonadPrompt.prompt mp1)
               = _hash_prompt (MonadPrompt.prompt mp2))
  && Qltb (Qabs (QualityScore.value (MonadPrompt.quality mp1)
                 - QualityScore.value (MonadPrompt.quality mp2))%Q) 0.01%Q
  && (MonadPrompt.meta_level mp1 =? MonadPrompt.meta_level mp2)%Z.

Definition verify_left_identity (self : t) (a : Prompt.t)
    (f : Prompt.t -> M World MonadPrompt.t) : M World bool :=
  ua ← unit self a;
  left_side ← bind self ua f;
  right_side ← f a;
  mret (_monadic_prompts_equal left_side right_side).

Definition verify_right_identity (self : t) (ma : MonadPrompt.t)
  : M World bool :=
  left_side ← bind self ma (unit self);
  let right_side := ma in
  mret (_monadic_prompts_equal left_side right_side).

Definition verify_associativity (self : t) (ma : MonadPrompt.t)
    (f g : Prompt.t -> M World MonadPrompt.t) : M World bool :=
  mf ← bind self ma f;
  left_side ← bind self mf g;
  right_side ← bind self ma (fun x => fx ← f x; bind self fx g);
  mret (_monadic_prompts_equal left_side right_side).

(** [llm_client.complete] *)
Variable complete : string -> World -> string * World.
Variable render : Prompt.t -> string.

(** The two closures of [create_recursive_meta_monad]. *)
Definition create_unit (prompt : Prompt.t) : M World MonadPrompt.t :=
  output ← call (complete (render prompt));
  let quality := assess_quality render output prompt in
  timestamp ← call now;
  mret (MonadPrompt.mk prompt quality 0 [] timestamp).

Definition create_join (nested : MonadPrompt.t) : M World MonadPrompt.t :=
  improvement ← lift_result (extract_improvement nested);
  let enhanced_prompt :=
    integrate_improvement (MonadPrompt.prompt nested) improvement in
  new_output ← call (complete (render enhanced_prompt));
  let new_quality := assess_quality render new_output enhanced_prompt in
  timestamp ← call now;
  mret (MonadPrompt.mk enhanced_prompt new_quality
          (MonadPrompt.meta_level nested) (MonadPrompt.history nested)
          timestamp).

Definition create_recursive_meta_monad : t :=
  mk create_unit create_join.

Definition kleisli_compose (monad : t)
    (f g : Prompt.t -> M World MonadPrompt.t)
  : Prompt.t -> M World MonadPrompt.t :=
  fun a => fa ← f a; bind monad fa g.

End Defs.
End Monad.

(* ===================================================================== *)
(** * The test doubles of [tests/categorical/test_monad.py] *)
(* ===================================================================== *)

Module MockLLMClient.

Record t : Type := mk { base_quality : Q; call_count : Z }.

Definition complete (prompt : string) (self : t) : string * t :=
  let self := mk (base_quality self) (call_count self + 1) in
  if PyStr.contains "step-by-step" (PyStr.lower prompt) then
    ("Detailed solution with reasoning (call "
       +:+ pretty (call_count self) +:+ ")", self)
  else if PyStr.contains "approach" (PyStr.lower prompt) then
    ("Multi-approach solution (call " +:+ pretty (call_count self) +:+ ")",
     self)
  else
    ("Basic solution (call " +:+ pretty (call_count self) +:+ ")", self).

End MockLLMClient.

(** The world of a test run: the mock client and a clock that ticks at
    every reading. *)
Module TestWorld.

Record t : Type := mk { llm : MockLLMClient.t; clock : Z }.

Definition complete (prompt : string) (w : t) : string * t :=
  let (out, c) := MockLLMClient.complete prompt (llm w) in
  (out, mk c (clock w)).

Definition now (w : t) : Z * t := (clock w, mk (llm w) (clock w + 1)).

Definition init (base_quality : Q) : t :=
  mk (MockLLMClient.mk base_quality 0) 0.

(** Modelled from the spec: [Prompt.render] (section 3) substitutes
    [variables] into [template]; here a placeholder [{name}] without a
    variable is left as it is.  [pending] is the name read since the last
    opening brace. *)
Fixpoint render_from (vars : gmap string string) (s : string)
    (pending : option string) : string :=
  match s with
  | EmptyString =>
      match pending with
      | None => EmptyString
      | Some n => "{" +:+ n
      end
  | String c s' =>
      match pending with
      | None =>
          if bool_decide (c = "{"%char) then render_from vars s' (Some "")
          else String c (render_from vars s' None)
      | Some n =>
          if bool_decide (c = "}"%char) then
            default ("{" +:+ n +:+ "}") (vars !! n)
              +:+ render_from vars s' None
          else render_from vars s' (Some (n +:+ String c EmptyString))
      end
  end.

Definition render (p : Prompt.t) : string :=
  render_from (Prompt.variables p) (Prompt.template p) None.

(** A stand-in for SHA-256 in the runs below: the digest of a text is the
    text, which has no collisions. *)
Definition digest (s : string) : string := s.

Definition merge (c1 c2 : gmap string Q) : gmap string Q := c1 ∪ c2.

Definition monad : Monad.t (World := t) :=
  Monad.create_recursive_meta_monad now complete render.

(** The monadic function [f] of [test_monad_left_identity_law]. *)
Definition f (p : Prompt.t) : M t MonadPrompt.t :=
  Monad.unit monad
    (Prompt.mk ("Enhanced: " +:+ Prompt.template p)
               (Prompt.variables p)
               (<["enhanced" := VBool true]> (Prompt.context p))
               (Prompt.meta_level p)).

(** A prompt as [prompt_strategy] draws them. *)
Definition prompt0 : Prompt.t :=
  Prompt.mk "Solve: {task}"
            (<["task" := "find the maximum"]> ∅)
            (<["generated" := VStr "2024-01-01T00:00:00"]>
               (<["test" := VBool true]> ∅))
            0.

(** A wrapped prompt as [unit] returns them: level [0], no history. *)
Definition fresh : MonadPrompt.t :=
  MonadPrompt.mk prompt0 (QualityScore.mk 0.735 ∅) 0 [] 0.

(** A wrapped prompt at level [0] with a quality of [0.4] whose history
    holds one entry, which records no quality. *)
Definition stalled : MonadPrompt.t :=
  MonadPrompt.mk prompt0 (QualityScore.mk 0.4 ∅) 0 [prompt0] 0.

End TestWorld.

(* ===================================================================== *)
(** * The functor ([functor.py], [strategy.py], [complexity.py] are not
      part of the sources) *)
(* ===================================================================== *)

Module Task.
(** Modelled from the spec: [Task] (section 3). *)
Record t : Type := mk {
  description : string;
  complexity : option ComplexityAnalysis;
  constraints : list string;
  examples : list string;
  metadata : gmap string PyVal
}.
End Task.

(** Modelled from the spec: [select_strategy] (section 3, Strategy):
    [<0.3 -> Direct Execution], [[0.3,0.7) -> Multi-Approach Synthesis],
    [>=0.7 -> Autonomous Evolution]. *)
Definition select_strategy (c : ComplexityAnalysis) : Strategy :=
  if Qltb (overall c) 0.3 then DirectExecution
  else if Qltb (overall c) 0.7 then MultiApproachSynthesis
  else AutonomousEvolution.

Module Functor.
Section Defs.

(** [analyze_complexity] and the wording of the template are not described
    by the spec beyond their contract. *)
Variable analyze_complexity : Task.t -> ComplexityAnalysis.
Variable build_template : Task.t -> Strategy -> string.

(** Modelled from the spec: [Functor.map_object] (section 4.1) computes the
    complexity analysis of the task, selects the strategy from it and
    attaches both to the context of the prompt it returns. *)
Definition map_object (task : Task.t) : Prompt.t :=
  let complexity := analyze_complexity task in
  let strategy := select_strategy complexity in
  Prompt.mk (build_template task strategy)
            ∅
            (<["strategy" := VStrategy strategy]>
               (<["complexity" := VComplexity complexity]> ∅))
            0.

End Defs.

(** The assertions of [test_strategy_selection_integration]
    ([tests/categorical/test_functor.py]) on a prompt: [true] when all of
    them pass. *)
Definition test_strategy_selection_integration (prompt : Prompt.t) : bool :=
  match Prompt.context prompt !! "strategy",
        Prompt.context prompt !! "complexity" with
  | Some (VStrategy strategy), Some (VComplexity c) =>
      let complexity := overall c in
      if Qltb complexity 0.3 then
        bool_decide (Strategy_name strategy = "Direct Execution")
      else if Qltb complexity 0.7 then
        bool_decide (Strategy_name strategy = "Multi-Approach Synthesis")
      else
        bool_decide (Strategy_name strategy = "Autonomous Evolution")
  | _, _ => false
  end.

End Functor.

(* ===================================================================== *)
(** * The comonads *)
(* ===================================================================== *)

(** [l[i]] on a Python list: a negative index counts from the end, an
    index out of range raises [IndexError]. *)
Definition py_getitem {A} (l : list A) (i : Z) : result A :=
  let n := Z.of_nat (length l) in
  let j := if i <? 0 then n + i else i in
  if (0 <=? j) && (j <? n) then
    match l !! Z.to_nat j with
    | Some x => Ok x
    | None => Raise IndexError
    end
  else Raise IndexError.

(** [tests/test_comonad_laws.py], class [ContextEntry]. *)
Module ContextEntry.
Record t (A : Type) : Type := mk {
  content : A;
  timestamp : Q;
  focus_weight : Q;
  metadata : gmap string PyVal
}.
Arguments mk {A} _ _ _ _.
Arguments content {A} _.
Arguments timestamp {A} _.
Arguments focus_weight {A} _.
Arguments metadata {A} _.
End ContextEntry.

(** [tests/test_comonad_laws.py], class [ContextStore]. *)
Module ContextStore.
Record t (A : Type) : Type := mk {
  entries : list (ContextEntry.t A);
  focus_index : Z
}.
Arguments mk {A} _ _.
Arguments entries {A} _.
Arguments focus_index {A} _.

Definition pure {A} (value : A) : t A :=
  mk [ContextEntry.mk value 0%Q 1%Q ∅] 0.

Definition from_list {A} (values : list A) (focus : Z) : t A :=
  let entries :=
    imap (fun i v => ContextEntry.mk v (inject_Z (Z.of_nat i)) 1%Q ∅)
         values in
  mk entries
     (match entries with
      | [] => 0
      | _ => Z.min focus (Z.of_nat (length entries) - 1)
      end).

Definition extract {A} (self : t A) : result A :=
  match entries self with
  | [] => Raise ValueError
  | _ =>
      match py_getitem (entries self) (focus_index self) with
      | Ok e => Ok (ContextEntry.content e)
      | Raise e => Raise e
      end
  end.

(** The view [duplicate] and [extend] build for position [i]: the same
    entries (a copy of the list), focused at [i]. *)
Definition shifted {A} (self : t A) (i : nat) : t A :=
  mk (entries self) (Z.of_nat i).

Definition duplicate {A} (self : t A) : t (t A) :=
  mk (imap (fun i e =>
              ContextEntry.mk (shifted self i) (ContextEntry.timestamp e)
                              (ContextEntry.focus_weight e) ∅)
           (entries self))
     (focus_index self).

(** The loop of [extend] over the entries [rest], which start at position
    [i] of the store [self]; the function may raise, and the first
    exception ends the loop. *)
Fixpoint extend_loop {A B} (f : t A -> result B) (self : t A) (i : nat)
    (rest : list (ContextEntry.t A)) : result (list (ContextEntry.t B)) :=
  match rest with
  | [] => Ok []
  | e :: rest' =>
      match f (shifted self i) with
      | Raise err => Raise err
      | Ok r =>
          match extend_loop f self (S i) rest' with
          | Raise err => Raise err
          | Ok new_entries =>
              Ok (ContextEntry.mk r (ContextEntry.timestamp e)
                                  (ContextEntry.focus_weight e) ∅
                  :: new_entries)
          end
      end
  end.

Definition extend {A B} (f : t A -> result B) (self : t A) : result (t B) :=
  match extend_loop f self 0 (entries self) with
  | Ok new_entries => Ok (mk new_entries (focus_index self))
  | Raise err => Raise err
  end.

Definition fmap {A B} (f : A -> result B) (self : t A) : result (t B) :=
  extend (fun w => match extract w with
                   | Ok a => f a
                   | Raise err => Raise err
                   end) self.

(** [__eq__]; [content_eq] is [==] on the contents (on nested stores it is
    [__eq__] again). *)
Definition __eq__ {A} (content_eq : A -> A -> bool) (self other : t A)
  : bool :=
  if negb (length (entries self) =? length (entries other))%nat then false
  else if negb (focus_index self =? focus_index other) then false
  else forallb (fun p => content_eq (ContextEntry.content p.1)
                                    (ContextEntry.content p.2))
               (zip (entries self) (entries other)).

End ContextStore.

(** Modelled from the spec: [Observation] (section 3); [comonad.py] is not
    part of the sources.  [current] holds a plain value or another
    observation. *)
#[local] Unset Elimination Schemes.
Inductive Observation : Type :=
| mkObservation (current : Focus) (context : gmap string PyVal)
    (history : list Observation) (metadata : gmap string PyVal)
    (timestamp : Z)
with Focus : Type :=
| Plain (v : PyVal)
| Nested (w : Observation).
#[local] Set Elimination Schemes.

Module Obs.
Definition current (w : Observation) : Focus :=
  match w with mkObservation c _ _ _ _ => c end.
Definition context (w : Observation) : gmap string PyVal :=
  match w with mkObservation _ c _ _ _ => c end.
Definition history (w : Observation) : list Observation :=
  match w with mkObservation _ _ h _ _ => h end.
Definition metadata (w : Observation) : gmap string PyVal :=
  match w with mkObservation _ _ _ m _ => m end.
Definition timestamp (w : Observation) : Z :=
  match w with mkObservation _ _ _ _ t => t end.
End Obs.

Module Comonad.
Section Defs.

Context {World : Type}.
Variable now : World -> Z * World.
(** The two heuristics in [[0,1]] computed from the shape of an
    observation. *)
Variable observation_quality : Observation -> Q.
Variable completeness : Observation -> Q.

(** Modelled from the spec: [extract(w)] is the [current] field
    (section 4.4). *)
Definition extract (w : Observation) : Focus := Obs.current w.

(** Modelled from the spec: [duplicate(w)] (section 4.4): [current] is [w],
    [history] is [[w] + w.history], and [context] and [metadata] are those
    of [w] extended with the meta-observation markers; the tests of
    [test_comonad.py] look for [meta_observation], [original_context_keys],
    [observation_timestamp] and [history_depth] in [context] and for
    [observation_quality] and [completeness] in [metadata]. *)
Definition duplicate (w : Observation) : M World Observation :=
  timestamp ← call now;
  let context :=
    <["history_depth" := VInt (Z.of_nat (length (Obs.history w)))]>
      (<["observation_timestamp" := VInt timestamp]>
      (<["original_context_keys" :=
           VKeys (map fst (map_to_list (Obs.context w)))]>
      (<["meta_observation" := VBool true]> (Obs.context w)))) in
  let metadata :=
    <["completeness" := VFloat (completeness w)]>
      (<["observation_quality" := VFloat (observation_quality w)]>
         (Obs.metadata w)) in
  mret (mkObservation (Nested w) context (w :: Obs.history w) metadata
          timestamp).

End Defs.
End Comonad.

(** [observation_strategy] of [tests/categorical/test_comonad.py]: the
    observation built from the values drawn.  [history_size] is drawn but
    the history stays the empty list; [iso] and [timestamp] are the two
    readings of the clock. *)
Definition observation_strategy (current : Focus) (prompt : string)
    (quality : Q) (meta_level : Z) (iso : string) (history_size : Z)
    (iteration : Z) (source : string) (timestamp : Z) : Observation :=
  let context :=
    <["timestamp" := VStr iso]>
      (<["meta_level" := VInt meta_level]>
      (<["quality" := VFloat quality]>
      (<["prompt" := VStr prompt]> ∅))) in
  let history : list Observation := [] in
  let metadata :=
    <["test" := VBool true]>
      (<["source" := VStr source]>
      (<["iteration" := VInt iteration]> ∅)) in
  mkObservation current context history metadata timestamp.

(* ===================================================================== *)
(** * Counting the calls to the completion collaborator *)
(* ===================================================================== *)

(** A collaborator together with the number of completions asked of it. *)
Definition counted {World} (complete : string -> World -> string * World)
  : string -> World * Z -> string * (World * Z) :=
  fun text s =>
    let (out, w') := complete text s.1 in (out, (w', s.2 + 1)).

(** An operation that is not a completion leaves the count alone. *)
Definition uncounted {World A} (op : World -> A * World)
  : World * Z -> A * (World * Z) :=
  fun s => let (a, w') := op s.1 in (a, (w', s.2)).

(* ===================================================================== *)
(** * [tests/test_natural_transformation_laws.py] *)
(* ===================================================================== *)

Module NatTrans.

Inductive Strategy : Set :=
| ZERO_SHOT
| FEW_SHOT
| CHAIN_OF_THOUGHT
| TREE_OF_THOUGHT
| META_PROMPTING
| SELF_CONSISTENCY
| REACT.

Global Instance Strategy_eq_dec : EqDecision Strategy.
Proof. solve_decision. Defined.

Record Prompt : Type := mkPrompt {
  content : string;
  strategy : Strategy;
  metadata : gmap string PyVal
}.

Record Task : Type := mkTask {
  description : string;
  complexity : string;
  domain : string
}.

(** [' '.join(s.lower().split())] *)
Definition normalize (s : string) : string :=
  PyStr.join " " (PyStr.split (PyStr.lower s)).

(** [Prompt.__eq__]; [hash] is Python's built-in on strings. *)
Definition Prompt_eq (hash : string -> Z) (self other : Prompt) : bool :=
  bool_decide (strategy self = strategy other)
  && (hash (normalize (content self)) =? hash (normalize (content other))).

(** class [PromptFunctor]: the strategy property and [apply]. *)
Record PromptFunctor : Type := mkFunctor {
  functor_strategy : Strategy;
  apply : Task -> Prompt
}.

Definition fmap (self : PromptFunctor) (f : Task -> Task) (task : Task)
  : Prompt :=
  apply self (f task).

Definition ZeroShotFunctor : PromptFunctor :=
  mkFunctor ZERO_SHOT (fun task =>
    mkPrompt (description task) ZERO_SHOT
             (<["task_complexity" := VStr (complexity task)]> ∅)).

Definition FewShotFunctor (num_examples : Z) : PromptFunctor :=
  mkFunctor FEW_SHOT (fun task =>
    let examples :=
      PyStr.join PyStr.nl
        (map (fun i => "Example " +:+ pretty (i + 1) +:+ ":
Input: [example input " +:+ pretty (i + 1) +:+ "]
Output: [example output " +:+ pretty (i + 1) +:+ "]")
             (seqZ 0 num_examples)) in
    let content := examples +:+ "

Now, " +:+ description task in
    mkPrompt content FEW_SHOT
             (<["task_complexity" := VStr (complexity task)]>
                (<["num_examples" := VInt num_examples]> ∅))).

Definition ChainOfThoughtFunctor : PromptFunctor :=
  mkFunctor CHAIN_OF_THOUGHT (fun task =>
    let content := description task +:+ "

Let's think through this step by step:

1. First, I'll analyze the problem
2. Then, I'll identify the key components
3. Next, I'll work through the solution
4. Finally, I'll verify the result" in
    mkPrompt content CHAIN_OF_THOUGHT
             (<["task_complexity" := VStr (complexity task)]>
                (<["reasoning_steps" := VInt 4]> ∅))).

Definition TreeOfThoughtFunctor : PromptFunctor :=
  mkFunctor TREE_OF_THOUGHT (fun task =>
    let content := description task +:+ "

Let's explore multiple reasoning paths:

Branch A: [First approach]
  - Step A1: ...
  - Step A2: ...
  - Evaluate: [score]

Branch B: [Alternative approach]
  - Step B1: ...
  - Step B2: ...
  - Evaluate: [score]

Select best branch and continue..." in
    mkPrompt content TREE_OF_THOUGHT
             (<["task_complexity" := VStr (complexity task)]>
                (<["num_branches" := VInt 2]> ∅))).

Definition MetaPromptingFunctor : PromptFunctor :=
  mkFunctor META_PROMPTING (fun task =>
    let content := "Task: " +:+ description task +:+ "

Meta-analysis:
1. What type of problem is this?
2. What strategy would be most effective?
3. What are the key constraints?

Strategy Selection:
Based on the analysis, I'll use [selected strategy] because [reasoning].

Execution:
[Apply selected strategy]" in
    mkPrompt content META_PROMPTING
             (<["task_complexity" := VStr (complexity task)]>
                (<["adaptive" := VBool true]> ∅))).

(** The registry [FUNCTORS]; a strategy without an entry is a [KeyError]
    for the caller ([None] here). *)
Definition FUNCTORS (s : Strategy) : option PromptFunctor :=
  match s with
  | ZERO_SHOT => Some ZeroShotFunctor
  | FEW_SHOT => Some (FewShotFunctor 3)
  | CHAIN_OF_THOUGHT => Some ChainOfThoughtFunctor
  | TREE_OF_THOUGHT => Some TreeOfThoughtFunctor
  | META_PROMPTING => Some MetaPromptingFunctor
  | SELF_CONSISTENCY | REACT => None
  end.

(** class [NaturalTransformation] *)
Record NaturalTransformation : Type := mkNT {
  source : Strategy;
  target : Strategy;
  transform_fn : Prompt -> Prompt;
  quality_factor : Q
}.

(** [NaturalTransformation.apply], which [__call__] forwards to. *)
Definition nt_apply (self : NaturalTransformation) (prompt : Prompt)
  : result Prompt :=
  if negb (bool_decide (strategy prompt = source self)) then Raise ValueError
  else Ok (transform_fn self prompt).

Definition make_zs_to_cot : NaturalTransformation :=
  mkNT ZERO_SHOT CHAIN_OF_THOUGHT (fun prompt =>
    let cot_content := content prompt +:+ "

Let's think through this step by step:

1. First, I'll analyze the problem
2. Then, I'll identify the key components
3. Next, I'll work through the solution
4. Finally, I'll verify the result" in
    mkPrompt cot_content CHAIN_OF_THOUGHT
             (<["transformed_from" := VStr "zero-shot"]> (metadata prompt)))
    1.25.

Definition make_zs_to_fs (num_examples : Z) : NaturalTransformation :=
  mkNT ZERO_SHOT FEW_SHOT (fun prompt =>
    let examples :=
      PyStr.join PyStr.nl
        (map (fun i => "Example " +:+ pretty (i + 1) +:+ ":
Input: [example input " +:+ pretty (i + 1) +:+ "]
Output: [example output " +:+ pretty (i + 1) +:+ "]")
             (seqZ 0 num_examples)) in
    let fs_content := examples +:+ "

Now, " +:+ content prompt in
    mkPrompt fs_content FEW_SHOT
             (<["transformed_from" := VStr "zero-shot"]>
                (<["num_examples" := VInt num_examples]> (metadata prompt))))
    1.15.

Definition make_cot_to_tot : NaturalTransformation :=
  mkNT CHAIN_OF_THOUGHT TREE_OF_THOUGHT (fun prompt =>
    let base_task :=
      PyStr.strip (PyStr.before "Let's think" (content prompt)) in
    let tot_content := base_task +:+ "

Let's explore multiple reasoning paths:

Branch A: [First approach]
  - Step A1: ...
  - Step A2: ...
  - Evaluate: [score]

Branch B: [Alternative approach]
  - Step B1: ...
  - Step B2: ...
  - Evaluate: [score]

Select best branch and continue..." in
    mkPrompt tot_content TREE_OF_THOUGHT
             (<["transformed_from" := VStr "chain-of-thought"]>
                (<["num_branches" := VInt 2]> (metadata prompt))))
    1.05.

Definition make_fs_to_cot : NaturalTransformation :=
  mkNT FEW_SHOT CHAIN_OF_THOUGHT (fun prompt =>
    let cot_content := content prompt +:+ "

Let's think through this step by step:

1. Looking at the examples above, I notice the pattern
2. The key transformation is...
3. Applying this to the current task...
4. Therefore, the answer is..." in
    mkPrompt cot_content CHAIN_OF_THOUGHT
             (<["transformed_from" := VStr "few-shot"]> (metadata prompt)))
    1.10.

(** The registry [TRANSFORMATIONS], keyed by (source, target). *)
Definition TRANSFORMATIONS (src tgt : Strategy)
  : option NaturalTransformation :=
  match src, tgt with
  | ZERO_SHOT, CHAIN_OF_THOUGHT => Some make_zs_to_cot
  | ZERO_SHOT, FEW_SHOT => Some (make_zs_to_fs 3)
  | CHAIN_OF_THOUGHT, TREE_OF_THOUGHT => Some make_cot_to_tot
  | FEW_SHOT, CHAIN_OF_THOUGHT => Some make_fs_to_cot
  | _, _ => None
  end.

(** [TestNaturalityCondition._semantically_equivalent] *)
Definition _semantically_equivalent (p1 p2 : Prompt) : bool :=
  if negb (bool_decide (strategy p1 = strategy p2)) then false
  else
    let n1 := normalize (content p1) in
    let n2 := normalize (content p2) in
    Qltb (inject_Z (Z.abs (PyStr.len n1 - PyStr.len n2)))
         (inject_Z (Z.max (PyStr.len n1) (PyStr.len n2)) * 0.3).

End NatTrans.

(* ===================================================================== *)
(** * Properties of the quality assessment *)
(* ===================================================================== *)

Section QualityFacts.

Variable render : Prompt.t -> string.

Local Open Scope Q_scope.

(** [min(score, 1.0)] between a base value and one. *)
Lemma clamp_bounds (base score : Q) :
  base <= score -> base <= 1 -> base <= Qmin score 1.0 <= 1.
Proof.
  intros Hs Hb. split.
  - apply Q.min_glb; [exact Hs | lra].
  - pose proof (Q.le_min_r score 1.0). lra.
Qed.

Ltac split_ifs :=
  repeat match goal with
         | |- context [if ?c then _ else _] => destruct c
         end.

Lemma correctness_bounds (output : string) (prompt : Prompt.t) :
  0.5 <= _assess_correctness output prompt <= 1.
Proof.
  unfold _assess_correctness; cbv zeta.
  apply clamp_bounds; [split_ifs; lra | lra].
Qed.

(** One of [len(output) > 50] and [len(output) < 2000] always holds, so
    the correctness score never stays at its base. *)
Lemma correctness_floor (output : string) (prompt : Prompt.t) :
  0.6 <= _assess_correctness output prompt.
Proof.
  unfold _assess_correctness; cbv zeta.
  apply Q.min_glb; [|lra].
  destruct (Z.ltb_spec 50 (PyStr.len output));
    destruct (Z.ltb_spec (PyStr.len output) 2000);
    try lia; split_ifs; lra.
Qed.

Lemma efficiency_bounds (output : string) :
  0.7 <= _assess_efficiency output <= 1.
Proof.
  unfold _assess_efficiency; cbv zeta.
  apply clamp_bounds; [split_ifs; lra | lra].
Qed.

Lemma py_sum_Z_from (xs : list Z) (a : Z) :
  fold_left Z.add xs a = (a + py_sum_Z xs)%Z.
Proof.
  unfold py_sum_Z. revert a.
  induction xs as [|x xs IH]; intros a; simpl; [lia|].
  rewrite (IH (a + x)%Z), (IH (0 + x)%Z). lia.
Qed.

Lemma py_sum_Z_nonneg (xs : list Z) :
  Forall (fun x => (0 <= x)%Z) xs -> (0 <= py_sum_Z xs)%Z.
Proof.
  induction 1 as [|x xs Hx _ IH]; [done|].
  unfold py_sum_Z; simpl. rewrite py_sum_Z_from. lia.
Qed.

(** A count divided by [max(n, 1)] is not negative. *)
Lemma ratio_nonneg (k n : Z) :
  (0 <= k)%Z -> 0 <= inject_Z k / inject_Z (Z.max n 1).
Proof.
  intros Hk.
  apply Qle_shift_div_l.
  - replace 0 with (inject_Z 0) by reflexivity. rewrite <- Zlt_Qlt. lia.
  - rewrite Qmult_0_l.
    replace 0 with (inject_Z 0) by reflexivity. rewrite <- Zle_Qle. exact Hk.
Qed.

Lemma clarity_bounds (output : string) :
  0.5 <= _assess_clarity output <= 1.
Proof.
  unfold _assess_clarity; cbv zeta.
  apply clamp_bounds; [split_ifs; lra | lra].
Qed.

Lemma completeness_bounds (output : string) (prompt : Prompt.t) :
  0.6 <= _assess_completeness render output prompt <= 1.
Proof.
  unfold _assess_completeness; cbv zeta.
  match goal with
  | |- context [inject_Z ?k / inject_Z (Z.max ?n 1)] =>
      assert (Hcov : 0 <= inject_Z k / inject_Z (Z.max n 1));
      [ apply ratio_nonneg, py_sum_Z_nonneg, Forall_forall;
        intros x Hx; apply list_elem_of_In, in_map_iff in Hx as (? & <- & _); lia
      | set (coverage := inject_Z k / inject_Z (Z.max n 1)) in * ]
  end.
  apply clamp_bounds; [split_ifs; lra | lra].
Qed.

(** The weighted sum [assess_quality] computes, term by term. *)
Lemma assess_quality_value (output : string) (prompt : Prompt.t) :
  QualityScore.value (assess_quality render output prompt)
  == 0.4 * _assess_correctness output prompt
     + 0.3 * _assess_clarity output
     + 0.2 * _assess_completeness render output prompt
     + 0.1 * _assess_efficiency output.
Proof.
  unfold assess_quality; cbv zeta; simpl QualityScore.value.
  unfold component_keys, py_sum, weights; simpl map; simpl fold_left.
  repeat (rewrite lookup_total_insert_eq
          || (rewrite lookup_total_insert_ne by done)).
  ring.
Qed.

Lemma assess_quality_components (output : string) (prompt : Prompt.t) :
  QualityScore.components (assess_quality render output prompt)
  = <["efficiency" := _assess_efficiency output]>
      (<["completeness" := _assess_completeness render output prompt]>
      (<["clarity" := _assess_clarity output]>
      (<["correctness" := _assess_correctness output prompt]> ∅))).
Proof. reflexivity. Qed.

End QualityFacts.

Section QualityContract.

Variable render : Prompt.t -> string.

Local Open Scope Q_scope.

(** C6.  For every output and every prompt, [assess_quality] returns a
    score whose [components] has exactly the keys correctness, clarity,
    completeness and efficiency, each with a value in [[0,1]]; whose [value]
    is [0.4*correctness + 0.3*clarity + 0.2*completeness + 0.1*efficiency]
    and lies in [[0,1]]; and the score is a function of the output and the
    prompt alone: equal inputs give equal scores. *)
Theorem assess_quality_shape (output : string) (prompt : Prompt.t) :
  let q := assess_quality render output prompt in
  dom (QualityScore.components q)
    = ({["correctness"; "clarity"; "completeness"; "efficiency"]}
       : gset string)
  /\ (forall k v, QualityScore.components q !! k = Some v -> 0 <= v <= 1)
  /\ QualityScore.value q
     == 0.4 * (QualityScore.components q !!! "correctness")
        + 0.3 * (QualityScore.components q !!! "clarity")
        + 0.2 * (QualityScore.components q !!! "completeness")
        + 0.1 * (QualityScore.components q !!! "efficiency")
  /\ 0 <= QualityScore.value q <= 1
  /\ (forall output' prompt',
        output' = output -> prompt' = prompt ->
        assess_quality render output' prompt' = q).
Proof.
  intros q.
  pose proof (correctness_bounds output prompt) as Hco.
  pose proof (clarity_bounds output) as Hcl.
  pose proof (completeness_bounds render output prompt) as Hcp.
  pose proof (efficiency_bounds output) as Hef.
  pose proof (assess_quality_value render output prompt) as Hv.
  fold q in Hv.
  split; [|split; [|split; [|split]]].
  - subst q. rewrite assess_quality_components.
    rewrite !dom_insert_L, dom_empty_L. set_solver.
  - intros k v Hk. subst q. rewrite assess_quality_components in Hk.
    repeat (apply lookup_insert_Some in Hk as [[_ <-] | [_ Hk]]; [lra|]).
    by rewrite lookup_empty in Hk.
  - subst q. rewrite assess_quality_components.
    repeat (rewrite lookup_total_insert_eq
            || (rewrite lookup_total_insert_ne by done)).
    exact Hv.
  - rewrite Hv. lra.
  - intros output' prompt' -> ->. reflexivity.
Qed.

(** C10.  For every output and every prompt the value of
    [assess_quality] is at least [0.54 = 0.4*0.5 + 0.3*0.5 + 0.2*0.6 +
    0.1*0.7]: every sub-score starts from its base and only grows before it
    is clamped; so a quality of [0] is never assessed.  (The correctness
    score is in fact never below [0.6], which puts the value at [0.58] or
    more.) *)
Theorem assess_quality_floor (output : string) (prompt : Prompt.t) :
  0.5 <= _assess_correctness output prompt
  /\ 0.5 <= _assess_clarity output
  /\ 0.6 <= _assess_completeness render output prompt
  /\ 0.7 <= _assess_efficiency output
  /\ 0.54 == 0.4 * 0.5 + 0.3 * 0.5 + 0.2 * 0.6 + 0.1 * 0.7
  /\ 0.54 <= QualityScore.value (assess_quality render output prompt)
  /\ 0.58 <= QualityScore.value (assess_quality render output prompt)
  /\ ~ QualityScore.value (assess_quality render output prompt) == 0.
Proof.
  pose proof (correctness_bounds output prompt) as Hco.
  pose proof (correctness_floor output prompt) as Hco'.
  pose proof (clarity_bounds output) as Hcl.
  pose proof (completeness_bounds render output prompt) as Hcp.
  pose proof (efficiency_bounds output) as Hef.
  pose proof (assess_quality_value render output prompt) as Hv.
  repeat split; try tauto; try reflexivity.
  - rewrite Hv. lra.
  - rewrite Hv. lra.
  - rewrite Hv. intros H0. lra.
Qed.

End QualityContract.

(* ===================================================================== *)
(** * Properties of [extract_improvement] *)
(* ===================================================================== *)

Lemma extract_improvement_total (mp : MonadPrompt.t) :
  comparable mp -> exists d, extract_improvement mp = Ok d.
Proof.
  unfold comparable, extract_improvement, float_le.
  destruct (prev_quality mp) as [v|]; [|eauto].
  intros [y ->]. destruct (Qle_bool _ y); eauto.
Qed.

Lemma extract_improvement_raises (mp : MonadPrompt.t) (v : PyVal) :
  prev_quality mp = Some v -> as_number v = None ->
  extract_improvement mp = Raise TypeError.
Proof.
  intros Hp Hv. unfold extract_improvement, float_le. by rewrite Hp, Hv.
Qed.

(** What the returned dictionary holds, key by key. *)
Lemma extract_improvement_lookup (mp : MonadPrompt.t)
    (d : gmap string PyVal) :
  extract_improvement mp = Ok d ->
  d !! "needs_clarity" = (if rule_quality mp then Some (VBool true) else None)
  /\ d !! "add_meta_reflection"
     = (if rule_meta_level mp then Some (VBool true) else None)
  /\ d !! "quality_stagnant"
     = (if rule_stagnant mp then Some (VBool true) else None)
  /\ d !! "strategy"
     = (if rule_stagnant mp then Some (VStr "try_different_approach")
        else if rule_meta_level mp then Some (VStr "add_reasoning_steps")
        else if rule_quality mp then Some (VStr "add_structure")
        else None)
  /\ dom d ⊆ ({["needs_clarity"; "add_meta_reflection"; "quality_stagnant";
               "strategy"]} : gset string).
Proof.
  unfold extract_improvement, rule_stagnant.
  destruct (prev_quality mp) as [v|];
    [destruct (float_le _ v) as [[|]|]|];
    intros [= <-];
    destruct (rule_quality mp), (rule_meta_level mp);
    repeat split; try (by simplify_map_eq);
    rewrite ?dom_insert_L, ?dom_empty_L; set_solver.
Qed.

Lemma Qltb_lt (x y : Q) : Qltb x y = true <-> (x < y)%Q.
Proof.
  unfold Qltb. rewrite negb_true_iff, <- not_true_iff_false, Qle_bool_iff.
  split; [apply Qnot_le_lt | apply Qlt_not_le].
Qed.

Lemma Qltb_ge (x y : Q) : Qltb x y = false <-> (y <= x)%Q.
Proof. unfold Qltb. by rewrite negb_false_iff, Qle_bool_iff. Qed.

(** C5 (as stated) fails: at level [0] with a quality of [0.4], a history
    whose last entry records no quality makes the third rule fire, and the
    strategy returned is [try_different_approach]. *)
Lemma extract_improvement_policy_counterexample :
  ~ (forall mp : MonadPrompt.t,
       (QualityScore.value (MonadPrompt.quality mp) < 0.80)%Q ->
       MonadPrompt.meta_level mp = 0 ->
       exists d,
         extract_improvement mp = Ok d
         /\ d !! "needs_clarity" = Some (VBool true)
         /\ d !! "add_meta_reflection" = Some (VBool true)
         /\ d !! "strategy" = Some (VStr "add_reasoning_steps")).
Proof.
  intros H.
  destruct (H TestWorld.stalled) as (d & Hd & _ & _ & Hs);
    [reflexivity | reflexivity |].
  vm_compute in Hd. injection Hd as <-.
  vm_compute in Hs. discriminate Hs.
Qed.

(** C5 (amended).  Whenever the comparison of the third rule is defined,
    [extract_improvement] returns a dictionary in which the flag of every
    rule that matched is [True], no other flag is present, and [strategy]
    is the strategy of the last rule that matched.  In particular, for a
    quality below [0.80] at level [0], when the third rule does not fire,
    it holds [needs_clarity = True], [add_meta_reflection = True] and
    [strategy = 'add_reasoning_steps']. *)
Theorem extract_improvement_policy (mp : MonadPrompt.t) :
  comparable mp ->
  exists d,
    extract_improvement mp = Ok d
    /\ d !! "needs_clarity"
       = (if rule_quality mp then Some (VBool true) else None)
    /\ d !! "add_meta_reflection"
       = (if rule_meta_level mp then Some (VBool true) else None)
    /\ d !! "quality_stagnant"
       = (if rule_stagnant mp then Some (VBool true) else None)
    /\ d !! "strategy"
       = (if rule_stagnant mp then Some (VStr "try_different_approach")
          else if rule_meta_level mp then Some (VStr "add_reasoning_steps")
          else if rule_quality mp then Some (VStr "add_structure")
          else None)
    /\ dom d ⊆ ({["needs_clarity"; "add_meta_reflection";
                 "quality_stagnant"; "strategy"]} : gset string)
    /\ ((QualityScore.value (MonadPrompt.quality mp) < 0.80)%Q ->
        MonadPrompt.meta_level mp = 0 ->
        rule_stagnant mp = false ->
        d !! "needs_clarity" = Some (VBool true)
        /\ d !! "add_meta_reflection" = Some (VBool true)
        /\ d !! "strategy" = Some (VStr "add_reasoning_steps")).
Proof.
  intros Hc. destruct (extract_improvement_total mp Hc) as [d Hd].
  destruct (extract_improvement_lookup mp d Hd) as (H1 & H2 & H3 & H4 & H5).
  exists d. do 6 (split; [assumption|]).
  intros Hq Hm Hs.
  apply Qltb_lt in Hq. fold (rule_quality mp) in Hq.
  assert (rule_meta_level mp = true) as Hm'
    by (unfold rule_meta_level; rewrite Hm; reflexivity).
  rewrite Hq in H1. rewrite Hm' in H2. rewrite Hs, Hm' in H4. done.
Qed.

(** The amended C5 on a value as [unit] returns them. *)
Lemma extract_improvement_policy_witness :
  exists d,
    extract_improvement TestWorld.fresh = Ok d
    /\ d !! "needs_clarity" = Some (VBool true)
    /\ d !! "add_meta_reflection" = Some (VBool true)
    /\ d !! "strategy" = Some (VStr "add_reasoning_steps").
Proof.
  destruct (extract_improvement_policy TestWorld.fresh I)
    as (d & Hd & _ & _ & _ & _ & _ & H).
  exists d. split; [exact Hd|].
  apply H; reflexivity.
Defined.

(* ===================================================================== *)
(** * Running computations *)
(* ===================================================================== *)

Section Runs.

Context {World : Type}.

Lemma run_bind_ok {A B} (m : M World A) (k : A -> M World B)
    (w w' : World) (a : A) :
  m w = (Ok a, w') -> (m ≫= k) w = k a w'.
Proof. intros H. unfold mbind, M_bind. by rewrite H. Qed.

Lemma run_bind_raise {A B} (m : M World A) (k : A -> M World B)
    (w w' : World) (e : exn) :
  m w = (Raise e, w') -> (m ≫= k) w = (Raise e, w').
Proof. intros H. unfold mbind, M_bind. by rewrite H. Qed.

Lemma run_call {A} (op : World -> A * World) (w : World) :
  call op w = (Ok (op w).1, (op w).2).
Proof. unfold call. by destruct (op w). Qed.

Lemma run_ret {A} (a : A) (w : World) :
  (mret a : M World A) w = (Ok a, w).
Proof. reflexivity. Qed.

End Runs.

(* ===================================================================== *)
(** * Properties of the monad *)
(* ===================================================================== *)

Section MonadFacts.

Context {World : Type}.
Variable sha256_hex : string -> string.
Variable now : World -> Z * World.
Variable merge : gmap string Q -> gmap string Q -> gmap string Q.
Variable complete : string -> World -> string * World.
Variable render : Prompt.t -> string.

#[local] Abbreviation monad := (Monad.create_recursive_meta_monad now complete render).
#[local] Abbreviation bind := (Monad.bind now merge).

(** [bind] applies [f], stamps the nested value and hands it to [join]. *)
Lemma bind_run (self : Monad.t) (ma mb : MonadPrompt.t)
    (f : Prompt.t -> M World MonadPrompt.t) (w w1 : World) :
  f (MonadPrompt.prompt ma) w = (Ok mb, w1) ->
  bind self ma f w
  = Monad.join self (Monad.nested merge ma mb (now w1).1) (now w1).2.
Proof.
  intros Hf. unfold Monad.bind.
  rewrite (run_bind_ok _ _ _ _ _ Hf).
  by rewrite (run_bind_ok _ _ _ _ _ (run_call now w1)).
Qed.

Lemma bind_raise (self : Monad.t) (ma : MonadPrompt.t)
    (f : Prompt.t -> M World MonadPrompt.t) (w w1 : World) (e : exn) :
  f (MonadPrompt.prompt ma) w = (Raise e, w1) ->
  bind self ma f w = (Raise e, w1).
Proof. intros Hf. unfold Monad.bind. by rewrite (run_bind_raise _ _ _ _ _ Hf). Qed.

(** [unit] always returns, at level [0] and with an empty history. *)
Lemma unit_run (prompt : Prompt.t) (w : World) :
  exists q ts w',
    Monad.unit monad prompt w
    = (Ok (MonadPrompt.mk prompt q 0 [] ts), w').
Proof.
  simpl. unfold Monad.create_unit.
  rewrite (run_bind_ok _ _ _ _ _ (run_call _ w)).
  rewrite (run_bind_ok _ _ _ _ _ (run_call now _)).
  rewrite run_ret. eauto.
Qed.

(** [join] returns when [extract_improvement] does; it keeps the level and
    the history of the nested value. *)
Lemma join_run (nested : MonadPrompt.t) (d : gmap string PyVal) (w : World) :
  extract_improvement nested = Ok d ->
  exists q ts w',
    Monad.join monad nested w
    = (Ok (MonadPrompt.mk
             (integrate_improvement (MonadPrompt.prompt nested) d) q
             (MonadPrompt.meta_level nested) (MonadPrompt.history nested)
             ts), w').
Proof.
  intros Hd. simpl. unfold Monad.create_join.
  rewrite (run_bind_ok (lift_result _) _ w w d)
    by (unfold lift_result; by rewrite Hd).
  rewrite (run_bind_ok _ _ _ _ _ (run_call _ w)).
  rewrite (run_bind_ok _ _ _ _ _ (run_call now _)).
  rewrite run_ret. eauto.
Qed.

Lemma join_raise (nested : MonadPrompt.t) (e : exn) (w : World) :
  extract_improvement nested = Raise e ->
  Monad.join monad nested w = (Raise e, w).
Proof.
  intros Hd. simpl. unfold Monad.create_join.
  apply run_bind_raise. unfold lift_result. by rewrite Hd.
Qed.

(** The last entry of the history [bind] builds is the prompt of [ma]. *)
Lemma nested_prev_quality (ma mb : MonadPrompt.t) (ts : Z) :
  prev_quality (Monad.nested merge ma mb ts)
  = Some (default (VFloat 0.5)
            (Prompt.context (MonadPrompt.prompt ma) !! "quality")).
Proof. unfold prev_quality. simpl. by rewrite last_snoc. Qed.

Lemma nested_comparable (ma mb : MonadPrompt.t) (ts : Z) :
  records_number (MonadPrompt.prompt ma) ->
  comparable (Monad.nested merge ma mb ts).
Proof. unfold comparable. by rewrite nested_prev_quality. Qed.

(** When [f] returns and the prompt of [ma] records a number, [bind]
    returns, one level above [ma], with the prompt of [ma] appended to the
    history. *)
Lemma bind_returns (ma mb : MonadPrompt.t)
    (f : Prompt.t -> M World MonadPrompt.t) (w w1 : World) :
  f (MonadPrompt.prompt ma) w = (Ok mb, w1) ->
  records_number (MonadPrompt.prompt ma) ->
  exists d q ts w',
    extract_improvement (Monad.nested merge ma mb (now w1).1) = Ok d
    /\ bind monad ma f w
       = (Ok (MonadPrompt.mk
                (integrate_improvement (MonadPrompt.prompt mb) d) q
                (MonadPrompt.meta_level ma + 1)
                (MonadPrompt.history ma ++ [MonadPrompt.prompt ma]) ts), w').
Proof.
  intros Hf Hn.
  destruct (extract_improvement_total _
              (nested_comparable ma mb (now w1).1 Hn)) as [d Hd].
  destruct (join_run _ d (now w1).2 Hd) as (q & ts & w' & Hj).
  exists d, q, ts, w'. split; [exact Hd|].
  rewrite (bind_run _ _ _ _ _ _ Hf). exact Hj.
Qed.

(** Whatever [join] returns is at the level of its argument and carries
    its history. *)
Lemma join_result (nested r : MonadPrompt.t) (w w' : World) :
  Monad.join monad nested w = (Ok r, w') ->
  MonadPrompt.meta_level r = MonadPrompt.meta_level nested
  /\ MonadPrompt.history r = MonadPrompt.history nested.
Proof.
  destruct (extract_improvement nested) as [d|e] eqn:Hd.
  - destruct (join_run nested d w Hd) as (q & ts & w2 & Hj).
    rewrite Hj. intros [= <- _]. split; reflexivity.
  - rewrite (join_raise nested e w Hd). discriminate.
Qed.

(** Whatever [bind] returns is one level above [ma] and has the prompt of
    [ma] appended to the history of [ma]. *)
Lemma bind_result (ma r : MonadPrompt.t)
    (f : Prompt.t -> M World MonadPrompt.t) (w w' : World) :
  bind monad ma f w = (Ok r, w') ->
  MonadPrompt.meta_level r = MonadPrompt.meta_level ma + 1
  /\ MonadPrompt.history r
     = (MonadPrompt.history ma ++ [MonadPrompt.prompt ma])%list.
Proof.
  destruct (f (MonadPrompt.prompt ma) w) as [[mb|e] w1] eqn:Hf.
  - rewrite (bind_run _ _ _ _ _ _ Hf). intros Hj.
    apply join_result in Hj. exact Hj.
  - rewrite (bind_raise _ _ _ _ _ _ Hf). discriminate.
Qed.

(** Two wrapped prompts at different levels are never structurally
    equal. *)
Lemma prompts_equal_levels (mp1 mp2 : MonadPrompt.t) :
  MonadPrompt.meta_level mp1 <> MonadPrompt.meta_level mp2 ->
  Monad._monadic_prompts_equal sha256_hex mp1 mp2 = false.
Proof.
  intros Hne. unfold Monad._monadic_prompts_equal.
  apply Z.eqb_neq in Hne. rewrite Hne. apply andb_false_r.
Qed.

End MonadFacts.

Section MonadContract.

Context {World : Type}.
Variable sha256_hex : string -> string.
Variable now : World -> Z * World.
Variable merge : gmap string Q -> gmap string Q -> gmap string Q.
Variable complete : string -> World -> string * World.
Variable render : Prompt.t -> string.

#[local] Abbreviation monad :=
  (Monad.create_recursive_meta_monad now complete render).
#[local] Abbreviation bind := (Monad.bind now merge).

(** C3.  The value of [tensor_product(q1, q2)] is [min(q1.value,
    q2.value)], for all scores (in particular those in [[0,1]]); so the
    quality of the nested value [bind] builds and hands to [join] exceeds
    neither the quality of [ma] nor the quality of [f(ma.prompt)]. *)
Theorem tensor_product_is_min (q1 q2 : QualityScore.t) :
  QualityScore.value (tensor_product merge q1 q2)
    = Qmin (QualityScore.value q1) (QualityScore.value q2)
  /\ (QualityScore.value (tensor_product merge q1 q2)
      <= QualityScore.value q1)%Q
  /\ (QualityScore.value (tensor_product merge q1 q2)
      <= QualityScore.value q2)%Q
  /\ (forall (self : Monad.t) (ma mb : MonadPrompt.t)
             (f : Prompt.t -> M World MonadPrompt.t) (w w1 : World),
        f (MonadPrompt.prompt ma) w = (Ok mb, w1) ->
        let n := Monad.nested merge ma mb (now w1).1 in
        bind self ma f w = Monad.join self n (now w1).2
        /\ QualityScore.value (MonadPrompt.quality n)
           = Qmin (QualityScore.value (MonadPrompt.quality ma))
                  (QualityScore.value (MonadPrompt.quality mb))
        /\ (QualityScore.value (MonadPrompt.quality n)
            <= QualityScore.value (MonadPrompt.quality ma))%Q
        /\ (QualityScore.value (MonadPrompt.quality n)
            <= QualityScore.value (MonadPrompt.quality mb))%Q).
Proof.
  split; [reflexivity|].
  split; [apply Q.le_min_l|].
  split; [apply Q.le_min_r|].
  intros self ma mb f w w1 Hf n.
  split; [exact (bind_run now merge self ma mb f w w1 Hf)|].
  split; [reflexivity|].
  split; [apply Q.le_min_l | apply Q.le_min_r].
Qed.

(** C4.  For every [ma] and every [f], a value returned by [bind(ma, f)]
    has [meta_level = ma.meta_level + 1] and [history = ma.history +
    [ma.prompt]], and [bind] does return when [f] returns at the prompt of
    [ma] and the quality that prompt records, if any, is a number (the
    comparison inside [join] is then defined); a value returned by [join]
    has the [meta_level] of its argument, not incremented, and its
    [history], unchanged, and [join] returns whenever [extract_improvement]
    does. *)
Theorem bind_bookkeeping (ma : MonadPrompt.t)
    (f : Prompt.t -> M World MonadPrompt.t) (w : World) :
  (forall r w',
      bind monad ma f w = (Ok r, w') ->
      MonadPrompt.meta_level r = MonadPrompt.meta_level ma + 1
      /\ MonadPrompt.history r
         = (MonadPrompt.history ma ++ [MonadPrompt.prompt ma])%list)
  /\ (forall mb w1,
        f (MonadPrompt.prompt ma) w = (Ok mb, w1) ->
        records_number (MonadPrompt.prompt ma) ->
        exists r w', bind monad ma f w = (Ok r, w'))
  /\ (forall (nested r : MonadPrompt.t) (w2 w' : World),
        Monad.join monad nested w2 = (Ok r, w') ->
        MonadPrompt.meta_level r = MonadPrompt.meta_level nested
        /\ MonadPrompt.history r = MonadPrompt.history nested)
  /\ (forall (nested : MonadPrompt.t) (d : gmap string PyVal) (w2 : World),
        extract_improvement nested = Ok d ->
        exists r w', Monad.join monad nested w2 = (Ok r, w')).
Proof.
  split; [|split; [|split]].
  - intros r w'. apply bind_result.
  - intros mb w1 Hf Hn.
    destruct (bind_returns now merge complete render ma mb f w w1 Hf Hn)
      as (d & q & ts & w' & _ & Hb).
    eauto.
  - intros nested r w2 w'. apply join_result.
  - intros nested d w2 Hd.
    destruct (join_run now complete render nested d w2 Hd)
      as (q & ts & w' & Hj).
    eauto.
Qed.

(** C1 (what the code does).  [verify_right_identity(ma)] never returns
    [True]: [bind(ma, unit)] is one level above [ma], and structural
    equality compares the levels.  It returns [False] whenever the quality
    the prompt of [ma] records, if any, is a number. *)
Theorem verify_right_identity_fails (ma : MonadPrompt.t) (w : World) :
  (forall b w',
      Monad.verify_right_identity sha256_hex now merge monad ma w
      = (Ok b, w') ->
      b = false)
  /\ (records_number (MonadPrompt.prompt ma) ->
      exists w', Monad.verify_right_identity sha256_hex now merge monad ma w
                 = (Ok false, w')).
Proof.
  assert (Hfalse : forall r,
             MonadPrompt.meta_level r = MonadPrompt.meta_level ma + 1 ->
             Monad._monadic_prompts_equal sha256_hex r ma = false).
  { intros r Hr. apply prompts_equal_levels. lia. }
  split.
  - intros b w'. unfold Monad.verify_right_identity.
    destruct (bind monad ma (Monad.unit monad) w) as [[r|e] w1] eqn:Hb.
    + rewrite (run_bind_ok _ _ _ _ _ Hb), run_ret.
      apply bind_result in Hb as [Hl _].
      rewrite (Hfalse r Hl). by intros [= <- _].
    + rewrite (run_bind_raise _ _ _ _ _ Hb). discriminate.
  - intros Hn.
    destruct (unit_run now complete render (MonadPrompt.prompt ma) w)
      as (q0 & ts0 & w1 & Hu).
    destruct (bind_returns now merge complete render ma _ _ w w1 Hu Hn)
      as (d & q & ts & w' & _ & Hb).
    exists w'. unfold Monad.verify_right_identity.
    rewrite (run_bind_ok _ _ _ _ _ Hb), run_ret.
    rewrite Hfalse; reflexivity.
Qed.

(** C2 (what the code does).  [verify_left_identity(a, f)] returns [False]
    whenever [f] returns values that are not at level [1], as every [f]
    built from [unit] does: [bind(unit(a), f)] is at level [1]. *)
Theorem verify_left_identity_fails (a : Prompt.t)
    (f : Prompt.t -> M World MonadPrompt.t) (w : World) :
  (forall p w1, exists r w2,
      f p w1 = (Ok r, w2) /\ MonadPrompt.meta_level r <> 1) ->
  records_number a ->
  exists w', Monad.verify_left_identity sha256_hex now merge monad a f w
             = (Ok false, w').
Proof.
  intros Hf Hn.
  destruct (unit_run now complete render a w) as (q0 & ts0 & w1 & Hu).
  set (ua := MonadPrompt.mk a q0 0 [] ts0) in *.
  destruct (Hf a w1) as (mb & w2 & Hfa & _).
  destruct (bind_returns now merge complete render ua mb f w1 w2 Hfa Hn)
    as (d & q & ts & w3 & _ & Hb).
  destruct (Hf a w3) as (r & w4 & Hr & Hlevel).
  exists w4. unfold Monad.verify_left_identity.
  rewrite (run_bind_ok _ _ _ _ _ Hu).
  rewrite (run_bind_ok _ _ _ _ _ Hb).
  rewrite (run_bind_ok _ _ _ _ _ Hr), run_ret.
  rewrite prompts_equal_levels; [reflexivity|]. simpl. lia.
Qed.

End MonadContract.

(* ===================================================================== *)
(** * Runs against the mock client *)
(* ===================================================================== *)

Lemma prompt0_records_number : records_number TestWorld.prompt0.
Proof. exists 0.5%Q. reflexivity. Qed.

(** The test function [f] returns at level [0] on every prompt. *)
Lemma test_f_level (p : Prompt.t) (w1 : TestWorld.t) :
  exists r w2,
    TestWorld.f p w1 = (Ok r, w2) /\ MonadPrompt.meta_level r <> 1.
Proof.
  destruct (unit_run TestWorld.now TestWorld.complete TestWorld.render
              (Prompt.mk ("Enhanced: " +:+ Prompt.template p)
                 (Prompt.variables p)
                 (<["enhanced" := VBool true]> (Prompt.context p))
                 (Prompt.meta_level p)) w1)
    as (q & ts & w2 & Hu).
  eexists _, w2. split; [exact Hu | simpl; lia].
Qed.

(** C4 on the mock client: [bind] of a fresh value with the test
    function. *)
Lemma bind_bookkeeping_witness :
  exists r w',
    Monad.bind TestWorld.now TestWorld.merge TestWorld.monad
               TestWorld.fresh TestWorld.f (TestWorld.init 0.75)
    = (Ok r, w')
    /\ MonadPrompt.meta_level r = MonadPrompt.meta_level TestWorld.fresh + 1
    /\ MonadPrompt.history r
       = (MonadPrompt.history TestWorld.fresh
            ++ [MonadPrompt.prompt TestWorld.fresh])%list.
Proof.
  destruct (bind_bookkeeping TestWorld.now TestWorld.merge
              TestWorld.complete TestWorld.render TestWorld.fresh
              TestWorld.f (TestWorld.init 0.75)) as (Hres & Hret & _).
  destruct (test_f_level (MonadPrompt.prompt TestWorld.fresh)
              (TestWorld.init 0.75)) as (mb & w1 & Hf & _).
  destruct (Hret mb w1 Hf prompt0_records_number) as (r & w' & Hb).
  exists r, w'. split; [exact Hb | exact (Hres r w' Hb)].
Defined.

(** C1 on the mock client: the right identity check answers [False]. *)
Lemma verify_right_identity_fails_witness :
  exists w',
    Monad.verify_right_identity TestWorld.digest TestWorld.now
      TestWorld.merge TestWorld.monad TestWorld.fresh (TestWorld.init 0.75)
    = (Ok false, w').
Proof.
  exact (proj2 (verify_right_identity_fails TestWorld.digest TestWorld.now
                  TestWorld.merge TestWorld.complete TestWorld.render
                  TestWorld.fresh (TestWorld.init 0.75))
               prompt0_records_number).
Defined.

(** C2 on the mock client: the left identity check answers [False]. *)
Lemma verify_left_identity_fails_witness :
  exists w',
    Monad.verify_left_identity TestWorld.digest TestWorld.now
      TestWorld.merge TestWorld.monad TestWorld.prompt0 TestWorld.f
      (TestWorld.init 0.75)
    = (Ok false, w').
Proof.
  exact (verify_left_identity_fails TestWorld.digest TestWorld.now
           TestWorld.merge TestWorld.complete TestWorld.render
           TestWorld.prompt0 TestWorld.f (TestWorld.init 0.75)
           test_f_level prompt0_records_number).
Defined.

(* ===================================================================== *)
(** * Properties of the functor *)
(* ===================================================================== *)

Lemma select_strategy_bands (c : ComplexityAnalysis) :
  ((overall c < 0.3)%Q -> select_strategy c = DirectExecution)
  /\ ((0.3 <= overall c)%Q -> (overall c < 0.7)%Q ->
      select_strategy c = MultiApproachSynthesis)
  /\ ((0.7 <= overall c)%Q -> select_strategy c = AutonomousEvolution).
Proof.
  unfold select_strategy.
  destruct (Qltb (overall c) 0.3) eqn:H3;
    (destruct (Qltb (overall c) 0.7) eqn:H7;
     [apply Qltb_lt in H7 | apply Qltb_ge in H7]);
    [apply Qltb_lt in H3 | apply Qltb_lt in H3
     | apply Qltb_ge in H3 | apply Qltb_ge in H3];
    (split; [|split]); intros; try reflexivity; exfalso; lra.
Qed.

Lemma select_strategy_overall (c c' : ComplexityAnalysis) :
  (overall c' == overall c)%Q -> select_strategy c' = select_strategy c.
Proof.
  intros He.
  destruct (select_strategy_bands c) as (Hd & Hm & Ha).
  destruct (select_strategy_bands c') as (Hd' & Hm' & Ha').
  destruct (Qlt_le_dec (overall c) 0.3) as [H3|H3].
  { rewrite Hd, Hd'; [reflexivity | lra | lra]. }
  destruct (Qlt_le_dec (overall c) 0.7) as [H7|H7].
  { rewrite Hm, Hm'; [reflexivity | lra..]. }
  rewrite Ha, Ha'; [reflexivity | lra..].
Qed.

Section FunctorContract.

Variable analyze_complexity : Task.t -> ComplexityAnalysis.
Variable build_template : Task.t -> Strategy -> string.

(** C7.  The prompt the functor returns for a task carries, under
    [strategy], the strategy selected from the overall complexity alone:
    Direct Execution below [0.3], Multi-Approach Synthesis from [0.3]
    (included) to [0.7] (excluded), Autonomous Evolution from [0.7]
    (included); [0.29], [0.30], [0.69] and [0.70] fall as the bands say, and
    the assertions of [test_strategy_selection_integration] pass. *)
Theorem strategy_selection_threshold (task : Task.t) :
  let p := Functor.map_object analyze_complexity build_template task in
  let c := analyze_complexity task in
  Prompt.context p !! "strategy" = Some (VStrategy (select_strategy c))
  /\ Prompt.context p !! "complexity" = Some (VComplexity c)
  /\ ((overall c < 0.3)%Q -> select_strategy c = DirectExecution)
  /\ ((0.3 <= overall c)%Q -> (overall c < 0.7)%Q ->
      select_strategy c = MultiApproachSynthesis)
  /\ ((0.7 <= overall c)%Q -> select_strategy c = AutonomousEvolution)
  /\ (forall c', (overall c' == overall c)%Q ->
                 select_strategy c' = select_strategy c)
  /\ select_strategy (mkComplexity 0.29) = DirectExecution
  /\ select_strategy (mkComplexity 0.30) = MultiApproachSynthesis
  /\ select_strategy (mkComplexity 0.69) = MultiApproachSynthesis
  /\ select_strategy (mkComplexity 0.70) = AutonomousEvolution
  /\ Functor.test_strategy_selection_integration p = true.
Proof.
  intros p c.
  destruct (select_strategy_bands c) as (Hd & Hm & Ha).
  split; [reflexivity|]. split; [reflexivity|].
  do 3 (split; [assumption|]).
  split; [intros c'; apply select_strategy_overall|].
  do 4 (split; [reflexivity|]).
  unfold Functor.test_strategy_selection_integration, p,
    Functor.map_object; simpl.
  rewrite lookup_insert_eq, lookup_insert_ne, lookup_insert_eq by done.
  fold c. unfold select_strategy.
  destruct (Qltb (overall c) 0.3); [reflexivity|].
  destruct (Qltb (overall c) 0.7); reflexivity.
Qed.

End FunctorContract.

(* ===================================================================== *)
(** * Properties of the comonads *)
(* ===================================================================== *)

Lemma py_getitem_nat {A} (l : list A) (i : nat) (x : A) :
  l !! i = Some x -> py_getitem l (Z.of_nat i) = Ok x.
Proof.
  intros Hi. pose proof (lookup_lt_Some _ _ _ Hi) as Hlt.
  unfold py_getitem.
  destruct (Z.ltb_spec (Z.of_nat i) 0) as [?|_]; [lia|].
  destruct (Z.leb_spec 0 (Z.of_nat i)) as [_|?]; [|lia].
  destruct (Z.ltb_spec (Z.of_nat i) (Z.of_nat (length l))) as [_|?]; [|lia].
  simpl. by rewrite Nat2Z.id, Hi.
Qed.

Lemma py_getitem_error {A} (l : list A) (i : Z) (e : exn) :
  py_getitem l i = Raise e -> e = IndexError.
Proof.
  unfold py_getitem.
  repeat case_match; congruence.
Qed.

Section ComonadContract.

Context {World : Type}.
Variable now : World -> Z * World.
Variable observation_quality : Observation -> Q.
Variable completeness : Observation -> Q.

(** C8.  [duplicate(w)] returns an observation whose [current] is [w]
    itself, whose [history] is [w] followed by the history of [w] (one
    longer, [w] at index [0]), and whose context carries the
    meta-observation markers, with [meta_observation = True] and
    [history_depth = len(w.history)]; [w] is a value of the model and is
    not changed. *)
Theorem duplicate_prepends_history (w : Observation) (σ : World) :
  exists d σ',
    Comonad.duplicate now observation_quality completeness w σ = (Ok d, σ')
    /\ Obs.current d = Nested w
    /\ Comonad.extract d = Nested w
    /\ Obs.history d = w :: Obs.history w
    /\ length (Obs.history d) = S (length (Obs.history w))
    /\ Obs.history d !! 0%nat = Some w
    /\ Obs.context d !! "meta_observation" = Some (VBool true)
    /\ Obs.context d !! "history_depth"
       = Some (VInt (Z.of_nat (length (Obs.history w))))
    /\ is_Some (Obs.context d !! "original_context_keys")
    /\ is_Some (Obs.context d !! "observation_timestamp")
    /\ is_Some (Obs.metadata d !! "observation_quality")
    /\ is_Some (Obs.metadata d !! "completeness").
Proof.
  unfold Comonad.duplicate.
  rewrite (run_bind_ok _ _ _ _ _ (run_call now σ)), run_ret.
  eexists _, _. split; [reflexivity|]. simpl.
  repeat split; by simplify_map_eq.
Qed.



End ComonadContract.

(** The two sides [verify_right_identity] compares on [fresh]: the left
    one comes back from [join] at level [1], around the prompt that
    [integrate_improvement] scaffolded and raised to level [1]; the right
    one is [fresh], at level [0]. *)
Example right_identity_sides :
  match (Monad.bind TestWorld.now TestWorld.merge TestWorld.monad
           TestWorld.fresh (Monad.unit TestWorld.monad)
           (TestWorld.init 0.75)).1 with
  | Ok left_side =>
      MonadPrompt.meta_level left_side = 1
      /\ Prompt.meta_level (MonadPrompt.prompt left_side) = 1
      /\ Prompt.context (MonadPrompt.prompt left_side)
           !! "improvement_strategy" = Some (VStr "add_structure")
      /\ MonadPrompt.meta_level TestWorld.fresh = 0
      /\ Prompt.meta_level (MonadPrompt.prompt TestWorld.fresh) = 0
  | Raise _ => False
  end.
Proof. vm_compute. repeat split. Qed.

(** The two sides [verify_left_identity] compares on [prompt0] and the
    test function [f]: level [1] on the left, level [0] on the right. *)
Example left_identity_sides :
  match ((ua ← Monad.unit TestWorld.monad TestWorld.prompt0;
          left_side ← Monad.bind TestWorld.now TestWorld.merge
                        TestWorld.monad ua TestWorld.f;
          right_side ← TestWorld.f TestWorld.prompt0;
          mret (left_side, right_side)) (TestWorld.init 0.75)).1 with
  | Ok (left_side, right_side) =>
      MonadPrompt.meta_level left_side = 1
      /\ MonadPrompt.meta_level right_side = 0
      /\ Prompt.template (MonadPrompt.prompt right_side)
         = "Enhanced: Solve: {task}"
      /\ Prompt.meta_level (MonadPrompt.prompt left_side) = 1
      /\ Prompt.meta_level (MonadPrompt.prompt right_side) = 0
  | Raise _ => False
  end.
Proof. vm_compute. repeat split. Qed.

(* ===================================================================== *)
(** * Further properties of [quality.py] *)
(* ===================================================================== *)

Lemma contains_here (sub s : string) :
  String.prefix sub s = true -> PyStr.contains sub s = true.
Proof. intros H. destruct s; simpl in *; rewrite H; reflexivity. Qed.

Lemma prefix_app (sub rest : string) : String.prefix sub (sub +:+ rest) = true.
Proof.
  induction sub as [|c sub IH].
  - by destruct rest.
  - change (String c sub +:+ rest) with (String c (sub +:+ rest)). simpl.
    destruct (Ascii.ascii_dec c c); [exact IH | done].
Qed.

Lemma contains_refl (s : string) : PyStr.contains s s = true.
Proof.
  apply contains_here. induction s as [|c s IH]; [reflexivity|].
  simpl. destruct (Ascii.ascii_dec c c); [exact IH | done].
Qed.

(** A text is found inside whatever is written around it. *)
Lemma contains_app (sub pre post : string) :
  PyStr.contains sub (pre +:+ sub +:+ post) = true.
Proof.
  induction pre as [|c pre IH].
  - change ("" +:+ sub +:+ post) with (sub +:+ post).
    apply contains_here, prefix_app.
  - change (String c pre +:+ sub +:+ post)
      with (String c (pre +:+ sub +:+ post)).
    simpl. rewrite IH. apply orb_true_r.
Qed.

Lemma length_app (s1 s2 : string) :
  String.length (s1 +:+ s2) = (String.length s1 + String.length s2)%nat.
Proof.
  induction s1 as [|c s1 IH]; [reflexivity|].
  change (String c s1 +:+ s2) with (String c (s1 +:+ s2)).
  simpl. by rewrite IH.
Qed.

(** The three strategies [integrate_improvement] knows. *)
Lemma eq_str_true (v : PyVal) (s : string) :
  eq_str v s = true <-> v = VStr s.
Proof.
  destruct v; simpl; try (split; [discriminate | congruence]).
  rewrite bool_decide_eq_true. split; congruence.
Qed.

(** X1.  [integrate_improvement] returns a prompt one level above the
    original, with the same variables and the same context entries except
    [improved], set to [True], and [improvement_strategy], set to the
    strategy read (the empty string when the improvement has none).  The
    original template is never lost: it is a substring of the new one; the
    template is unchanged unless the strategy is one of the three known
    ones, in which case it is strictly longer. *)
Theorem integrate_improvement_keeps (prompt : Prompt.t)
    (improvement : gmap string PyVal) :
  let enhanced := integrate_improvement prompt improvement in
  let strategy := default (VStr "") (improvement !! "strategy") in
  Prompt.meta_level enhanced = Prompt.meta_level prompt + 1
  /\ Prompt.variables enhanced = Prompt.variables prompt
  /\ Prompt.context enhanced !! "improved" = Some (VBool true)
  /\ Prompt.context enhanced !! "improvement_strategy" = Some strategy
  /\ (forall k, k <> "improved" -> k <> "improvement_strategy" ->
        Prompt.context enhanced !! k = Prompt.context prompt !! k)
  /\ PyStr.contains (Prompt.template prompt) (Prompt.template enhanced)
     = true
  /\ (strategy <> VStr "add_structure" ->
      strategy <> VStr "add_reasoning_steps" ->
      strategy <> VStr "try_different_approach" ->
      Prompt.template enhanced = Prompt.template prompt)
  /\ (strategy = VStr "add_structure"
      \/ strategy = VStr "add_reasoning_steps"
      \/ strategy = VStr "try_different_approach" ->
      (String.length (Prompt.template prompt)
       < String.length (Prompt.template enhanced))%nat).
Proof.
  intros enhanced strategy. subst enhanced.
  unfold integrate_improvement; cbv zeta. fold strategy. simpl.
  split; [reflexivity|]. split; [reflexivity|].
  split; [by simplify_map_eq|]. split; [by simplify_map_eq|].
  split; [intros k H1 H2; by simplify_map_eq|].
  destruct (eq_str strategy "add_structure") eqn:E1;
    [|destruct (eq_str strategy "add_reasoning_steps") eqn:E2;
      [|destruct (eq_str strategy "try_different_approach") eqn:E3]].
  - split; [apply contains_app|]. split.
    + apply eq_str_true in E1. intros H; contradiction.
    + intros _. rewrite !length_app; simpl. lia.
  - split; [apply contains_app|]. split.
    + apply eq_str_true in E2. intros _ H; contradiction.
    + intros _. rewrite !length_app; simpl. lia.
  - split; [apply contains_app|]. split.
    + apply eq_str_true in E3. intros _ _ H; contradiction.
    + intros _. rewrite !length_app; simpl. lia.
  - split.
    { apply contains_refl. }
    split; [reflexivity|].
    intros [H|[H|H]]; apply eq_str_true in H; congruence.
Qed.

Lemma pieces_all_chars (sep P : ascii -> bool) (s p : string) :
  PyStr.all_chars P s = true ->
  p ∈ PyStr.pieces sep s ->
  PyStr.all_chars (fun c => negb (sep c) && P c) p = true.
Proof.
  revert p. induction s as [|c s IH]; intros p Hs Hp; simpl in *.
  - apply list_elem_of_singleton in Hp as ->. reflexivity.
  - apply andb_true_iff in Hs as [Hc Hs].
    destruct (sep c) eqn:Hsep.
    + apply elem_of_cons in Hp as [->|Hp]; [reflexivity | by apply IH].
    + destruct (PyStr.pieces sep s) as [|h t] eqn:Hps.
      * apply list_elem_of_singleton in Hp as ->. simpl.
        by rewrite Hsep, Hc.
      * apply elem_of_cons in Hp as [->|Hp].
        -- simpl. rewrite Hsep, Hc. simpl. apply IH; [done | left].
        -- apply IH; [done | by right].
Qed.

Lemma lower_char_not_upper (c : ascii) :
  PyStr.is_upper (PyStr.lower_char c) = false.
Proof. destruct c as [[] [] [] [] [] [] [] []]; reflexivity. Qed.

Lemma lower_all_lower (s : string) :
  PyStr.all_chars (fun c => negb (PyStr.is_upper c)) (PyStr.lower s) = true.
Proof.
  induction s as [|c s IH]; [reflexivity|]. simpl.
  by rewrite lower_char_not_upper, IH.
Qed.

Lemma elem_of_List_filter {A} (f : A -> bool) (l : list A) (x : A) :
  x ∈ List.filter f l <-> x ∈ l /\ f x = true.
Proof. rewrite !list_elem_of_In. apply filter_In. Qed.

Lemma pieces_head_prefix (sep : ascii -> bool) (s : string) :
  exists h t, PyStr.pieces sep s = h :: t /\ String.prefix h s = true.
Proof.
  induction s as [|c s (h & t & Hp & Hh)]; simpl.
  - by exists "", [].
  - destruct (sep c); [by exists "", (PyStr.pieces sep s)|].
    rewrite Hp. exists (String c h), t. split; [reflexivity|]. simpl.
    destruct (Ascii.ascii_dec c c); [exact Hh | done].
Qed.

(** Every piece of a text occurs in it. *)
Lemma pieces_contains (sep : ascii -> bool) (s p : string) :
  p ∈ PyStr.pieces sep s -> PyStr.contains p s = true.
Proof.
  revert p. induction s as [|c s IH]; intros p Hp; simpl in Hp.
  - apply list_elem_of_singleton in Hp as ->. reflexivity.
  - destruct (sep c).
    + apply elem_of_cons in Hp as [->|Hp]; [reflexivity|].
      simpl. rewrite (IH _ Hp). apply orb_true_r.
    + destruct (pieces_head_prefix sep s) as (h & t & Hps & Hh).
      rewrite Hps in Hp, IH.
      apply elem_of_cons in Hp as [->|Hp].
      * apply contains_here. simpl.
        destruct (Ascii.ascii_dec c c); [exact Hh | done].
      * simpl. rewrite (IH p); [apply orb_true_r | by right].
Qed.

Lemma py_sum_Z_ones {A} (l : list A) :
  py_sum_Z (map (fun _ => 1) l) = Z.of_nat (length l).
Proof.
  induction l as [|x l IH]; [reflexivity|].
  unfold py_sum_Z in *. simpl. rewrite py_sum_Z_from.
  unfold py_sum_Z. rewrite IH. lia.
Qed.

Lemma List_filter_all {A} (f : A -> bool) (l : list A) :
  (forall x, x ∈ l -> f x = true) -> List.filter f l = l.
Proof.
  induction l as [|x l IH]; intros H; [reflexivity|]. simpl.
  rewrite (H x) by left. f_equal. apply IH. intros y Hy. apply H. by right.
Qed.

Lemma List_filter_none {A} (f : A -> bool) (l : list A) :
  (forall x, x ∈ l -> f x = false) -> List.filter f l = [].
Proof.
  induction l as [|x l IH]; intros H; [reflexivity|]. simpl.
  rewrite (H x) by left. apply IH. intros y Hy. apply H. by right.
Qed.

Section QualityEdges.

Variable render : Prompt.t -> string.

Local Open Scope Q_scope.

(** X3.  The empty output is scored [0.625] whatever the prompt:
    correctness [0.7], clarity [0.5], completeness [0.6] (no keyword of the
    prompt occurs in it) and efficiency [0.75]. *)
Theorem assess_quality_empty_output (prompt : Prompt.t) :
  _assess_correctness "" prompt == 0.7
  /\ _assess_clarity "" == 0.5
  /\ _assess_completeness render "" prompt == 0.6
  /\ _assess_efficiency "" == 0.75
  /\ QualityScore.value (assess_quality render "" prompt) == 0.625.
Proof.
  assert (Hco : _assess_correctness "" prompt == 0.7) by reflexivity.
  assert (Hcl : _assess_clarity "" == 0.5) by reflexivity.
  assert (Hef : _assess_efficiency "" == 0.75) by reflexivity.
  assert (Hcp : _assess_completeness render "" prompt == 0.6).
  { unfold _assess_completeness; cbv zeta.
    rewrite List_filter_none.
    - simpl. unfold py_sum_Z; simpl. change (inject_Z 0) with 0.
      set (d := inject_Z _).
      assert (Hz : 0 / d == 0) by (unfold Qdiv; apply Qmult_0_l).
      rewrite Hz. reflexivity.
    - intros kw Hkw.
      assert (3 < PyStr.len kw)%Z as Hlen.
      { unfold extract_keywords in Hkw; cbv zeta in Hkw.
        apply elem_of_remove_dups, elem_of_List_filter in Hkw as [_ Hkw].
        apply andb_true_iff in Hkw as [_ Hkw]. by apply Z.ltb_lt. }
      destruct kw; [by vm_compute in Hlen | reflexivity]. }
  do 4 (split; [assumption|]).
  rewrite (assess_quality_value render "" prompt), Hco, Hcl, Hef.
  assert (Hcp' : 0.6 <= _assess_completeness render "" prompt <= 0.6)
    by (rewrite Hcp; lra).
  lra.
Qed.

(** X4.  An output that repeats the rendered prompt covers every keyword
    of the prompt: when the prompt has at least one keyword, its
    completeness is at least [0.8]. *)
Theorem completeness_of_echo (prompt : Prompt.t) :
  extract_keywords (render prompt) <> [] ->
  0.8 <= _assess_completeness render (render prompt) prompt.
Proof.
  intros Hne.
  unfold _assess_completeness; cbv zeta.
  rewrite List_filter_all.
  - rewrite py_sum_Z_ones.
    set (n := length (extract_keywords (render prompt))).
    assert (1 <= n)%nat as Hn
      by (subst n; destruct (extract_keywords (render prompt)); simpl;
          [done | lia]).
    replace (Z.max (Z.of_nat n) 1) with (Z.of_nat n) by lia.
    assert (Hone : inject_Z (Z.of_nat n) / inject_Z (Z.of_nat n) == 1).
    { unfold Qdiv. apply Qmult_inv_r.
      change 0 with (inject_Z 0). rewrite inject_Z_injective. lia. }
    set (coverage := inject_Z (Z.of_nat n) / inject_Z (Z.of_nat n)) in *.
    apply Q.min_glb; [|lra].
    repeat match goal with
           | |- context [if ?c then _ else _] => destruct c
           end; lra.
  - intros kw Hkw.
    unfold extract_keywords in Hkw; cbv zeta in Hkw.
    apply elem_of_remove_dups, elem_of_List_filter in Hkw as [Hkw _].
    unfold PyStr.findall_words in Hkw.
    apply elem_of_List_filter in Hkw as [Hkw _].
    by apply pieces_contains in Hkw.
Qed.

End QualityEdges.

(** X4 on the prompt of the mock runs, whose keywords are [solve], [find]
    and [maximum]. *)
Lemma completeness_of_echo_witness :
  (0.8 <= _assess_completeness TestWorld.render
            (TestWorld.render TestWorld.prompt0) TestWorld.prompt0)%Q.
Proof.
  apply completeness_of_echo. vm_compute. intros H. discriminate H.
Defined.

(** X5.  [extract_improvement] raises nothing but [TypeError], and raises
    it exactly when the history is not empty and the context of its last
    entry holds, under [quality], a value that is not a number; the earlier
    entries of the history are not looked at. *)
Theorem extract_improvement_errors (mp : MonadPrompt.t) :
  (forall e, extract_improvement mp = Raise e -> e = TypeError)
  /\ (extract_improvement mp = Raise TypeError <->
      exists prev v,
        last (MonadPrompt.history mp) = Some prev
        /\ Prompt.context prev !! "quality" = Some v
        /\ as_number v = None)
  /\ (forall earlier prev,
        MonadPrompt.history mp = (earlier ++ [prev])%list ->
        forall earlier',
          extract_improvement
            (MonadPrompt.mk (MonadPrompt.prompt mp) (MonadPrompt.quality mp)
               (MonadPrompt.meta_level mp) (earlier' ++ [prev])%list
               (MonadPrompt.timestamp mp))
          = extract_improvement mp).
Proof.
  split; [|split].
  - intros e. unfold extract_improvement, float_le.
    destruct (prev_quality mp) as [v|]; [|discriminate].
    destruct (as_number v); [destruct (Qle_bool _ _); discriminate|].
    congruence.
  - split.
    + unfold extract_improvement, float_le, prev_quality.
      destruct (last (MonadPrompt.history mp)) as [prev|]; simpl;
        [|discriminate].
      destruct (Prompt.context prev !! "quality") as [v|] eqn:Hq; simpl.
      * destruct (as_number v) eqn:Hv;
          [destruct (Qle_bool _ _); discriminate|].
        intros _. by exists prev, v.
      * destruct (Qle_bool _ _); discriminate.
    + intros (prev & v & Hl & Hq & Hv).
      apply (extract_improvement_raises mp v); [|exact Hv].
      unfold prev_quality. rewrite Hl. simpl. by rewrite Hq.
  - intros earlier prev Hh earlier'.
    unfold extract_improvement, prev_quality, rule_quality, rule_meta_level.
    simpl. by rewrite Hh, !last_snoc.
Qed.

(* ===================================================================== *)
(** * Further properties of [monad.py] *)
(* ===================================================================== *)

Lemma integrate_improvement_records (p : Prompt.t)
    (d : gmap string PyVal) :
  records_number p -> records_number (integrate_improvement p d).
Proof.
  unfold records_number, integrate_improvement; simpl.
  by rewrite !lookup_insert_ne by done.
Qed.

Section MonadMore.

Context {World : Type}.
Variable sha256_hex : string -> string.
Variable now : World -> Z * World.
Variable merge : gmap string Q -> gmap string Q -> gmap string Q.
Variable complete : string -> World -> string * World.
Variable render : Prompt.t -> string.

#[local] Abbreviation monad :=
  (Monad.create_recursive_meta_monad now complete render).
#[local] Abbreviation bind := (Monad.bind now merge).
#[local] Abbreviation equal := (Monad._monadic_prompts_equal sha256_hex).

(** [bind] returns, and the prompt it returns records a number, when [f]
    does at the prompt of [ma]. *)
Lemma bind_returns_records (ma : MonadPrompt.t)
    (f : Prompt.t -> M World MonadPrompt.t) (w : World) :
  records_number (MonadPrompt.prompt ma) ->
  (exists mb w1, f (MonadPrompt.prompt ma) w = (Ok mb, w1)
                 /\ records_number (MonadPrompt.prompt mb)) ->
  exists r w', bind monad ma f w = (Ok r, w')
               /\ records_number (MonadPrompt.prompt r).
Proof.
  intros Hn (mb & w1 & Hf & Hmb).
  destruct (bind_returns now merge complete render ma mb f w w1 Hf Hn)
    as (d & q & ts & w' & _ & Hb).
  eexists _, w'. split; [exact Hb|]. simpl.
  by apply integrate_improvement_records.
Qed.


Lemma Qltb_abs_close (x y : Q) :
  (x == y)%Q -> Qltb (Qabs (x - y)) 0.01 = true.
Proof.
  intros H. apply Qltb_lt. apply Qabs_case; intros; lra.
Qed.

(** X7.  The structural equality of wrapped prompts is reflexive and
    symmetric, and looks at nothing but the template and the level of the
    prompt, the quality value and the level of the wrapper: history,
    timestamp, variables, context and quality components do not count.  It
    is not transitive, because of the tolerance on the quality. *)
Theorem monadic_prompts_equal_relation :
  (forall mp, equal mp mp = true)
  /\ (forall a b, equal a b = equal b a)
  /\ (forall a b,
        Prompt.template (MonadPrompt.prompt a)
          = Prompt.template (MonadPrompt.prompt b) ->
        Prompt.meta_level (MonadPrompt.prompt a)
          = Prompt.meta_level (MonadPrompt.prompt b) ->
        (QualityScore.value (MonadPrompt.quality a)
           == QualityScore.value (MonadPrompt.quality b))%Q ->
        MonadPrompt.meta_level a = MonadPrompt.meta_level b ->
        equal a b = true)
  /\ (exists a b c,
        equal a b = true /\ equal b c = true /\ equal a c = false).
Proof.
  assert (Hsame : forall a b,
             Prompt.template (MonadPrompt.prompt a)
               = Prompt.template (MonadPrompt.prompt b) ->
             Prompt.meta_level (MonadPrompt.prompt a)
               = Prompt.meta_level (MonadPrompt.prompt b) ->
             (QualityScore.value (MonadPrompt.quality a)
                == QualityScore.value (MonadPrompt.quality b))%Q ->
             MonadPrompt.meta_level a = MonadPrompt.meta_level b ->
             equal a b = true).
  { intros a b Ht Hl Hq Hm. unfold Monad._monadic_prompts_equal.
    rewrite Hm, Z.eqb_refl, (Qltb_abs_close _ _ Hq).
    unfold Monad._hash_prompt. rewrite Ht, Hl.
    by rewrite bool_decide_eq_true_2. }
  split; [intros mp; by apply Hsame|].
  split.
  { intros a b. unfold Monad._monadic_prompts_equal.
    rewrite Qabs_Qminus, (Z.eqb_sym (MonadPrompt.meta_level a)).
    do 2 f_equal. apply bool_decide_ext. split; congruence. }
  split; [exact Hsame|].
  pose (mk_q := fun q : Q =>
          MonadPrompt.mk TestWorld.prompt0 (QualityScore.mk q ∅) 0 [] 0).
  exists (mk_q 0.80%Q), (mk_q 0.805%Q), (mk_q 0.81%Q).
  unfold Monad._monadic_prompts_equal; simpl.
  rewrite bool_decide_eq_true_2 by reflexivity. done.
Qed.

End MonadMore.

(** The test function [f] returns, on a prompt that records a number, a
    prompt that records the same. *)
Lemma test_f_records (p : Prompt.t) (w0 : TestWorld.t) :
  records_number p ->
  exists r w1, TestWorld.f p w0 = (Ok r, w1)
               /\ records_number (MonadPrompt.prompt r).
Proof.
  intros Hp.
  destruct (unit_run TestWorld.now TestWorld.complete TestWorld.render
              (Prompt.mk ("Enhanced: " +:+ Prompt.template p)
                 (Prompt.variables p)
                 (<["enhanced" := VBool true]> (Prompt.context p))
                 (Prompt.meta_level p)) w0)
    as (q & ts & w1 & Hu).
  eexists _, w1. split; [exact Hu|].
  unfold records_number in *. simpl. by rewrite lookup_insert_ne by done.
Qed.


Section MonadCost.

Context {World : Type}.
Variable now : World -> Z * World.
Variable merge : gmap string Q -> gmap string Q -> gmap string Q.
Variable complete : string -> World -> string * World.
Variable render : Prompt.t -> string.

(** The monad over a collaborator whose completions are counted. *)
#[local] Abbreviation monad :=
  (Monad.create_recursive_meta_monad (uncounted now) (counted complete)
     render).

(** [unit] sends the rendered prompt to the collaborator, assesses what
    comes back and then reads the clock. *)
Lemma counted_unit (prompt : Prompt.t) (s : World * Z) :
  let answer := complete (render prompt) s.1 in
  Monad.unit monad prompt s
  = (Ok (MonadPrompt.mk prompt (assess_quality render answer.1 prompt) 0 []
           (now answer.2).1),
     ((now answer.2).2, s.2 + 1)).
Proof.
  destruct s as [w n]. simpl.
  unfold Monad.create_unit, mbind, M_bind, call, counted, uncounted. simpl.
  destruct (complete (render prompt) w) as [out w1]. simpl.
  by destruct (now w1) as [ts w2].
Qed.

(** [join] sends the rendered enhanced prompt to the collaborator and
    assesses what comes back against the enhanced prompt. *)
Lemma counted_join (nested : MonadPrompt.t) (s : World * Z) :
  match extract_improvement nested with
  | Raise e => Monad.join monad nested s = (Raise e, s)
  | Ok d =>
      let enhanced :=
        integrate_improvement (MonadPrompt.prompt nested) d in
      let answer := complete (render enhanced) s.1 in
      Monad.join monad nested s
      = (Ok (MonadPrompt.mk enhanced
               (assess_quality render answer.1 enhanced)
               (MonadPrompt.meta_level nested)
               (MonadPrompt.history nested) (now answer.2).1),
         ((now answer.2).2, s.2 + 1))
  end.
Proof.
  destruct s as [w n]. simpl.
  unfold Monad.create_join, mbind, M_bind, call, lift_result, counted,
    uncounted.
  destruct (extract_improvement nested) as [d|e]; [|reflexivity]. simpl.
  destruct (complete _ w) as [out w1]. simpl.
  by destruct (now w1) as [ts w2].
Qed.

Lemma assess_quality_lower (output : string) (prompt : Prompt.t) :
  (0.54 <= QualityScore.value (assess_quality render output prompt))%Q.
Proof.
  pose proof (assess_quality_value render output prompt) as Hv.
  pose proof (correctness_bounds output prompt).
  pose proof (clarity_bounds output).
  pose proof (completeness_bounds render output prompt).
  pose proof (efficiency_bounds output).
  rewrite Hv. lra.
Qed.


End MonadCost.

Section MonadScaffold.

Context {World : Type}.
Variable now : World -> Z * World.
Variable merge : gmap string Q -> gmap string Q -> gmap string Q.
Variable complete : string -> World -> string * World.
Variable render : Prompt.t -> string.

#[local] Abbreviation monad :=
  (Monad.create_recursive_meta_monad now complete render).
#[local] Abbreviation bind := (Monad.bind now merge).

(** X9.  The prompt [bind(ma, f)] returns is the prompt of [f(ma.prompt)]
    after [integrate_improvement]: one prompt level higher and marked
    [improved].  Unless [ma.meta_level] is [-1], the strategy applied is
    decided by the minimum [q] of the two qualities and the quality [y]
    recorded by the prompt of [ma] ([0.5] when it records none):
    [try_different_approach] when [q <= y], else [add_structure] when
    [q < 0.80], else none; [add_reasoning_steps] is never applied. *)
Theorem bind_scaffold (ma r : MonadPrompt.t)
    (f : Prompt.t -> M World MonadPrompt.t) (w w' : World) :
  bind monad ma f w = (Ok r, w') ->
  exists mb w1 y,
    f (MonadPrompt.prompt ma) w = (Ok mb, w1)
    /\ as_number (default (VFloat 0.5)
                    (Prompt.context (MonadPrompt.prompt ma) !! "quality"))
       = Some y
    /\ Prompt.meta_level (MonadPrompt.prompt r)
       = Prompt.meta_level (MonadPrompt.prompt mb) + 1
    /\ Prompt.variables (MonadPrompt.prompt r)
       = Prompt.variables (MonadPrompt.prompt mb)
    /\ Prompt.context (MonadPrompt.prompt r) !! "improved"
       = Some (VBool true)
    /\ PyStr.contains (Prompt.template (MonadPrompt.prompt mb))
                      (Prompt.template (MonadPrompt.prompt r)) = true
    /\ (MonadPrompt.meta_level ma <> -1 ->
        let q := Qmin (QualityScore.value (MonadPrompt.quality ma))
                      (QualityScore.value (MonadPrompt.quality mb)) in
        Prompt.context (MonadPrompt.prompt r) !! "improvement_strategy"
        = Some (VStr (if Qle_bool q y then "try_different_approach"
                      else if Qltb q 0.80 then "add_structure"
                      else ""))).
Proof.
  intros Hb.
  destruct (f (MonadPrompt.prompt ma) w) as [[mb|e] w1] eqn:Hf;
    [|rewrite (bind_raise _ _ _ _ _ _ _ _ Hf) in Hb; discriminate].
  rewrite (bind_run _ _ _ _ _ _ _ _ Hf) in Hb.
  set (n := Monad.nested merge ma mb (now w1).1) in *.
  destruct (extract_improvement n) as [d|e] eqn:Hd;
    [|rewrite (join_raise _ _ _ _ _ _ Hd) in Hb; discriminate].
  destruct (join_run now complete render n d (now w1).2 Hd)
    as (q0 & ts & w2 & Hj).
  rewrite Hj in Hb. injection Hb as <- _.
  pose proof (nested_prev_quality merge ma mb (now w1).1) as Hprev.
  fold n in Hprev.
  destruct (as_number (default (VFloat 0.5)
              (Prompt.context (MonadPrompt.prompt ma) !! "quality")))
    as [y|] eqn:Hy.
  2:{ rewrite (extract_improvement_raises n _ Hprev Hy) in Hd.
      discriminate. }
  exists mb, w1, y. split; [reflexivity|]. split; [reflexivity|].
  simpl MonadPrompt.prompt.
  split; [reflexivity|]. split; [reflexivity|].
  split; [unfold integrate_improvement; simpl; by simplify_map_eq|].
  split.
  { unfold integrate_improvement; cbv zeta; simpl.
    repeat match goal with
           | |- context [if ?c then _ else _] => destruct c
           end; first [apply contains_app | apply contains_refl]. }
  intros Hlevel q.
  destruct (extract_improvement_lookup n d Hd) as (_ & _ & _ & Hs & _).
  assert (rule_meta_level n = false) as Hm.
  { unfold rule_meta_level, n; simpl. apply Z.eqb_neq. lia. }
  assert (rule_stagnant n = Qle_bool q y) as Hst.
  { unfold rule_stagnant, float_le. rewrite Hprev, Hy. reflexivity. }
  assert (rule_quality n = Qltb q 0.80) as Hq by reflexivity.
  rewrite Hm, Hst, Hq in Hs.
  unfold integrate_improvement; simpl.
  rewrite lookup_insert_eq, Hs.
  destruct (Qle_bool q y); [reflexivity|].
  destruct (Qltb q 0.80); reflexivity.
Qed.

End MonadScaffold.

(** X9 on the mock client: a fresh value at [0.735] bound with the test
    function gets the structure scaffold. *)
Lemma bind_scaffold_witness :
  exists r w',
    Monad.bind TestWorld.now TestWorld.merge TestWorld.monad
               TestWorld.fresh TestWorld.f (TestWorld.init 0.75)
    = (Ok r, w')
    /\ Prompt.context (MonadPrompt.prompt r) !! "improvement_strategy"
       = Some (VStr "add_structure").
Proof.
  destruct (Monad.bind TestWorld.now TestWorld.merge TestWorld.monad
              TestWorld.fresh TestWorld.f (TestWorld.init 0.75))
    as [[r|e] w'] eqn:Hb; [|vm_compute in Hb; discriminate Hb].
  exists r, w'. split; [reflexivity|].
  destruct (bind_scaffold TestWorld.now TestWorld.merge TestWorld.complete
              TestWorld.render TestWorld.fresh r TestWorld.f
              (TestWorld.init 0.75) w' Hb)
    as (mb & w1 & y & Hf & Hy & _ & _ & _ & _ & Hs).
  vm_compute in Hf. injection Hf as <- <-.
  vm_compute in Hy. injection Hy as <-.
  assert (Hlevel : MonadPrompt.meta_level TestWorld.fresh <> -1)
    by (vm_compute; intros H; discriminate H).
  specialize (Hs Hlevel). cbv zeta in Hs. rewrite Hs.
  vm_compute. reflexivity.
Defined.

(* ===================================================================== *)
(** * Further properties of the [ContextStore] comonad *)
(* ===================================================================== *)

Section StoreFacts.

Context {A : Type}.
Implicit Types (cs : ContextStore.t A) (e : ContextEntry.t A).

Lemma shifted_focus cs (i : nat) :
  ContextStore.focus_index cs = Z.of_nat i -> ContextStore.shifted cs i = cs.
Proof. destruct cs as [es fi]. simpl. by intros ->. Qed.

Lemma extract_at cs (i : nat) e :
  ContextStore.entries cs !! i = Some e ->
  ContextStore.focus_index cs = Z.of_nat i ->
  ContextStore.extract cs = Ok (ContextEntry.content e).
Proof.
  intros Hi Hf. unfold ContextStore.extract.
  rewrite Hf, (py_getitem_nat _ _ _ Hi).
  destruct (ContextStore.entries cs); [by rewrite lookup_nil in Hi | done].
Qed.

Lemma extract_shifted cs (i : nat) e :
  ContextStore.entries cs !! i = Some e ->
  ContextStore.extract (ContextStore.shifted cs i)
  = Ok (ContextEntry.content e).
Proof. intros Hi. by apply (extract_at _ i). Qed.

(** [l[i]] for a negative index that is in range. *)
Lemma py_getitem_negative {X} (l : list X) (i : Z) :
  - Z.of_nat (length l) <= i < 0 ->
  exists x, l !! Z.to_nat (Z.of_nat (length l) + i) = Some x
            /\ py_getitem l i = Ok x.
Proof.
  intros Hi. unfold py_getitem.
  destruct (Z.ltb_spec i 0) as [_|?]; [|lia].
  destruct (Z.leb_spec 0 (Z.of_nat (length l) + i)) as [_|?]; [|lia].
  destruct (Z.ltb_spec (Z.of_nat (length l) + i) (Z.of_nat (length l)))
    as [_|?]; [|lia].
  simpl.
  destruct (lookup_lt_is_Some_2 l (Z.to_nat (Z.of_nat (length l) + i)))
    as [x Hx]; [lia|].
  exists x. by rewrite Hx.
Qed.

Lemma py_getitem_out_of_range {X} (l : list X) (i : Z) :
  i < - Z.of_nat (length l) \/ Z.of_nat (length l) <= i ->
  py_getitem l i = Raise IndexError.
Proof.
  intros Hi. unfold py_getitem.
  destruct (Z.ltb_spec i 0).
  - destruct (Z.leb_spec 0 (Z.of_nat (length l) + i)); [lia | done].
  - destruct (Z.leb_spec 0 i); [|lia].
    destruct (Z.ltb_spec i (Z.of_nat (length l))); [lia | done].
Qed.

Lemma extract_negative cs :
  - Z.of_nat (length (ContextStore.entries cs))
    <= ContextStore.focus_index cs < 0 ->
  exists e,
    ContextStore.entries cs
      !! Z.to_nat (Z.of_nat (length (ContextStore.entries cs))
                   + ContextStore.focus_index cs) = Some e
    /\ ContextStore.extract cs = Ok (ContextEntry.content e).
Proof.
  intros Hi. unfold ContextStore.extract.
  destruct (py_getitem_negative _ _ Hi) as (e & He & Hg).
  exists e. split; [exact He|]. rewrite Hg.
  destruct (ContextStore.entries cs); [by rewrite lookup_nil in He | done].
Qed.

Lemma duplicate_lookup cs (i : nat) :
  ContextStore.entries (ContextStore.duplicate cs) !! i
  = (fun e => ContextEntry.mk (ContextStore.shifted cs i)
                (ContextEntry.timestamp e) (ContextEntry.focus_weight e) ∅)
    <$> ContextStore.entries cs !! i.
Proof. unfold ContextStore.duplicate; simpl. apply list_lookup_imap. Qed.

End StoreFacts.

(** X10.  [duplicate] followed by [extract] gives the store back when the
    focus index is a position of the store; for a negative index in range
    it gives the store refocused at the position counted from the end,
    which [__eq__] tells apart from the original; on an empty store it
    raises [ValueError], and on an index out of range [IndexError]. *)
Theorem duplicate_then_extract {A} (cs : ContextStore.t A) :
  let n := Z.of_nat (length (ContextStore.entries cs)) in
  let i := ContextStore.focus_index cs in
  (0 <= i < n ->
   ContextStore.extract (ContextStore.duplicate cs) = Ok cs)
  /\ (- n <= i < 0 ->
      ContextStore.extract (ContextStore.duplicate cs)
      = Ok (ContextStore.mk (ContextStore.entries cs) (n + i))
      /\ forall content_eq,
           ContextStore.__eq__ content_eq
             (ContextStore.mk (ContextStore.entries cs) (n + i)) cs
           = false)
  /\ (n = 0 ->
      ContextStore.extract (ContextStore.duplicate cs) = Raise ValueError)
  /\ (0 < n -> i < - n \/ n <= i ->
      ContextStore.extract (ContextStore.duplicate cs) = Raise IndexError).
Proof.
  intros n i.
  assert (Hlen : length (ContextStore.entries (ContextStore.duplicate cs))
                 = length (ContextStore.entries cs))
    by apply length_imap.
  split; [|split; [|split]].
  - intros Hi.
    destruct (lookup_lt_is_Some_2 (ContextStore.entries cs) (Z.to_nat i))
      as [e He]; [lia|].
    rewrite (extract_at (ContextStore.duplicate cs) (Z.to_nat i)
               (ContextEntry.mk (ContextStore.shifted cs (Z.to_nat i))
                  (ContextEntry.timestamp e) (ContextEntry.focus_weight e)
                  ∅)).
    + simpl. f_equal. apply shifted_focus. subst i. lia.
    + by rewrite duplicate_lookup, He.
    + simpl. subst i. lia.
  - intros Hi. split.
    + destruct (extract_negative (ContextStore.duplicate cs))
        as (x & Hx & ->); [rewrite Hlen; simpl; subst n i; lia|].
      rewrite Hlen, duplicate_lookup in Hx. simpl in Hx.
      destruct (ContextStore.entries cs !! _) as [e|]; [|done].
      injection Hx as <-. simpl. unfold ContextStore.shifted.
      do 2 f_equal. subst n i. lia.
    + intros content_eq. unfold ContextStore.__eq__. simpl.
      rewrite Nat.eqb_refl. simpl.
      destruct (Z.eqb_spec (n + i) (ContextStore.focus_index cs));
        [subst n i; lia | reflexivity].
  - intros Hn. unfold ContextStore.extract.
    destruct (ContextStore.entries (ContextStore.duplicate cs));
      [reflexivity | simpl in Hlen; subst n; lia].
  - intros Hn Hi. unfold ContextStore.extract.
    change (ContextStore.focus_index (ContextStore.duplicate cs)) with i.
    rewrite py_getitem_out_of_range by (rewrite Hlen; subst n; lia).
    destruct (ContextStore.entries (ContextStore.duplicate cs));
      [simpl in Hlen; subst n; lia | reflexivity].
Qed.

Section ExtendFacts.

Context {A B : Type}.
Implicit Types (cs : ContextStore.t A) (f : ContextStore.t A -> result B).

(** What the loop of [extend] returns, entry by entry. *)
Lemma extend_loop_ok f cs (i : nat) (rest : list (ContextEntry.t A))
    (es : list (ContextEntry.t B)) :
  ContextStore.extend_loop f cs i rest = Ok es <->
  length es = length rest
  /\ forall j e, rest !! j = Some e ->
       exists r, f (ContextStore.shifted cs (i + j)) = Ok r
                 /\ es !! j = Some (ContextEntry.mk r
                                      (ContextEntry.timestamp e)
                                      (ContextEntry.focus_weight e) ∅).
Proof.
  revert i es. induction rest as [|e rest IH]; intros i es; simpl.
  - split.
    + intros [= <-]. split; [reflexivity|]. intros j e. by rewrite lookup_nil.
    + intros [Hl _]. destruct es; [reflexivity | discriminate].
  - split.
    + destruct (f (ContextStore.shifted cs i)) as [r|err] eqn:Hf;
        [|discriminate].
      destruct (ContextStore.extend_loop f cs (S i) rest) as [es'|err] eqn:Hl;
        [|discriminate].
      intros [= <-]. apply IH in Hl as [Hlen Hes].
      split; [simpl; by rewrite Hlen|].
      intros [|j] e'; simpl.
      * intros [= <-]. exists r. by rewrite Nat.add_0_r.
      * intros Hj. destruct (Hes j e' Hj) as (r' & Hr' & He').
        exists r'. by rewrite Nat.add_succ_r.
    + intros [Hlen Hes].
      destruct es as [|x es']; [discriminate|].
      destruct (Hes 0%nat e eq_refl) as (r & Hr & Hx).
      rewrite Nat.add_0_r in Hr. rewrite Hr. injection Hx as ->.
      assert (ContextStore.extend_loop f cs (S i) rest = Ok es') as ->.
      { apply IH. split; [simpl in Hlen; lia|].
        intros j e' Hj. destruct (Hes (S j) e' Hj) as (r' & Hr' & He').
        exists r'. by rewrite Nat.add_succ_r in Hr'. }
      reflexivity.
Qed.

(** The first failure of [f] is the failure of the loop. *)
Lemma extend_loop_raise f cs (i : nat) (rest : list (ContextEntry.t A))
    (err : exn) :
  ContextStore.extend_loop f cs i rest = Raise err <->
  exists j, (j < length rest)%nat
            /\ f (ContextStore.shifted cs (i + j)) = Raise err
            /\ forall k, (k < j)%nat ->
                 exists r, f (ContextStore.shifted cs (i + k)) = Ok r.
Proof.
  revert i. induction rest as [|e rest IH]; intros i; simpl.
  - split; [discriminate | intros (j & Hj & _); lia].
  - destruct (f (ContextStore.shifted cs i)) as [r|err'] eqn:Hf.
    + destruct (ContextStore.extend_loop f cs (S i) rest) as [es'|err'] eqn:Hl.
      * split; [discriminate|].
        intros (j & Hj & Hr & Hbefore). exfalso.
        destruct j as [|j]; [rewrite Nat.add_0_r in Hr; congruence|].
        assert (ContextStore.extend_loop f cs (S i) rest = Raise err)
          as Habs; [|congruence].
        apply IH. exists j. split; [lia|].
        rewrite Nat.add_succ_r in Hr. split; [exact Hr|].
        intros k Hk. destruct (Hbefore (S k)) as [r' Hr']; [lia|].
        exists r'. by rewrite Nat.add_succ_r in Hr'.
      * split.
        -- intros [= ->]. apply IH in Hl as (j & Hj & Hr & Hbefore).
           exists (S j). split; [lia|].
           rewrite Nat.add_succ_r. split; [exact Hr|].
           intros [|k] Hk; [rewrite Nat.add_0_r; eauto|].
           rewrite Nat.add_succ_r. apply Hbefore. lia.
        -- intros (j & Hj & Hr & Hbefore).
           destruct j as [|j]; [rewrite Nat.add_0_r in Hr; congruence|].
           assert (ContextStore.extend_loop f cs (S i) rest = Raise err)
             as Habs; [|congruence].
           apply IH. exists j. split; [lia|].
           rewrite Nat.add_succ_r in Hr. split; [exact Hr|].
           intros k Hk. destruct (Hbefore (S k)) as [r' Hr']; [lia|].
           exists r'. by rewrite Nat.add_succ_r in Hr'.
    + split.
      * intros [= ->]. exists 0%nat. split; [lia|].
        rewrite Nat.add_0_r. split; [exact Hf|]. intros k Hk. lia.
      * intros (j & Hj & Hr & Hbefore).
        destruct j as [|j]; [rewrite Nat.add_0_r in Hr; congruence|].
        destruct (Hbefore 0%nat) as [r' Hr']; [lia|].
        rewrite Nat.add_0_r in Hr'. congruence.
Qed.

End ExtendFacts.

Section StoreLaws.

Context {A : Type}.
Implicit Types (cs : ContextStore.t A).

(** An entry without its metadata: what [extend] writes for an entry whose
    content it keeps. *)
#[local] Abbreviation bare :=
  (fun e : ContextEntry.t A =>
     ContextEntry.mk (ContextEntry.content e) (ContextEntry.timestamp e)
                     (ContextEntry.focus_weight e) ∅).

Lemma eq_bare (content_eq : A -> A -> bool) cs :
  (forall a, content_eq a a = true) ->
  ContextStore.__eq__ content_eq
    (ContextStore.mk (bare <$> ContextStore.entries cs)
                     (ContextStore.focus_index cs)) cs = true.
Proof.
  intros Hrefl.
  assert (Hall : forall es : list (ContextEntry.t A),
             forallb (fun p => content_eq (ContextEntry.content p.1)
                                          (ContextEntry.content p.2))
                     (zip (bare <$> es) es) = true).
  { induction es as [|e es IH]; [reflexivity|].
    simpl. rewrite Hrefl. exact IH. }
  unfold ContextStore.__eq__.
  cbn [ContextStore.entries ContextStore.focus_index].
  by rewrite length_fmap, Nat.eqb_refl, Z.eqb_refl, Hall.
Qed.

Lemma bare_id (es : list (ContextEntry.t A)) :
  Forall (fun e => ContextEntry.metadata e = ∅) es -> bare <$> es = es.
Proof.
  induction 1 as [|[c t fw m] es Hm _ IH]; [reflexivity|].
  rewrite fmap_cons. f_equal; [|exact IH]. simpl in *. by rewrite Hm.
Qed.

(** X11.  [extend(extract)] returns, on every store, the store with the
    same contents, timestamps, weights and focus index and with the
    metadata of every entry emptied: a store [__eq__] to the original, and
    the original itself when no entry carries metadata.  The focus index
    need not be in range. *)
Theorem extend_extract_identity cs :
  ContextStore.extend ContextStore.extract cs
  = Ok (ContextStore.mk (bare <$> ContextStore.entries cs)
                        (ContextStore.focus_index cs))
  /\ (forall content_eq,
        (forall a, content_eq a a = true) ->
        ContextStore.__eq__ content_eq
          (ContextStore.mk (bare <$> ContextStore.entries cs)
                           (ContextStore.focus_index cs)) cs = true)
  /\ (Forall (fun e => ContextEntry.metadata e = ∅)
             (ContextStore.entries cs) ->
      ContextStore.extend ContextStore.extract cs = Ok cs).
Proof.
  assert (Hext : ContextStore.extend ContextStore.extract cs
                 = Ok (ContextStore.mk (bare <$> ContextStore.entries cs)
                                       (ContextStore.focus_index cs))).
  { unfold ContextStore.extend.
    assert (ContextStore.extend_loop ContextStore.extract cs 0
              (ContextStore.entries cs)
            = Ok (bare <$> ContextStore.entries cs)) as ->; [|reflexivity].
    apply extend_loop_ok. split; [apply length_fmap|].
    intros j e Hj. exists (ContextEntry.content e). split.
    - by apply extract_shifted.
    - by rewrite list_lookup_fmap, Hj. }
  split; [exact Hext|]. split; [intros ceq; apply eq_bare|].
  intros Hm. rewrite Hext, (bare_id _ Hm). by destruct cs.
Qed.

(** X12.  [fmap(extract)] over [duplicate] returns, on every store, the
    store with the same contents, timestamps, weights and focus index and
    empty metadata: a store [__eq__] to the original. *)
Theorem fmap_extract_duplicate cs :
  ContextStore.fmap ContextStore.extract (ContextStore.duplicate cs)
  = Ok (ContextStore.mk (bare <$> ContextStore.entries cs)
                        (ContextStore.focus_index cs))
  /\ (forall content_eq,
        (forall a, content_eq a a = true) ->
        ContextStore.__eq__ content_eq
          (ContextStore.mk (bare <$> ContextStore.entries cs)
                           (ContextStore.focus_index cs)) cs = true).
Proof.
  split; [|intros ceq; apply eq_bare].
  unfold ContextStore.fmap, ContextStore.extend.
  match goal with
  | |- context [ContextStore.extend_loop ?f ?d 0 ?r] =>
      assert (ContextStore.extend_loop f d 0 r
              = Ok (bare <$> ContextStore.entries cs)) as ->;
        [|reflexivity]
  end.
  apply extend_loop_ok. split.
  { rewrite length_fmap. unfold ContextStore.duplicate; simpl.
    by rewrite length_imap. }
  intros j e Hj. rewrite duplicate_lookup in Hj.
  destruct (ContextStore.entries cs !! j) as [e0|] eqn:He0; [|done].
  injection Hj as <-. exists (ContextEntry.content e0). simpl. split.
  - rewrite (extract_shifted (ContextStore.duplicate cs) j
               (ContextEntry.mk (ContextStore.shifted cs j)
                  (ContextEntry.timestamp e0)
                  (ContextEntry.focus_weight e0) ∅))
      by (by rewrite duplicate_lookup, He0).
    simpl. by apply extract_shifted.
  - by rewrite list_lookup_fmap, He0.
Qed.

(** X13.  [duplicate] keeps the number of entries and the focus index;
    the entry at position [i] holds the view of the original focused at
    [i], from which [extract] gives the content of the original entry at
    [i]; timestamps and weights are kept and the metadata of the entries
    is dropped. *)
Theorem duplicate_views cs :
  length (ContextStore.entries (ContextStore.duplicate cs))
  = length (ContextStore.entries cs)
  /\ ContextStore.focus_index (ContextStore.duplicate cs)
     = ContextStore.focus_index cs
  /\ forall (i : nat) e,
       ContextStore.entries cs !! i = Some e ->
       exists view,
         ContextStore.entries (ContextStore.duplicate cs) !! i = Some view
         /\ ContextStore.entries (ContextEntry.content view)
            = ContextStore.entries cs
         /\ ContextStore.focus_index (ContextEntry.content view)
            = Z.of_nat i
         /\ ContextStore.extract (ContextEntry.content view)
            = Ok (ContextEntry.content e)
         /\ ContextEntry.timestamp view = ContextEntry.timestamp e
         /\ ContextEntry.focus_weight view = ContextEntry.focus_weight e
         /\ ContextEntry.metadata view = ∅.
Proof.
  split; [apply length_imap|]. split; [reflexivity|].
  intros i e He. eexists. rewrite duplicate_lookup, He. simpl.
  split; [reflexivity|]. simpl.
  split; [reflexivity|]. split; [reflexivity|].
  split; [by apply extract_shifted | done].
Qed.

End StoreLaws.

Section StoreExtend.

Context {A B : Type}.
Implicit Types (cs : ContextStore.t A) (f : ContextStore.t A -> result B).

(** X14.  When [extend(f)] returns and the focus index is a position of
    the store, extracting from the result gives what [f] gives on the
    store; and [extend(f)] raises exactly the first exception [f] raises
    on the views of the store, taken in order. *)
Theorem extract_after_extend f cs :
  (forall out : ContextStore.t B,
      ContextStore.extend f cs = Ok out ->
      0 <= ContextStore.focus_index cs
        < Z.of_nat (length (ContextStore.entries cs)) ->
      f cs = ContextStore.extract out
      /\ length (ContextStore.entries out)
         = length (ContextStore.entries cs)
      /\ ContextStore.focus_index out = ContextStore.focus_index cs)
  /\ (forall err,
        ContextStore.extend f cs = Raise err <->
        exists j, (j < length (ContextStore.entries cs))%nat
                  /\ f (ContextStore.shifted cs j) = Raise err
                  /\ forall k, (k < j)%nat ->
                       exists r, f (ContextStore.shifted cs k) = Ok r).
Proof.
  split.
  - intros out He Hi.
    unfold ContextStore.extend in He.
    destruct (ContextStore.extend_loop f cs 0 (ContextStore.entries cs))
      as [es|err] eqn:Hl; [|discriminate].
    injection He as <-. apply extend_loop_ok in Hl as [Hlen Hes].
    destruct (lookup_lt_is_Some_2 (ContextStore.entries cs)
                (Z.to_nat (ContextStore.focus_index cs)))
      as [e He]; [lia|].
    destruct (Hes _ e He) as (r & Hr & Her). simpl in Hr.
    rewrite shifted_focus in Hr by lia.
    split; [|done].
    rewrite Hr. symmetry.
    apply (extract_at (ContextStore.mk es (ContextStore.focus_index cs))
             (Z.to_nat (ContextStore.focus_index cs)) _ Her).
    simpl. lia.
  - intros err. unfold ContextStore.extend.
    rewrite <- (extend_loop_raise f cs 0 (ContextStore.entries cs) err).
    destruct (ContextStore.extend_loop f cs 0 (ContextStore.entries cs));
      split; congruence.
Qed.

End StoreExtend.

Section StoreComposition.

Context {A B C : Type}.

(** Two loops that see the same stamps and the same results agree. *)
Lemma extend_loop_ext {A1 A2 R} (f1 : ContextStore.t A1 -> result R)
    (s1 : ContextStore.t A1) (f2 : ContextStore.t A2 -> result R)
    (s2 : ContextStore.t A2) (i : nat)
    (rest1 : list (ContextEntry.t A1)) (rest2 : list (ContextEntry.t A2)) :
  Forall2 (fun e1 e2 =>
             ContextEntry.timestamp e1 = ContextEntry.timestamp e2
             /\ ContextEntry.focus_weight e1 = ContextEntry.focus_weight e2)
          rest1 rest2 ->
  (forall j, f1 (ContextStore.shifted s1 j)
             = f2 (ContextStore.shifted s2 j)) ->
  ContextStore.extend_loop f1 s1 i rest1
  = ContextStore.extend_loop f2 s2 i rest2.
Proof.
  intros Hst Hf. revert i.
  induction Hst as [|e1 e2 r1 r2 [Ht Hw] _ IH]; intros i; [reflexivity|].
  simpl. rewrite Hf, (IH (S i)), Ht, Hw. reflexivity.
Qed.

Lemma extend_loop_stamps (g : ContextStore.t A -> result B)
    (cs : ContextStore.t A) (i : nat) (rest : list (ContextEntry.t A))
    (es : list (ContextEntry.t B)) :
  ContextStore.extend_loop g cs i rest = Ok es ->
  Forall2 (fun e1 e2 =>
             ContextEntry.timestamp e1 = ContextEntry.timestamp e2
             /\ ContextEntry.focus_weight e1 = ContextEntry.focus_weight e2)
          es rest.
Proof.
  revert i es. induction rest as [|e rest IH]; intros i es; simpl.
  - intros [= <-]. constructor.
  - destruct (g (ContextStore.shifted cs i)); [|discriminate].
    destruct (ContextStore.extend_loop g cs (S i) rest) eqn:Hl;
      [|discriminate].
    intros [= <-]. constructor; [done | by eapply IH].
Qed.

(** X15.  [extend] composes: [extend(f)] after [extend(g)] is [extend] of
    the function that applies [f] to the result of [extend(g)], with the
    same store or the same exception on either side. *)
Theorem extend_composition (g : ContextStore.t A -> result B)
    (f : ContextStore.t B -> result C) (cs : ContextStore.t A) :
  match ContextStore.extend g cs with
  | Ok mid => ContextStore.extend f mid
  | Raise err => Raise err
  end
  = ContextStore.extend
      (fun w => match ContextStore.extend g w with
                | Ok mid => f mid
                | Raise err => Raise err
                end) cs.
Proof.
  assert (Hview : forall j,
             ContextStore.extend g (ContextStore.shifted cs j)
             = match ContextStore.extend_loop g cs 0
                       (ContextStore.entries cs) with
               | Ok es => Ok (ContextStore.mk es (Z.of_nat j))
               | Raise err => Raise err
               end).
  { intros j. unfold ContextStore.extend. simpl.
    rewrite (extend_loop_ext g (ContextStore.shifted cs j) g cs 0
               (ContextStore.entries cs) (ContextStore.entries cs));
      [reflexivity | | reflexivity].
    apply Forall2_same_length_lookup_2; [reflexivity|].
    intros k e1 e2 H1 H2. rewrite H1 in H2. by injection H2 as <-. }
  unfold ContextStore.extend at 1 3.
  destruct (ContextStore.extend_loop g cs 0 (ContextStore.entries cs))
    as [es|err] eqn:Hg.
  - unfold ContextStore.extend at 1. simpl.
    rewrite (extend_loop_ext f
               (ContextStore.mk es (ContextStore.focus_index cs))
               (fun w => match ContextStore.extend g w with
                         | Ok mid => f mid
                         | Raise err => Raise err
                         end)
               cs 0 es (ContextStore.entries cs));
      [reflexivity | by eapply extend_loop_stamps |].
    intros j. by rewrite Hview.
  - match goal with
    | |- _ = match ContextStore.extend_loop ?h cs 0 ?r with _ => _ end =>
        assert (ContextStore.extend_loop h cs 0 r = Raise err) as ->;
          [|reflexivity]
    end.
    pose proof Hg as Hg0.
    apply extend_loop_raise in Hg0 as (j & Hj & _).
    apply extend_loop_raise. exists 0%nat. split; [lia|].
    split; [|intros k Hk; lia].
    by rewrite Hview.
Qed.

End StoreComposition.

Section StoreFmap.

Context {A B C : Type}.

Lemma fmap_pure (f : A -> B) (cs : ContextStore.t A) :
  ContextStore.fmap (fun a => Ok (f a)) cs
  = Ok (ContextStore.mk
          ((fun e => ContextEntry.mk (f (ContextEntry.content e))
                       (ContextEntry.timestamp e)
                       (ContextEntry.focus_weight e) ∅)
             <$> ContextStore.entries cs)
          (ContextStore.focus_index cs)).
Proof.
  unfold ContextStore.fmap, ContextStore.extend.
  match goal with
  | |- context [ContextStore.extend_loop ?h cs 0 ?r] =>
      assert (ContextStore.extend_loop h cs 0 r
              = Ok ((fun e => ContextEntry.mk (f (ContextEntry.content e))
                                (ContextEntry.timestamp e)
                                (ContextEntry.focus_weight e) ∅)
                      <$> ContextStore.entries cs)) as ->;
        [|reflexivity]
  end.
  apply extend_loop_ok. split; [apply length_fmap|].
  intros j e Hj. exists (f (ContextEntry.content e)). split.
  - change (0 + j)%nat with j. cbv beta.
    by rewrite (extract_shifted cs j e Hj).
  - by rewrite list_lookup_fmap, Hj.
Qed.

End StoreFmap.

(** X16.  [fmap] with a function that does not raise never raises, even on
    an empty store or with a focus index out of range; it maps the
    contents, keeps timestamps, weights and the focus index, and empties
    the metadata.  It preserves composition exactly, and maps the identity
    to a store [__eq__] to the original. *)
Theorem fmap_functor_laws {A B C} (f : A -> B) (g : B -> C)
    (cs : ContextStore.t A) :
  (exists out,
      ContextStore.fmap (fun a => Ok (f a)) cs = Ok out
      /\ ContextEntry.content <$> ContextStore.entries out
         = f <$> (ContextEntry.content <$> ContextStore.entries cs)
      /\ ContextEntry.timestamp <$> ContextStore.entries out
         = ContextEntry.timestamp <$> ContextStore.entries cs
      /\ ContextEntry.focus_weight <$> ContextStore.entries out
         = ContextEntry.focus_weight <$> ContextStore.entries cs
      /\ Forall (fun e => ContextEntry.metadata e = ∅)
                (ContextStore.entries out)
      /\ ContextStore.focus_index out = ContextStore.focus_index cs)
  /\ match ContextStore.fmap (fun a => Ok (f a)) cs with
     | Ok mid => ContextStore.fmap (fun b => Ok (g b)) mid
     | Raise err => Raise err
     end
     = ContextStore.fmap (fun a => Ok (g (f a))) cs
  /\ (forall content_eq,
        (forall a, content_eq a a = true) ->
        exists out,
          ContextStore.fmap (fun a => Ok a) cs = Ok out
          /\ ContextStore.__eq__ content_eq out cs = true).
Proof.
  split; [|split].
  - eexists. split; [apply fmap_pure|].
    cbn [ContextStore.entries ContextStore.focus_index].
    rewrite <- !list_fmap_compose.
    split; [reflexivity|]. split; [reflexivity|]. split; [reflexivity|].
    split; [|reflexivity].
    apply Forall_fmap, Forall_true. reflexivity.
  - rewrite !fmap_pure. simpl. rewrite <- list_fmap_compose. reflexivity.
  - intros ceq Hrefl. eexists. split; [apply fmap_pure|].
    by apply eq_bare.
Qed.

Lemma forallb_zip_Forall2 {X} (p : X -> X -> bool) (l1 l2 : list X) :
  length l1 = length l2 ->
  forallb (fun q => p q.1 q.2) (zip l1 l2) = true
  <-> Forall2 (fun x y => p x y = true) l1 l2.
Proof.
  revert l2. induction l1 as [|x l1 IH]; intros [|y l2] Hlen;
    try discriminate; simpl.
  - split; [constructor | reflexivity].
  - rewrite andb_true_iff, IH by (simpl in Hlen; lia).
    split.
    + intros [? ?]. by constructor.
    + intros H. by inversion H.
Qed.

(** X17.  [__eq__] holds exactly when the two stores have the same number
    of entries, the same focus index and pairwise equal contents;
    timestamps, weights and metadata do not count.  It is reflexive and
    symmetric when equality on the contents is. *)
Theorem store_eq_spec {A} (content_eq : A -> A -> bool)
    (a b : ContextStore.t A) :
  (ContextStore.__eq__ content_eq a b = true <->
   length (ContextStore.entries a) = length (ContextStore.entries b)
   /\ ContextStore.focus_index a = ContextStore.focus_index b
   /\ Forall2 (fun e1 e2 =>
                 content_eq (ContextEntry.content e1)
                            (ContextEntry.content e2) = true)
              (ContextStore.entries a) (ContextStore.entries b))
  /\ ((forall x, content_eq x x = true) ->
      ContextStore.__eq__ content_eq a a = true)
  /\ ((forall x y, content_eq x y = content_eq y x) ->
      ContextStore.__eq__ content_eq a b
      = ContextStore.__eq__ content_eq b a).
Proof.
  assert (Hspec : forall a b : ContextStore.t A,
             ContextStore.__eq__ content_eq a b = true <->
             length (ContextStore.entries a)
             = length (ContextStore.entries b)
             /\ ContextStore.focus_index a = ContextStore.focus_index b
             /\ Forall2 (fun e1 e2 =>
                           content_eq (ContextEntry.content e1)
                                      (ContextEntry.content e2) = true)
                        (ContextStore.entries a) (ContextStore.entries b)).
  { clear a b. intros a b. unfold ContextStore.__eq__.
    destruct (Nat.eqb_spec (length (ContextStore.entries a))
                (length (ContextStore.entries b))) as [Hl|Hl]; simpl;
      [|split; [discriminate | tauto]].
    destruct (Z.eqb_spec (ContextStore.focus_index a)
                (ContextStore.focus_index b)) as [Hf|Hf]; simpl;
      [|split; [discriminate | tauto]].
    rewrite (forallb_zip_Forall2
               (fun e1 e2 => content_eq (ContextEntry.content e1)
                                        (ContextEntry.content e2))
               _ _ Hl).
    tauto. }
  split; [apply Hspec|]. split.
  - intros Hrefl. apply Hspec. split; [reflexivity|].
    split; [reflexivity|]. apply Forall2_same_length_lookup_2; [done|].
    intros i x y Hx Hy. rewrite Hx in Hy. injection Hy as <-. apply Hrefl.
  - intros Hsym.
    destruct (ContextStore.__eq__ content_eq a b) eqn:Hab;
      destruct (ContextStore.__eq__ content_eq b a) eqn:Hba; try reflexivity.
    + apply Hspec in Hab as (Hl & Hf & Hc).
      assert (ContextStore.__eq__ content_eq b a = true); [|congruence].
      apply Hspec. split; [done|]. split; [done|].
      apply Forall2_flip. eapply Forall2_impl; [exact Hc|].
      intros x y Hxy. simpl. by rewrite Hsym.
    + apply Hspec in Hba as (Hl & Hf & Hc).
      assert (ContextStore.__eq__ content_eq a b = true); [|congruence].
      apply Hspec. split; [done|]. split; [done|].
      apply Forall2_flip. eapply Forall2_impl; [exact Hc|].
      intros x y Hxy. simpl. by rewrite Hsym.
Qed.

(** X18.  [from_list] makes one entry per value, in order, stamped with
    its position.  On the empty list the focus index is [0] and [extract]
    raises [ValueError].  Otherwise a focus beyond the end is clamped to
    the last position, so that [extract] returns the value there; a
    negative focus is kept and counts from the end, and below [-len] it
    makes [extract] raise [IndexError]. *)
Theorem from_list_focus {A} (values : list A) (focus : Z) :
  let cs := ContextStore.from_list values focus in
  let n := Z.of_nat (length values) in
  ContextEntry.content <$> ContextStore.entries cs = values
  /\ (forall (i : nat) e,
        ContextStore.entries cs !! i = Some e ->
        ContextEntry.timestamp e = inject_Z (Z.of_nat i)
        /\ ContextEntry.focus_weight e = 1%Q
        /\ ContextEntry.metadata e = ∅)
  /\ (values = [] ->
      ContextStore.focus_index cs = 0
      /\ ContextStore.extract cs = Raise ValueError)
  /\ (values <> [] ->
      ContextStore.focus_index cs = Z.min focus (n - 1)
      /\ (0 <= focus ->
          exists v, values !! Z.to_nat (Z.min focus (n - 1)) = Some v
                    /\ ContextStore.extract cs = Ok v)
      /\ (- n <= focus < 0 ->
          exists v, values !! Z.to_nat (n + focus) = Some v
                    /\ ContextStore.extract cs = Ok v)
      /\ (focus < - n -> ContextStore.extract cs = Raise IndexError)).
Proof.
  intros cs n.
  set (stamp := fun (i : nat) (v : A) =>
                  ContextEntry.mk v (inject_Z (Z.of_nat i)) 1%Q ∅).
  assert (Hentries : ContextStore.entries cs = imap stamp values)
    by reflexivity.
  assert (Hlen : length (ContextStore.entries cs) = length values)
    by (rewrite Hentries; apply length_imap).
  assert (Hlook : forall i : nat,
             ContextStore.entries cs !! i = stamp i <$> values !! i)
    by (intros i; rewrite Hentries; apply list_lookup_imap).
  split; [|split; [|split]].
  - apply list_eq. intros i. rewrite list_lookup_fmap, Hlook.
    by destruct (values !! i).
  - intros i e He. rewrite Hlook in He.
    destruct (values !! i); [|done]. by injection He as <-.
  - intros ->. split; reflexivity.
  - intros Hne.
    assert (Hfocus : ContextStore.focus_index cs = Z.min focus (n - 1)).
    { unfold cs, ContextStore.from_list; simpl.
      fold stamp. destruct values as [|v vs]; [done|].
      rewrite imap_cons. simpl length. rewrite length_imap.
      subst n. simpl length. reflexivity. }
    assert (0 < n) by (subst n; destruct values; [done | simpl; lia]).
    split; [exact Hfocus|]. split; [|split].
    + intros Hpos.
      destruct (lookup_lt_is_Some_2 values (Z.to_nat (Z.min focus (n - 1))))
        as [v Hv]; [subst n; lia|].
      exists v. split; [exact Hv|].
      apply (extract_at cs (Z.to_nat (Z.min focus (n - 1)))
               (stamp (Z.to_nat (Z.min focus (n - 1))) v)).
      * by rewrite Hlook, Hv.
      * rewrite Hfocus. lia.
    + intros Hneg.
      destruct (extract_negative cs) as (e & He & Hx);
        [rewrite Hlen, Hfocus; subst n; lia|].
      rewrite Hlen, Hfocus, Hlook in He.
      replace (Z.min focus (n - 1)) with focus in He by lia.
      fold n in He.
      destruct (values !! Z.to_nat (n + focus)) as [v|] eqn:Hv; [|done].
      injection He as <-. by exists v.
    + intros Hlow. unfold ContextStore.extract.
      rewrite py_getitem_out_of_range
        by (rewrite Hlen, Hfocus; subst n; lia).
      destruct (ContextStore.entries cs) eqn:Hes; [|reflexivity].
      simpl in Hlen. subst n. lia.
Qed.

(* ===================================================================== *)
(** * Facts about the string built-ins *)
(* ===================================================================== *)

Lemma app_cons (c : ascii) (s t : string) :
  String c s +:+ t = String c (s +:+ t).
Proof. reflexivity. Qed.

Lemma app_nil_l (s : string) : "" +:+ s = s.
Proof. reflexivity. Qed.

Lemma app_nil_r (s : string) : s +:+ "" = s.
Proof. induction s as [|c s IH]; [done|]. by rewrite app_cons, IH. Qed.

Lemma app_assoc (a b c : string) : (a +:+ b) +:+ c = a +:+ (b +:+ c).
Proof. induction a as [|x a IH]; [done|]. by rewrite !app_cons, IH. Qed.

Lemma lower_app (a b : string) :
  PyStr.lower (a +:+ b) = PyStr.lower a +:+ PyStr.lower b.
Proof.
  induction a as [|x a IH]; [done|].
  rewrite app_cons. simpl. by rewrite IH, app_cons.
Qed.

Lemma all_chars_app (P : ascii -> bool) (a b : string) :
  PyStr.all_chars P (a +:+ b)
  = PyStr.all_chars P a && PyStr.all_chars P b.
Proof.
  induction a as [|x a IH]; [done|].
  rewrite app_cons. simpl. by rewrite IH, andb_assoc.
Qed.

Lemma prefix_length (p s : string) :
  String.prefix p s = true -> (String.length p <= String.length s)%nat.
Proof.
  revert s. induction p as [|c p IH]; intros s H; simpl; [lia|].
  destruct s as [|d s]; [discriminate|]. simpl in *.
  destruct (Ascii.ascii_dec c d); [|discriminate].
  apply IH in H. lia.
Qed.

Lemma prefix_app_l (p s t : string) :
  String.prefix p s = true -> String.prefix p (s +:+ t) = true.
Proof.
  revert s. induction p as [|c p IH]; intros s H.
  - by destruct (s +:+ t).
  - destruct s as [|d s]; [discriminate|]. rewrite app_cons. simpl in *.
    destruct (Ascii.ascii_dec c d); [by apply IH | discriminate].
Qed.

(** A prefix that does not reach past [s] is a prefix of [s]. *)
Lemma prefix_app_short (p s t : string) :
  String.prefix p (s +:+ t) = true ->
  (String.length p <= String.length s)%nat ->
  String.prefix p s = true.
Proof.
  revert s. induction p as [|c p IH]; intros s H Hlen.
  - by destruct s.
  - destruct s as [|d s]; [simpl in Hlen; lia|].
    rewrite app_cons in H. simpl in *.
    destruct (Ascii.ascii_dec c d); [|discriminate].
    apply IH; [done | lia].
Qed.

Lemma contains_length (p s : string) :
  PyStr.contains p s = true -> (String.length p <= String.length s)%nat.
Proof.
  induction s as [|d s IH]; intros H.
  - change (String.prefix p "" || false = true) in H.
    rewrite orb_false_r in H. by apply prefix_length.
  - change (String.prefix p (String d s) || PyStr.contains p s = true) in H.
    apply orb_true_iff in H as [H|H].
    + by apply prefix_length.
    + apply IH in H. simpl. lia.
Qed.

Lemma before_cons (sep : string) (d : ascii) (s : string) :
  PyStr.before sep (String d s)
  = if String.prefix sep (String d s) then ""
    else String d (PyStr.before sep s).
Proof. reflexivity. Qed.

Lemma contains_cons (sub : string) (d : ascii) (s : string) :
  PyStr.contains sub (String d s)
  = String.prefix sub (String d s) || PyStr.contains sub s.
Proof. reflexivity. Qed.

(** Cutting before the first occurrence of [sep] does not see what follows
    a text in which [sep] occurs. *)
Lemma before_app_found (sep s t : string) :
  PyStr.contains sep s = true ->
  PyStr.before sep (s +:+ t) = PyStr.before sep s.
Proof.
  induction s as [|d s IH]; intros H.
  - change (String.prefix sep "" || false = true) in H.
    rewrite orb_false_r in H.
    rewrite app_nil_l. destruct sep; [by destruct t | discriminate].
  - rewrite app_cons, !before_cons. rewrite contains_cons in H.
    destruct (String.prefix sep (String d s)) eqn:Hp.
    + rewrite <- app_cons. by rewrite (prefix_app_l _ _ t Hp).
    + simpl in H.
      destruct (String.prefix sep (String d (s +:+ t))) eqn:Hp'.
      * exfalso. apply contains_length in H.
        rewrite <- app_cons in Hp'.
        apply prefix_app_short in Hp'; [congruence | simpl; lia].
      * by rewrite IH.
Qed.

(** A prefix none of whose characters is [c] stops before [c]. *)
Lemma prefix_stops (p s t : string) (c : ascii) :
  PyStr.all_chars (fun x => negb (bool_decide (x = c))) p = true ->
  String.prefix p (s +:+ String c t) = true ->
  String.prefix p s = true.
Proof.
  revert s. induction p as [|x p IH]; intros s Hall H.
  - by destruct s.
  - simpl in Hall. apply andb_true_iff in Hall as [Hx Hall].
    destruct s as [|d s].
    + rewrite app_nil_l in H. simpl in H.
      destruct (Ascii.ascii_dec x c) as [->|]; [|discriminate].
      by rewrite bool_decide_eq_true_2 in Hx.
    + rewrite app_cons in H. simpl in *.
      destruct (Ascii.ascii_dec x d); [by apply IH | discriminate].
Qed.

Lemma before_app_absent (sep s t : string) (c : ascii) :
  sep <> "" ->
  PyStr.all_chars (fun x => negb (bool_decide (x = c))) sep = true ->
  PyStr.contains sep s = false ->
  PyStr.before sep (s +:+ String c t)
  = s +:+ String c (PyStr.before sep t).
Proof.
  intros Hne Hall. induction s as [|d s IH]; intros H.
  - rewrite !app_nil_l, before_cons.
    destruct (String.prefix sep (String c t)) eqn:Hp; [|done].
    exfalso. apply (prefix_stops sep "" t c Hall) in Hp.
    destruct sep; [done | discriminate].
  - rewrite contains_cons in H. apply orb_false_iff in H as [Hp H].
    rewrite !app_cons, before_cons.
    destruct (String.prefix sep (String d (s +:+ String c t))) eqn:Hp'.
    + exfalso. rewrite <- app_cons in Hp'.
      apply (prefix_stops sep (String d s) t c Hall) in Hp'. congruence.
    + by rewrite IH.
Qed.

Lemma rev_app_acc (s acc : string) :
  String.rev_app s acc = String.rev s +:+ acc.
Proof.
  unfold String.rev. revert acc.
  induction s as [|c s IH]; intros acc; [done|]. simpl.
  rewrite (IH (String c acc)), (IH (String c "")), app_assoc. done.
Qed.

Lemma rev_app_distr (a b : string) :
  String.rev (a +:+ b) = String.rev b +:+ String.rev a.
Proof.
  induction a as [|c a IH].
  - by rewrite app_nil_l, app_nil_r.
  - rewrite app_cons. unfold String.rev at 1 3. simpl.
    rewrite !rev_app_acc, IH, app_assoc. done.
Qed.

Lemma lstrip_blank (s : string) :
  PyStr.all_chars PyStr.is_space s = true -> PyStr.lstrip s = "".
Proof.
  induction s as [|c s IH]; [done|]. simpl.
  intros [Hc Hs]%andb_true_iff. rewrite Hc. by apply IH.
Qed.

Lemma lstrip_app (s t : string) :
  PyStr.all_chars PyStr.is_space s = false ->
  PyStr.lstrip (s +:+ t) = PyStr.lstrip s +:+ t.
Proof.
  induction s as [|c s IH]; [done|]. rewrite app_cons. simpl.
  destruct (PyStr.is_space c); simpl; [exact IH | done].
Qed.

Lemma lstrip_app_blank (s t : string) :
  PyStr.all_chars PyStr.is_space s = true ->
  PyStr.lstrip (s +:+ t) = PyStr.lstrip t.
Proof.
  induction s as [|c s IH]; [done|]. rewrite app_cons. simpl.
  intros [Hc Hs]%andb_true_iff. rewrite Hc. by apply IH.
Qed.

(** Blanks written after a text do not survive [strip]. *)
Lemma strip_app_blank (s t : string) :
  PyStr.all_chars PyStr.is_space t = true ->
  PyStr.strip (s +:+ t) = PyStr.strip s.
Proof.
  intros Ht. unfold PyStr.strip, PyStr.rstrip.
  assert (Hrev : PyStr.all_chars PyStr.is_space (String.rev t) = true).
  { clear s. induction t as [|c t IH]; [done|].
    simpl in Ht. apply andb_true_iff in Ht as [Hc Ht].
    change (String c t) with (String c "" +:+ t).
    rewrite rev_app_distr, all_chars_app, (IH Ht). simpl.
    by rewrite Hc. }
  destruct (PyStr.all_chars PyStr.is_space s) eqn:Hs.
  - rewrite (lstrip_app_blank s t Hs), (lstrip_blank t Ht),
      (lstrip_blank s Hs). done.
  - rewrite (lstrip_app s t Hs), rev_app_distr,
      (lstrip_app_blank _ _ Hrev). done.
Qed.

Lemma lower_char_space (c : ascii) :
  PyStr.is_space (PyStr.lower_char c) = PyStr.is_space c.
Proof. destruct c as [[] [] [] [] [] [] [] []]; reflexivity. Qed.

Lemma lower_blank (s : string) :
  PyStr.all_chars PyStr.is_space (PyStr.lower s)
  = PyStr.all_chars PyStr.is_space s.
Proof.
  induction s as [|c s IH]; [done|]. simpl.
  by rewrite lower_char_space, IH.
Qed.

Lemma lower_char_idem (c : ascii) :
  PyStr.lower_char (PyStr.lower_char c) = PyStr.lower_char c.
Proof. destruct c as [[] [] [] [] [] [] [] []]; reflexivity. Qed.

Lemma lower_idem (s : string) : PyStr.lower (PyStr.lower s) = PyStr.lower s.
Proof.
  induction s as [|c s IH]; [done|]. simpl. by rewrite lower_char_idem, IH.
Qed.

(** A text of blanks has no word; any other text has one. *)
Lemma split_blank (s : string) :
  PyStr.all_chars PyStr.is_space s = true -> PyStr.split s = [].
Proof.
  unfold PyStr.split. induction s as [|c s IH]; [done|]. simpl.
  intros [Hc Hs]%andb_true_iff. rewrite Hc. simpl. by apply IH.
Qed.

Lemma split_nonblank (s : string) :
  PyStr.all_chars PyStr.is_space s = false ->
  exists w ws, PyStr.split s = w :: ws /\ w <> "".
Proof.
  unfold PyStr.split. induction s as [|c s IH]; [done|]. simpl.
  destruct (PyStr.is_space c) eqn:Hc; simpl.
  - exact IH.
  - intros _. destruct (PyStr.pieces PyStr.is_space s) as [|h t]; simpl;
      eauto.
Qed.

Lemma join_nonempty (sep w : string) (ws : list string) :
  w <> "" -> PyStr.join sep (w :: ws) <> "".
Proof.
  intros Hw. destruct w as [|c w]; [done|].
  destruct ws; simpl; [done|]. by rewrite app_cons.
Qed.

Lemma normalize_blank (s : string) :
  NatTrans.normalize s = ""
  <-> PyStr.all_chars PyStr.is_space s = true.
Proof.
  unfold NatTrans.normalize. split.
  - intros Hn.
    destruct (PyStr.all_chars PyStr.is_space s) eqn:Hs; [done|].
    rewrite <- lower_blank in Hs.
    destruct (split_nonblank _ Hs) as (w & ws & Hsplit & Hw).
    rewrite Hsplit in Hn. by apply join_nonempty in Hn.
  - intros Hs. rewrite <- lower_blank in Hs.
    by rewrite (split_blank _ Hs).
Qed.

Lemma len_pos (s : string) : s <> "" -> 0 < PyStr.len s.
Proof. destruct s; [done|]. intros _. unfold PyStr.len. simpl. lia. Qed.

(** X19.  The equivalence the naturality tests use is symmetric, never
    holds across strategies and does not look at the metadata.  On an
    ASCII content it holds between a prompt and itself exactly when the
    content has a non-blank character: it is not reflexive on blank
    prompts. *)
Theorem semantically_equivalent_relation (p q : NatTrans.Prompt) :
  (PyStr.is_ascii (NatTrans.content p) = true ->
   NatTrans._semantically_equivalent p p
   = negb (PyStr.all_chars PyStr.is_space (NatTrans.content p)))
  /\ NatTrans._semantically_equivalent p q
     = NatTrans._semantically_equivalent q p
  /\ (NatTrans.strategy p <> NatTrans.strategy q ->
      NatTrans._semantically_equivalent p q = false)
  /\ (forall m1 m2,
        NatTrans._semantically_equivalent
          (NatTrans.mkPrompt (NatTrans.content p) (NatTrans.strategy p) m1)
          (NatTrans.mkPrompt (NatTrans.content q) (NatTrans.strategy q) m2)
        = NatTrans._semantically_equivalent p q).
Proof.
  split; [|split; [|split]].
  - intros _. unfold NatTrans._semantically_equivalent; cbv zeta.
    rewrite bool_decide_eq_true_2 by reflexivity. simpl.
    rewrite Z.sub_diag, Z.max_id. simpl Z.abs.
    destruct (PyStr.all_chars PyStr.is_space (NatTrans.content p)) eqn:Hb.
    + apply normalize_blank in Hb. rewrite Hb. reflexivity.
    + simpl. apply Qltb_lt.
      assert (0 < PyStr.len (NatTrans.normalize (NatTrans.content p)))
        as Hpos.
      { apply len_pos. intros Hn. apply normalize_blank in Hn. congruence. }
      apply (Qlt_le_trans _ (inject_Z 1 * 0.3)); [reflexivity|].
      apply Qmult_le_compat_r; [|discriminate].
      rewrite <- Zle_Qle. lia.
  - unfold NatTrans._semantically_equivalent; cbv zeta.
    rewrite (bool_decide_ext (NatTrans.strategy p = NatTrans.strategy q)
               (NatTrans.strategy q = NatTrans.strategy p)) by done.
    destruct (bool_decide _); [|reflexivity]. simpl.
    rewrite (Z.max_comm (PyStr.len _)).
    replace (Z.abs (PyStr.len (NatTrans.normalize (NatTrans.content p))
                    - PyStr.len (NatTrans.normalize (NatTrans.content q))))
      with (Z.abs (PyStr.len (NatTrans.normalize (NatTrans.content q))
                   - PyStr.len (NatTrans.normalize (NatTrans.content p))))
      by lia.
    reflexivity.
  - intros Hne. unfold NatTrans._semantically_equivalent.
    by rewrite bool_decide_eq_false_2.
  - reflexivity.
Qed.

(** X19 on a blank prompt and on the zero-shot prompt of a task. *)
Lemma semantically_equivalent_relation_witness :
  NatTrans._semantically_equivalent
    (NatTrans.mkPrompt "  " NatTrans.ZERO_SHOT ∅)
    (NatTrans.mkPrompt "  " NatTrans.ZERO_SHOT ∅) = false
  /\ NatTrans._semantically_equivalent
       (NatTrans.apply NatTrans.ZeroShotFunctor
          (NatTrans.mkTask "Solve the puzzle" "medium" "general"))
       (NatTrans.apply NatTrans.ZeroShotFunctor
          (NatTrans.mkTask "Solve the puzzle" "medium" "general")) = true.
Proof.
  split.
  - exact (proj1 (semantically_equivalent_relation
                    (NatTrans.mkPrompt "  " NatTrans.ZERO_SHOT ∅)
                    (NatTrans.mkPrompt "  " NatTrans.ZERO_SHOT ∅))
                 eq_refl).
  - exact (proj1 (semantically_equivalent_relation
                    (NatTrans.apply NatTrans.ZeroShotFunctor
                       (NatTrans.mkTask "Solve the puzzle" "medium"
                          "general"))
                    (NatTrans.apply NatTrans.ZeroShotFunctor
                       (NatTrans.mkTask "Solve the puzzle" "medium"
                          "general")))
                 eq_refl).
Defined.

Lemma contains_app_l (sub a b : string) :
  PyStr.contains sub a = true -> PyStr.contains sub (a +:+ b) = true.
Proof.
  induction a as [|c a IH]; intros H.
  - change (String.prefix sub "" || false = true) in H.
    rewrite orb_false_r in H. rewrite app_nil_l.
    destruct sub; [by destruct b | discriminate].
  - rewrite contains_cons in H. rewrite app_cons, contains_cons.
    apply orb_true_iff in H as [H|H].
    + rewrite <- app_cons, (prefix_app_l _ _ b H). reflexivity.
    + rewrite (IH H). apply orb_true_r.
Qed.

Lemma contains_app_r (sub a b : string) :
  PyStr.contains sub b = true -> PyStr.contains sub (a +:+ b) = true.
Proof.
  intros H. induction a as [|c a IH]; [exact H|].
  rewrite app_cons, contains_cons, IH. apply orb_true_r.
Qed.

(** Two prompts of one strategy with the same content, which is not
    blank, are equivalent. *)
Lemma semantically_equivalent_same (p q : NatTrans.Prompt) :
  NatTrans.strategy p = NatTrans.strategy q ->
  NatTrans.content p = NatTrans.content q ->
  PyStr.all_chars PyStr.is_space (NatTrans.content p) = false ->
  NatTrans._semantically_equivalent p q = true.
Proof.
  intros Hs Hc Hb. unfold NatTrans._semantically_equivalent; cbv zeta.
  rewrite <- Hc, bool_decide_eq_true_2 by exact Hs. simpl.
  rewrite Z.sub_diag, Z.max_id. simpl Z.abs.
  apply Qltb_lt.
  assert (0 < PyStr.len (NatTrans.normalize (NatTrans.content p))) as Hpos.
  { apply len_pos. intros Hn. apply normalize_blank in Hn. congruence. }
  apply (Qlt_le_trans _ (inject_Z 1 * 0.3)); [reflexivity|].
  apply Qmult_le_compat_r; [|discriminate].
  rewrite <- Zle_Qle. lia.
Qed.

(** X20.  Every transformation of the registry is filed under its own
    source and target, has a quality factor above [1] and at most [2],
    raises [ValueError] on a prompt of any strategy but its source and on a
    prompt of its source returns a prompt of its target that keeps every
    metadata entry it does not set itself; in particular it accepts what
    the registered functor of its source produces, and the complexity of
    the task is still recorded in the result. *)
Theorem registered_transformations_typed
    (src tgt : NatTrans.Strategy) (α : NatTrans.NaturalTransformation) :
  NatTrans.TRANSFORMATIONS src tgt = Some α ->
  NatTrans.source α = src
  /\ NatTrans.target α = tgt
  /\ (1 < NatTrans.quality_factor α <= 2)%Q
  /\ (forall prompt,
        NatTrans.strategy prompt <> src ->
        NatTrans.nt_apply α prompt = Raise ValueError)
  /\ (forall prompt,
        NatTrans.strategy prompt = src ->
        exists r,
          NatTrans.nt_apply α prompt = Ok r
          /\ NatTrans.strategy r = tgt
          /\ is_Some (NatTrans.metadata r !! "transformed_from")
          /\ forall k,
               k <> "transformed_from" -> k <> "num_examples" ->
               k <> "num_branches" ->
               NatTrans.metadata r !! k = NatTrans.metadata prompt !! k)
  /\ (exists F,
        NatTrans.FUNCTORS src = Some F
        /\ NatTrans.functor_strategy F = src
        /\ forall task,
             exists r,
               NatTrans.nt_apply α (NatTrans.apply F task) = Ok r
               /\ NatTrans.strategy r = tgt
               /\ NatTrans.metadata r !! "task_complexity"
                  = Some (VStr (NatTrans.complexity task))).
Proof.
  intros Hreg.
  assert (Hguard : forall β prompt,
             NatTrans.strategy prompt <> NatTrans.source β ->
             NatTrans.nt_apply β prompt = Raise ValueError).
  { intros β prompt Hne. unfold NatTrans.nt_apply.
    by rewrite bool_decide_eq_false_2. }
  assert (Hpass : forall β prompt,
             NatTrans.strategy prompt = NatTrans.source β ->
             NatTrans.nt_apply β prompt
             = Ok (NatTrans.transform_fn β prompt)).
  { intros β prompt He. unfold NatTrans.nt_apply.
    by rewrite bool_decide_eq_true_2. }
  destruct src, tgt; try discriminate Hreg; injection Hreg as <-;
    (split; [reflexivity|]); (split; [reflexivity|]);
    (split; [split; [reflexivity | discriminate]|]);
    (split; [intros prompt Hne; apply Hguard; exact Hne|]);
    (split;
     [intros prompt Hp; eexists; split; [apply Hpass; exact Hp|];
      split; [reflexivity|]; split; [simpl; by simplify_map_eq|];
      intros k H1 H2 H3; simpl; by simplify_map_eq
     |eexists; split; [reflexivity|]; split; [reflexivity|];
      intros task; eexists; split; [apply Hpass; reflexivity|];
      split; [reflexivity|]; simpl; by simplify_map_eq]).
Qed.

Lemma registered_transformations_typed_witness :
  NatTrans.source NatTrans.make_cot_to_tot = NatTrans.CHAIN_OF_THOUGHT
  /\ NatTrans.target NatTrans.make_cot_to_tot = NatTrans.TREE_OF_THOUGHT.
Proof.
  destruct (registered_transformations_typed
              NatTrans.CHAIN_OF_THOUGHT NatTrans.TREE_OF_THOUGHT
              NatTrans.make_cot_to_tot eq_refl) as (Hs & Ht & _).
  split; [exact Hs | exact Ht].
Defined.

(* ===================================================================== *)
(** * The naturality squares *)
(* ===================================================================== *)

Lemma nt_apply_ok (α : NatTrans.NaturalTransformation)
    (prompt : NatTrans.Prompt) :
  NatTrans.strategy prompt = NatTrans.source α ->
  NatTrans.nt_apply α prompt = Ok (NatTrans.transform_fn α prompt).
Proof.
  intros He. unfold NatTrans.nt_apply. by rewrite bool_decide_eq_true_2.
Qed.

Lemma nt_apply_raise (α : NatTrans.NaturalTransformation)
    (prompt : NatTrans.Prompt) :
  NatTrans.strategy prompt <> NatTrans.source α ->
  NatTrans.nt_apply α prompt = Raise ValueError.
Proof.
  intros Hne. unfold NatTrans.nt_apply. by rewrite bool_decide_eq_false_2.
Qed.

(** A text that ends in a text with a non-blank character is not blank. *)
Lemma nonblank_app_r (a b : string) :
  PyStr.all_chars PyStr.is_space b = false ->
  PyStr.all_chars PyStr.is_space (a +:+ b) = false.
Proof. intros Hb. rewrite all_chars_app, Hb. apply andb_false_r. Qed.

(** X21.  The square of the zero-shot to chain-of-thought transformation
    commutes on the nose for content and strategy: for every task and every
    morphism [f], transforming the zero-shot prompt of [f task] gives the
    content and the strategy of the chain-of-thought prompt of [f task],
    so the two are equivalent for the tests.  The metadata differ: the
    transformed prompt records where it came from and no number of
    reasoning steps, the functor's prompt the opposite. *)
Theorem zs_to_cot_naturality
    (f : NatTrans.Task -> NatTrans.Task) (task : NatTrans.Task) :
  exists path1,
    NatTrans.nt_apply NatTrans.make_zs_to_cot
      (NatTrans.fmap NatTrans.ZeroShotFunctor f task) = Ok path1
    /\ NatTrans.content path1
       = NatTrans.content (NatTrans.fmap NatTrans.ChainOfThoughtFunctor f task)
    /\ NatTrans.strategy path1
       = NatTrans.strategy
           (NatTrans.fmap NatTrans.ChainOfThoughtFunctor f task)
    /\ NatTrans._semantically_equivalent path1
         (NatTrans.fmap NatTrans.ChainOfThoughtFunctor f task) = true
    /\ NatTrans.metadata path1
       = <["transformed_from" := VStr "zero-shot"]>
           (delete "reasoning_steps"
              (NatTrans.metadata
                 (NatTrans.fmap NatTrans.ChainOfThoughtFunctor f task)))
    /\ NatTrans.metadata path1
       <> NatTrans.metadata
            (NatTrans.fmap NatTrans.ChainOfThoughtFunctor f task).
Proof.
  eexists. split; [apply nt_apply_ok; reflexivity|].
  split; [reflexivity|]. split; [reflexivity|]. split; [|split].
  - apply semantically_equivalent_same; [reflexivity..|].
    apply nonblank_app_r. reflexivity.
  - apply map_eq. intros k. simpl.
    destruct (decide (k = "transformed_from")) as [->|];
      [by simplify_map_eq|].
    destruct (decide (k = "reasoning_steps")) as [->|];
      [by simplify_map_eq|].
    destruct (decide (k = "task_complexity")) as [->|]; by simplify_map_eq.
  - intros Heq. apply (f_equal (fun m => m !! "reasoning_steps")) in Heq.
    simpl in Heq. by simplify_map_eq.
Qed.

Lemma nonblank_app_l (a b : string) :
  PyStr.all_chars PyStr.is_space a = false ->
  PyStr.all_chars PyStr.is_space (a +:+ b) = false.
Proof. intros Ha. by rewrite all_chars_app, Ha. Qed.

(** X22.  The square of the zero-shot to few-shot transformation commutes
    whenever the transformation and the functor are built with the same
    number of examples, whatever that number: the content and the strategy
    are those of the few-shot prompt of [f task], and the metadata are the
    functor's with the origin added. *)
Theorem zs_to_fs_naturality (num_examples : Z)
    (f : NatTrans.Task -> NatTrans.Task) (task : NatTrans.Task) :
  exists path1,
    NatTrans.nt_apply (NatTrans.make_zs_to_fs num_examples)
      (NatTrans.fmap NatTrans.ZeroShotFunctor f task) = Ok path1
    /\ NatTrans.content path1
       = NatTrans.content
           (NatTrans.fmap (NatTrans.FewShotFunctor num_examples) f task)
    /\ NatTrans.strategy path1
       = NatTrans.strategy
           (NatTrans.fmap (NatTrans.FewShotFunctor num_examples) f task)
    /\ NatTrans._semantically_equivalent path1
         (NatTrans.fmap (NatTrans.FewShotFunctor num_examples) f task) = true
    /\ NatTrans.metadata path1
       = <["transformed_from" := VStr "zero-shot"]>
           (NatTrans.metadata
              (NatTrans.fmap (NatTrans.FewShotFunctor num_examples) f task)).
Proof.
  eexists. split; [apply nt_apply_ok; reflexivity|].
  split; [reflexivity|]. split; [reflexivity|]. split.
  - apply semantically_equivalent_same; [reflexivity..|].
    apply nonblank_app_r, nonblank_app_l. reflexivity.
  - simpl. f_equal; by apply insert_commute.
Qed.

Lemma before_absent (sep s : string) :
  PyStr.contains sep s = false -> PyStr.before sep s = s.
Proof.
  induction s as [|d s IH]; intros H.
  - by destruct sep.
  - rewrite contains_cons in H. apply orb_false_iff in H as [Hp H].
    by rewrite before_cons, Hp, IH.
Qed.

Lemma str_app_inv_tail (a b s : string) : a +:+ s = b +:+ s -> a = b.
Proof.
  revert b. induction a as [|x a IH]; intros [|y b] H.
  - reflexivity.
  - exfalso. apply (f_equal String.length) in H.
    rewrite app_nil_l, length_app in H. simpl in H. lia.
  - exfalso. apply (f_equal String.length) in H.
    rewrite app_nil_l, length_app in H. simpl in H. lia.
  - rewrite !app_cons in H. injection H as -> H. f_equal. by apply IH.
Qed.

(** What [make_cot_to_tot] cuts out of a chain-of-thought prompt built on
    the description [d]. *)
Lemma cot_base_task (d : string) :
  PyStr.strip
    (PyStr.before "Let's think"
       (NatTrans.content
          (NatTrans.apply NatTrans.ChainOfThoughtFunctor
             (NatTrans.mkTask d "medium" "general"))))
  = PyStr.strip (PyStr.before "Let's think" d).
Proof.
  cbn [NatTrans.apply NatTrans.ChainOfThoughtFunctor NatTrans.content
       NatTrans.description].
  destruct (PyStr.contains "Let's think" d) eqn:Hc.
  - by rewrite (before_app_found _ _ _ Hc).
  - rewrite (before_app_absent "Let's think" d _ "010"%char);
      [|discriminate|reflexivity|exact Hc].
    rewrite (before_absent _ _ Hc).
    lazymatch goal with
    | |- context [PyStr.before ?s ?t] =>
        let v := eval vm_compute in (PyStr.before s t) in
        change (PyStr.before s t) with v
    end.
    apply strip_app_blank. reflexivity.
Qed.

(** X23.  On the chain-of-thought prompt of a task with an ASCII
    description, the transformation to tree-of-thought builds the
    tree-of-thought prompt of the task whose description is cut at the
    first "Let's think" and stripped of the blanks around it.  Its content
    is that of the tree-of-thought prompt of the task itself exactly when
    cutting and stripping leave the description alone; a description that
    starts with "Let's think" is lost altogether.  The metadata are the
    functor's with the origin and the number of reasoning steps added. *)
Theorem cot_to_tot_recovers_task (task : NatTrans.Task) :
  PyStr.is_ascii (NatTrans.description task) = true ->
  exists r,
    NatTrans.nt_apply NatTrans.make_cot_to_tot
      (NatTrans.apply NatTrans.ChainOfThoughtFunctor task) = Ok r
    /\ NatTrans.strategy r = NatTrans.TREE_OF_THOUGHT
    /\ NatTrans.content r
       = NatTrans.content
           (NatTrans.apply NatTrans.TreeOfThoughtFunctor
              (NatTrans.mkTask
                 (PyStr.strip
                    (PyStr.before "Let's think" (NatTrans.description task)))
                 (NatTrans.complexity task) (NatTrans.domain task)))
    /\ (NatTrans.content r
        = NatTrans.content
            (NatTrans.apply NatTrans.TreeOfThoughtFunctor task)
        <-> PyStr.strip
              (PyStr.before "Let's think" (NatTrans.description task))
            = NatTrans.description task)
    /\ (String.prefix "Let's think" (NatTrans.description task) = true ->
        NatTrans.content r
        = NatTrans.content
            (NatTrans.apply NatTrans.TreeOfThoughtFunctor
               (NatTrans.mkTask "" (NatTrans.complexity task)
                  (NatTrans.domain task))))
    /\ NatTrans.metadata r
       = <["transformed_from" := VStr "chain-of-thought"]>
           (<["reasoning_steps" := VInt 4]>
              (NatTrans.metadata
                 (NatTrans.apply NatTrans.TreeOfThoughtFunctor task))).
Proof.
  intros _.
  eexists. split; [apply nt_apply_ok; reflexivity|].
  split; [reflexivity|].
  assert (Hbase :
    NatTrans.content
      (NatTrans.transform_fn NatTrans.make_cot_to_tot
         (NatTrans.apply NatTrans.ChainOfThoughtFunctor task))
    = NatTrans.content
        (NatTrans.apply NatTrans.TreeOfThoughtFunctor
           (NatTrans.mkTask
              (PyStr.strip
                 (PyStr.before "Let's think" (NatTrans.description task)))
              (NatTrans.complexity task) (NatTrans.domain task)))).
  { pose proof (cot_base_task (NatTrans.description task)) as Hb.
    cbn [NatTrans.apply NatTrans.ChainOfThoughtFunctor NatTrans.content
         NatTrans.description NatTrans.TreeOfThoughtFunctor
         NatTrans.transform_fn NatTrans.make_cot_to_tot] in *.
    by rewrite Hb. }
  split; [exact Hbase|]. split; [|split].
  - rewrite Hbase.
    cbn [NatTrans.apply NatTrans.TreeOfThoughtFunctor NatTrans.content
         NatTrans.description].
    split; [apply str_app_inv_tail | by intros ->].
  - intros Hp. rewrite Hbase.
    destruct (NatTrans.description task) as [|c d]; [discriminate|].
    by rewrite before_cons, Hp.
  - cbn [NatTrans.apply NatTrans.ChainOfThoughtFunctor NatTrans.metadata
         NatTrans.TreeOfThoughtFunctor NatTrans.transform_fn
         NatTrans.make_cot_to_tot].
    apply map_eq. intros k.
    destruct (decide (k = "transformed_from")) as [->|];
      [by simplify_map_eq|].
    destruct (decide (k = "reasoning_steps")) as [->|];
      [by simplify_map_eq|].
    destruct (decide (k = "num_branches")) as [->|];
      [by simplify_map_eq|].
    destruct (decide (k = "task_complexity")) as [->|]; by simplify_map_eq.
Qed.

(** X23 on the task of [test_vertical_composition], and on the same task
    with a trailing blank, which the transformation does not give back. *)
Lemma cot_to_tot_recovers_task_witness :
  (exists r,
      NatTrans.nt_apply NatTrans.make_cot_to_tot
        (NatTrans.apply NatTrans.ChainOfThoughtFunctor
           (NatTrans.mkTask "Solve the puzzle" "medium" "general")) = Ok r
      /\ NatTrans.content r
         = NatTrans.content
             (NatTrans.apply NatTrans.TreeOfThoughtFunctor
                (NatTrans.mkTask "Solve the puzzle" "medium" "general")))
  /\ (exists r,
        NatTrans.nt_apply NatTrans.make_cot_to_tot
          (NatTrans.apply NatTrans.ChainOfThoughtFunctor
             (NatTrans.mkTask "Solve the puzzle " "medium" "general"))
        = Ok r
        /\ NatTrans.content r
           <> NatTrans.content
                (NatTrans.apply NatTrans.TreeOfThoughtFunctor
                   (NatTrans.mkTask "Solve the puzzle " "medium"
                      "general"))).
Proof.
  split.
  - destruct (cot_to_tot_recovers_task
                (NatTrans.mkTask "Solve the puzzle" "medium" "general")
                eq_refl) as (r & Hr & _ & _ & Hiff & _).
    exists r. split; [exact Hr|]. apply Hiff. reflexivity.
  - destruct (cot_to_tot_recovers_task
                (NatTrans.mkTask "Solve the puzzle " "medium" "general")
                eq_refl) as (r & Hr & _ & _ & Hiff & _).
    exists r. split; [exact Hr|]. intros Heq. apply Hiff in Heq.
    vm_compute in Heq. discriminate Heq.
Defined.

(* ===================================================================== *)
(** * Pipelines of transformations *)
(* ===================================================================== *)

(** X24.  The pipeline zero-shot, few-shot, chain-of-thought runs on the
    zero-shot prompt of every task, for every number of examples: the
    result is a chain-of-thought prompt whose content still holds the
    description verbatim and, in lower case, "step by step" and "example";
    it records the complexity of the task and the number of examples, and
    its origin is the last stage only.  A stage applied out of order, or a
    second time, raises [ValueError]. *)
Theorem full_transformation_pipeline
    (num_examples : Z) (task : NatTrans.Task) :
  exists p1 p2,
    NatTrans.nt_apply (NatTrans.make_zs_to_fs num_examples)
      (NatTrans.apply NatTrans.ZeroShotFunctor task) = Ok p1
    /\ NatTrans.nt_apply NatTrans.make_fs_to_cot p1 = Ok p2
    /\ NatTrans.strategy p2 = NatTrans.CHAIN_OF_THOUGHT
    /\ PyStr.contains "step by step" (PyStr.lower (NatTrans.content p2))
       = true
    /\ PyStr.contains "example" (PyStr.lower (NatTrans.content p2)) = true
    /\ PyStr.contains (NatTrans.description task) (NatTrans.content p2)
       = true
    /\ NatTrans.metadata p2 !! "transformed_from" = Some (VStr "few-shot")
    /\ NatTrans.metadata p2 !! "num_examples" = Some (VInt num_examples)
    /\ NatTrans.metadata p2 !! "task_complexity"
       = Some (VStr (NatTrans.complexity task))
    /\ NatTrans.nt_apply NatTrans.make_fs_to_cot
         (NatTrans.apply NatTrans.ZeroShotFunctor task) = Raise ValueError
    /\ NatTrans.nt_apply (NatTrans.make_zs_to_fs num_examples) p1
       = Raise ValueError
    /\ NatTrans.nt_apply NatTrans.make_fs_to_cot p2 = Raise ValueError.
Proof.
  eexists. eexists.
  split; [apply nt_apply_ok; reflexivity|].
  split; [apply nt_apply_ok; reflexivity|].
  split; [reflexivity|].
  cbn [NatTrans.apply NatTrans.ZeroShotFunctor NatTrans.content
       NatTrans.metadata NatTrans.transform_fn NatTrans.make_zs_to_fs
       NatTrans.make_fs_to_cot].
  split; [rewrite lower_app; apply contains_app_r; reflexivity|].
  split; [rewrite lower_app; apply contains_app_r; reflexivity|].
  split; [apply contains_app_l, contains_app_r, contains_app_r,
            contains_refl|].
  split; [by simplify_map_eq|]. split; [by simplify_map_eq|].
  split; [by simplify_map_eq|].
  split; [apply nt_apply_raise; discriminate|].
  split; apply nt_apply_raise; discriminate.
Qed.

(** X25.  Composing the zero-shot to chain-of-thought transformation with
    the one to tree-of-thought runs on the zero-shot prompt of every task
    and gives the content that the second transformation gives on the
    chain-of-thought prompt of the task: a tree-of-thought prompt with
    "branch" in its content whose origin is the last stage only.  The two
    results differ in the metadata, where only the direct one counts the
    reasoning steps.  The second stage alone refuses the zero-shot prompt,
    and the product of the two quality factors is within [0.01] of
    [1.3125]. *)
Theorem vertical_composition (task : NatTrans.Task) :
  exists cot tot direct,
    NatTrans.nt_apply NatTrans.make_zs_to_cot
      (NatTrans.apply NatTrans.ZeroShotFunctor task) = Ok cot
    /\ NatTrans.nt_apply NatTrans.make_cot_to_tot cot = Ok tot
    /\ NatTrans.nt_apply NatTrans.make_cot_to_tot
         (NatTrans.apply NatTrans.ChainOfThoughtFunctor task) = Ok direct
    /\ NatTrans.strategy tot = NatTrans.TREE_OF_THOUGHT
    /\ NatTrans.content tot = NatTrans.content direct
    /\ PyStr.contains "branch" (PyStr.lower (NatTrans.content tot)) = true
    /\ NatTrans.metadata tot !! "transformed_from"
       = Some (VStr "chain-of-thought")
    /\ NatTrans.metadata tot !! "reasoning_steps" = None
    /\ NatTrans.metadata direct !! "reasoning_steps" = Some (VInt 4)
    /\ NatTrans.nt_apply NatTrans.make_cot_to_tot
         (NatTrans.apply NatTrans.ZeroShotFunctor task) = Raise ValueError
    /\ (Qabs (NatTrans.quality_factor NatTrans.make_zs_to_cot
              * NatTrans.quality_factor NatTrans.make_cot_to_tot - 1.3125)
        < 0.01)%Q.
Proof.
  eexists. eexists. eexists.
  split; [apply nt_apply_ok; reflexivity|].
  split; [apply nt_apply_ok; reflexivity|].
  split; [apply nt_apply_ok; reflexivity|].
  split; [reflexivity|]. split; [reflexivity|].
  cbn [NatTrans.apply NatTrans.ZeroShotFunctor NatTrans.content
       NatTrans.ChainOfThoughtFunctor
       NatTrans.metadata NatTrans.transform_fn NatTrans.make_zs_to_cot
       NatTrans.make_cot_to_tot].
  split; [rewrite lower_app; apply contains_app_r; reflexivity|].
  split; [by simplify_map_eq|]. split; [by simplify_map_eq|].
  split; [by simplify_map_eq|].
  split; [apply nt_apply_raise; discriminate|].
  reflexivity.
Qed.

(* ===================================================================== *)
(** * Equality of prompts and the registry of functors *)
(* ===================================================================== *)

(** X26.  Whatever the hash function, [Prompt.__eq__] is reflexive,
    symmetric and transitive, never holds across strategies, and looks
    neither at the metadata nor at the case of the letters; a
    transformation whose function is the identity, from a strategy to
    itself, returns a prompt equal to the one it is given. *)
Theorem prompt_eq_relation (hash : string -> Z) (p q r : NatTrans.Prompt) :
  NatTrans.Prompt_eq hash p p = true
  /\ NatTrans.Prompt_eq hash p q = NatTrans.Prompt_eq hash q p
  /\ (NatTrans.Prompt_eq hash p q = true ->
      NatTrans.Prompt_eq hash q r = true ->
      NatTrans.Prompt_eq hash p r = true)
  /\ (NatTrans.strategy p <> NatTrans.strategy q ->
      NatTrans.Prompt_eq hash p q = false)
  /\ (forall m,
        NatTrans.Prompt_eq hash p
          (NatTrans.mkPrompt (PyStr.lower (NatTrans.content p))
             (NatTrans.strategy p) m) = true)
  /\ (forall factor,
        exists out,
          NatTrans.nt_apply
            (NatTrans.mkNT (NatTrans.strategy p) (NatTrans.strategy p)
               (fun x => x) factor) p = Ok out
          /\ NatTrans.Prompt_eq hash out p = true).
Proof.
  assert (Hrefl : forall x, NatTrans.Prompt_eq hash x x = true).
  { intros x. unfold NatTrans.Prompt_eq.
    rewrite bool_decide_eq_true_2 by reflexivity. simpl. apply Z.eqb_refl. }
  split; [apply Hrefl|]. split; [|split; [|split; [|split]]].
  - unfold NatTrans.Prompt_eq.
    rewrite (bool_decide_ext (NatTrans.strategy p = NatTrans.strategy q)
               (NatTrans.strategy q = NatTrans.strategy p)) by done.
    by rewrite Z.eqb_sym.
  - unfold NatTrans.Prompt_eq.
    intros [H1 H2]%andb_true_iff [H3 H4]%andb_true_iff.
    apply bool_decide_eq_true in H1, H3. apply Z.eqb_eq in H2, H4.
    apply andb_true_iff. split.
    + apply bool_decide_eq_true. congruence.
    + apply Z.eqb_eq. congruence.
  - intros Hne. unfold NatTrans.Prompt_eq.
    by rewrite bool_decide_eq_false_2.
  - intros m. unfold NatTrans.Prompt_eq, NatTrans.normalize. simpl.
    rewrite bool_decide_eq_true_2 by reflexivity. simpl.
    rewrite lower_idem. apply Z.eqb_refl.
  - intros factor. exists p. split; [|apply Hrefl].
    apply nt_apply_ok. reflexivity.
Qed.

(** X27.  Every functor of the registry is filed under its own strategy
    and, on every task, produces a prompt of that strategy whose content
    holds the description verbatim and whose metadata record the
    complexity; the domain of the task is never read. *)
Theorem registered_functors_typed
    (s : NatTrans.Strategy) (F : NatTrans.PromptFunctor) :
  NatTrans.FUNCTORS s = Some F ->
  NatTrans.functor_strategy F = s
  /\ forall task,
       NatTrans.strategy (NatTrans.apply F task) = s
       /\ PyStr.contains (NatTrans.description task)
            (NatTrans.content (NatTrans.apply F task)) = true
       /\ NatTrans.metadata (NatTrans.apply F task) !! "task_complexity"
          = Some (VStr (NatTrans.complexity task))
       /\ forall domain',
            NatTrans.apply F
              (NatTrans.mkTask (NatTrans.description task)
                 (NatTrans.complexity task) domain')
            = NatTrans.apply F task.
Proof.
  intros Hreg.
  destruct s; try discriminate Hreg; injection Hreg as <-;
    (split; [reflexivity|]); intros task;
    (split; [reflexivity|]);
    (split; [|split; [simpl; by simplify_map_eq | reflexivity]]);
    cbn [NatTrans.apply NatTrans.content NatTrans.ZeroShotFunctor
         NatTrans.FewShotFunctor NatTrans.ChainOfThoughtFunctor
         NatTrans.TreeOfThoughtFunctor NatTrans.MetaPromptingFunctor].
  - apply contains_refl.
  - apply contains_app_r, contains_app_r, contains_refl.
  - apply contains_app_l, contains_refl.
  - apply contains_app_l, contains_refl.
  - apply contains_app.
Qed.

Lemma registered_functors_typed_witness :
  NatTrans.functor_strategy NatTrans.MetaPromptingFunctor
  = NatTrans.META_PROMPTING.
Proof.
  exact (proj1 (registered_functors_typed NatTrans.META_PROMPTING
                  NatTrans.MetaPromptingFunctor eq_refl)).
Defined.

(* ===================================================================== *)
(** * Kleisli composition *)
(* ===================================================================== *)

Section Kleisli.

Context {World : Type}.
Variable sha256_hex : string -> string.
Variable now : World -> Z * World.
Variable merge : gmap string Q -> gmap string Q -> gmap string Q.
Variable complete : string -> World -> string * World.
Variable render : Prompt.t -> string.

#[local] Abbreviation monad :=
  (Monad.create_recursive_meta_monad now complete render).
#[local] Abbreviation bind := (Monad.bind now merge).
#[local] Abbreviation kleisli := (Monad.kleisli_compose now merge monad).


End Kleisli.

(* ===================================================================== *)
(** * The mock completion client *)
(* ===================================================================== *)

(** X29.  The mock client never reads [base_quality]: two clients that
    have answered the same number of calls give the same completion, so
    the value [unit] returns against the mock, quality included, does not
    depend on it.  Every call adds one to [call_count] and leaves
    [base_quality] alone, and the completion does not depend on the case
    of the letters of the prompt. *)
Theorem mock_ignores_base_quality
    (q1 q2 : Q) (n clock : Z) (text : string) (p : Prompt.t) :
  (MockLLMClient.complete text (MockLLMClient.mk q1 n)).1
  = (MockLLMClient.complete text (MockLLMClient.mk q2 n)).1
  /\ (MockLLMClient.complete text (MockLLMClient.mk q1 n)).2
     = MockLLMClient.mk q1 (n + 1)
  /\ MockLLMClient.complete (PyStr.lower text) (MockLLMClient.mk q1 n)
     = MockLLMClient.complete text (MockLLMClient.mk q1 n)
  /\ (Monad.unit TestWorld.monad p
        (TestWorld.mk (MockLLMClient.mk q1 n) clock)).1
     = (Monad.unit TestWorld.monad p
          (TestWorld.mk (MockLLMClient.mk q2 n) clock)).1.
Proof.
  assert (Hout : forall t,
            (MockLLMClient.complete t (MockLLMClient.mk q1 n)).1
            = (MockLLMClient.complete t (MockLLMClient.mk q2 n)).1).
  { intros t. unfold MockLLMClient.complete. cbv zeta.
    cbn [MockLLMClient.call_count MockLLMClient.base_quality].
    by repeat case_match. }
  split; [apply Hout|]. split; [|split].
  - unfold MockLLMClient.complete. cbv zeta.
    cbn [MockLLMClient.call_count MockLLMClient.base_quality].
    by repeat case_match.
  - unfold MockLLMClient.complete. by rewrite lower_idem.
  - pose proof (Hout (TestWorld.render p)) as Ho.
    unfold TestWorld.monad, Monad.create_recursive_meta_monad, Monad.unit,
      Monad.create_unit, mbind, M_bind, mret, M_ret, call,
      TestWorld.complete, TestWorld.now.
    cbn [TestWorld.llm TestWorld.clock].
    destruct (MockLLMClient.complete (TestWorld.render p)
                (MockLLMClient.mk q1 n)) as [o1 c1].
    destruct (MockLLMClient.complete (TestWorld.render p)
                (MockLLMClient.mk q2 n)) as [o2 c2].
    simpl in Ho. subst o2. reflexivity.
Qed.

(* ===================================================================== *)
(** * Associativity of [duplicate] *)
(* ===================================================================== *)

(** X30.  The third comonad law holds on the nose, on every store, empty
    or with a focus index out of range included: mapping [duplicate] over
    the views of [duplicate] never raises and gives exactly [duplicate] of
    [duplicate], entry by entry, with the same timestamps, weights, empty
    metadata and focus index. *)
Theorem duplicate_associativity {A} (cs : ContextStore.t A) :
  ContextStore.fmap (fun inner => Ok (ContextStore.duplicate inner))
    (ContextStore.duplicate cs)
  = Ok (ContextStore.duplicate (ContextStore.duplicate cs)).
Proof.
  rewrite fmap_pure. f_equal.
  unfold ContextStore.duplicate at 4.
  cbn [ContextStore.entries ContextStore.focus_index]. f_equal.
  apply list_eq. intros i.
  rewrite list_lookup_fmap, list_lookup_imap, duplicate_lookup.
  destruct (ContextStore.entries cs !! i) as [e|]; reflexivity.
Qed.

(* ===================================================================== *)
(** * The keywords of a text *)
(* ===================================================================== *)

Lemma str_snoc_cases (s : string) :
  s = "" \/ exists s' c, s = s' +:+ String c "".
Proof.
  induction s as [|x s IH]; [by left|]. right.
  destruct IH as [->|(s' & c & ->)].
  - by exists "", x.
  - by exists (String x s'), c.
Qed.

Lemma str_snoc_inj (a b : string) (x y : ascii) :
  a +:+ String x "" = b +:+ String y "" -> a = b /\ x = y.
Proof.
  revert b. induction a as [|c a IH]; intros [|d b] H; simpl in H.
  - by injection H as ->.
  - rewrite app_nil_l, app_cons in H. injection H as -> H.
    by destruct b.
  - rewrite app_nil_l, app_cons in H. injection H as -> H.
    by destruct a.
  - rewrite !app_cons in H. injection H as -> H.
    destruct (IH _ H) as [-> ->]. done.
Qed.

Section Pieces.

Variable sep : ascii -> bool.

(** [h] is delimited in [s]: it has no separator and lies between the
    ends of [s] or separators. *)
#[local] Abbreviation run_of s h :=
  (PyStr.all_chars (fun c => negb (sep c)) h = true
   /\ exists pre post,
        s = pre +:+ h +:+ post
        /\ (pre = "" \/ exists pre' c, pre = pre' +:+ String c ""
                                       /\ sep c = true)
        /\ (post = "" \/ exists c post', post = String c post'
                                         /\ sep c = true)).

(** The first piece is the text up to the first separator, and the other
    pieces are those of the text after it. *)
Lemma pieces_unfold (s : string) :
  exists h,
    PyStr.all_chars (fun c => negb (sep c)) h = true
    /\ ((s = h /\ PyStr.pieces sep s = [h])
        \/ exists d r, s = h +:+ String d r /\ sep d = true
                       /\ PyStr.pieces sep s = h :: PyStr.pieces sep r).
Proof.
  induction s as [|c s (h & Hh & IH)].
  - exists "". split; [reflexivity|]. by left.
  - cbn [PyStr.pieces]. destruct (sep c) eqn:Hc.
    + exists "". split; [reflexivity|]. right. by exists c, s.
    + exists (String c h). split; [simpl; by rewrite Hc, Hh|].
      destruct IH as [[-> Hp]|(d & r & -> & Hd & Hp)]; rewrite Hp.
      * by left.
      * right. by exists d, r.
Qed.

(** Two texts without separator that end at a separator, or at the end,
    of the same text are the same. *)
Lemma first_run_unique (a ra b rb : string) :
  a +:+ ra = b +:+ rb ->
  PyStr.all_chars (fun c => negb (sep c)) a = true ->
  PyStr.all_chars (fun c => negb (sep c)) b = true ->
  (ra = "" \/ exists c r, ra = String c r /\ sep c = true) ->
  (rb = "" \/ exists c r, rb = String c r /\ sep c = true) ->
  a = b.
Proof.
  revert b. induction a as [|x a IH]; intros [|y b] H Ha Hb Hra Hrb.
  - reflexivity.
  - exfalso. rewrite app_nil_l, app_cons in H. simpl in Hb.
    apply andb_true_iff in Hb as [Hy _].
    destruct Hra as [->|(c & r & -> & Hc)]; [discriminate|].
    injection H as -> _. by rewrite Hc in Hy.
  - exfalso. rewrite app_nil_l, app_cons in H. simpl in Ha.
    apply andb_true_iff in Ha as [Hx _].
    destruct Hrb as [->|(c & r & -> & Hc)]; [discriminate|].
    injection H as <- _. by rewrite Hc in Hx.
  - rewrite !app_cons in H. injection H as -> H. simpl in Ha, Hb.
    apply andb_true_iff in Ha as [_ Ha]. apply andb_true_iff in Hb as [_ Hb].
    f_equal. by apply (IH b).
Qed.

(** A prefix with a separator in it reaches past the first separator. *)
Lemma past_first_separator (h r pre tail : string) (d : ascii) :
  h +:+ String d r = pre +:+ tail ->
  PyStr.all_chars (fun c => negb (sep c)) h = true ->
  PyStr.all_chars (fun c => negb (sep c)) pre = false ->
  exists pre', pre = h +:+ String d pre' /\ r = pre' +:+ tail.
Proof.
  revert pre. induction h as [|a h IH]; intros [|x pre] H Hh Hpre;
    try discriminate Hpre.
  - rewrite app_nil_l, app_cons in H. injection H as -> ->.
    by exists pre.
  - rewrite !app_cons in H. injection H as -> H. simpl in Hh, Hpre.
    apply andb_true_iff in Hh as [Hx Hh]. rewrite Hx in Hpre.
    destruct (IH pre H Hh Hpre) as (pre' & -> & ->).
    by exists pre'.
Qed.

Lemma pieces_runs (s h : string) : h ∈ PyStr.pieces sep s <-> run_of s h.
Proof.
  remember (String.length s) as n eqn:Hn. revert s h Hn.
  induction n as [n IH] using lt_wf_ind. intros s h Hn.
  destruct (pieces_unfold s) as (h0 & Hh0 & [[-> Hp]|(d & r & -> & Hd & Hp)]);
    rewrite Hp.
  - (* no separator in the text *)
    rewrite list_elem_of_singleton. split.
    + intros ->. split; [exact Hh0|]. exists "", "".
      rewrite app_nil_l, app_nil_r. split; [reflexivity|]. split; by left.
    + intros (Hh & pre & post & Hs & Hpre & Hpost).
      rewrite Hs, !all_chars_app in Hh0.
      apply andb_true_iff in Hh0 as [Hpre0 [_ Hpost0]%andb_true_iff].
      destruct Hpre as [->|(pre' & c & -> & Hc)].
      * destruct Hpost as [->|(c & post' & -> & Hc)].
        -- by rewrite app_nil_l, app_nil_r in Hs.
        -- simpl in Hpost0. by rewrite Hc in Hpost0.
      * rewrite all_chars_app in Hpre0. simpl in Hpre0.
        rewrite Hc in Hpre0. simpl in Hpre0.
        by rewrite andb_false_r in Hpre0.
  - (* the text after the first separator is shorter *)
    assert (Hlt : (String.length r < n)%nat).
    { subst n. rewrite length_app. simpl. lia. }
    rewrite elem_of_cons, (IH _ Hlt r h eq_refl). split.
    + intros [->|(Hh & pre & post & -> & Hpre & Hpost)].
      * split; [exact Hh0|]. exists "", (String d r).
        rewrite app_nil_l. split; [reflexivity|].
        split; [by left | right; by exists d, r].
      * split; [exact Hh|]. exists (h0 +:+ String d pre), post.
        split; [by rewrite !app_assoc, app_cons|]. split; [|exact Hpost].
        right. destruct Hpre as [->|(pre' & c & -> & Hc)].
        -- by exists h0, d.
        -- exists (h0 +:+ String d pre'), c.
           split; [by rewrite app_assoc, app_cons | exact Hc].
    + intros (Hh & pre & post & Hs & Hpre & Hpost).
      destruct Hpre as [->|(pre' & c & -> & Hc)].
      * left. rewrite app_nil_l in Hs. symmetry.
        apply (first_run_unique h0 (String d r) h post Hs Hh0 Hh);
          [right; by exists d, r | exact Hpost].
      * right. split; [exact Hh|].
        destruct (past_first_separator h0 r (pre' +:+ String c "")
                    (h +:+ post) d Hs Hh0) as (p & Hp1 & Hp2).
        { rewrite all_chars_app. simpl. rewrite Hc. simpl.
          apply andb_false_r. }
        exists p, post. split; [exact Hp2|]. split; [|exact Hpost].
        destruct (str_snoc_cases p) as [->|(p' & c' & ->)]; [by left|].
        right. exists p', c'. split; [reflexivity|].
        rewrite <- app_cons, <- app_assoc in Hp1.
        apply str_snoc_inj in Hp1 as [_ ->]. exact Hc.
Qed.

End Pieces.

Lemma all_chars_ext (P Q : ascii -> bool) (s : string) :
  (forall c, P c = Q c) -> PyStr.all_chars P s = PyStr.all_chars Q s.
Proof.
  intros H. induction s as [|c s IH]; [reflexivity|]. simpl.
  by rewrite H, IH.
Qed.

Lemma all_chars_and (P Q : ascii -> bool) (s : string) :
  PyStr.all_chars (fun c => P c && Q c) s
  = PyStr.all_chars P s && PyStr.all_chars Q s.
Proof.
  induction s as [|c s IH]; [reflexivity|]. simpl. rewrite IH.
  destruct (P c), (Q c), (PyStr.all_chars P s); reflexivity.
Qed.

(** X2.  On an ASCII text, the keywords [extract_keywords] returns are
    pairwise distinct, and a word is a keyword exactly when it is longer
    than three characters, is not a stop word and is a run of word
    characters of the lowercased text that is delimited there: the text
    begins, or a character that is not a word character stands, just
    before it, and the same holds just after it.  No keyword has an
    upper-case letter, and the empty text has no keyword. *)
Theorem extract_keywords_sound (text : string) :
  PyStr.is_ascii text = true ->
  let stop_words :=
    ["the"; "a"; "an"; "and"; "or"; "but"; "in"; "on"; "at"; "to"; "for";
     "is"; "are"; "was"; "were"] in
  NoDup (extract_keywords text)
  /\ (forall kw,
        kw ∈ extract_keywords text <->
        3 < PyStr.len kw
        /\ (kw ∉ stop_words)
        /\ PyStr.all_chars PyStr.is_word kw = true
        /\ exists pre post,
             PyStr.lower text = pre +:+ kw +:+ post
             /\ (pre = "" \/ exists pre' c, pre = pre' +:+ String c ""
                                            /\ PyStr.is_word c = false)
             /\ (post = "" \/ exists c post', post = String c post'
                                              /\ PyStr.is_word c = false))
  /\ (forall kw,
        kw ∈ extract_keywords text ->
        PyStr.all_chars (fun c => negb (PyStr.is_upper c)) kw = true)
  /\ extract_keywords "" = [].
Proof.
  intros _ stop_words.
  assert (Hiff : forall kw,
             kw ∈ extract_keywords text <->
             kw ∈ PyStr.findall_words (PyStr.lower text)
             /\ (kw ∉ stop_words) /\ 3 < PyStr.len kw).
  { intros kw. unfold extract_keywords; cbv zeta.
    rewrite elem_of_remove_dups, elem_of_List_filter, andb_true_iff,
      negb_true_iff, bool_decide_eq_false, Z.ltb_lt.
    tauto. }
  split; [apply NoDup_remove_dups|]. split; [|split; [|reflexivity]].
  - intros kw. rewrite Hiff. unfold PyStr.findall_words.
    rewrite elem_of_List_filter, pieces_runs.
    rewrite (all_chars_ext _ PyStr.is_word)
      by (intros c; apply negb_involutive).
    assert (Hneg : forall c,
               negb (PyStr.is_word c) = true <-> PyStr.is_word c = false)
      by (intros c; apply negb_true_iff).
    split.
    + intros [[(Hw & pre & post & Hs & Hpre & Hpost) _] [Hstop Hlen]].
      split; [exact Hlen|]. split; [exact Hstop|]. split; [exact Hw|].
      exists pre, post. split; [exact Hs|]. split.
      * destruct Hpre as [->|(p & c & -> & Hc)]; [by left|].
        right. exists p, c. by rewrite <- Hneg.
      * destruct Hpost as [->|(c & p & -> & Hc)]; [by left|].
        right. exists c, p. by rewrite <- Hneg.
    + intros (Hlen & Hstop & Hw & pre & post & Hs & Hpre & Hpost).
      split; [split|by split].
      * split; [exact Hw|]. exists pre, post. split; [exact Hs|]. split.
        -- destruct Hpre as [->|(p & c & -> & Hc)]; [by left|].
           right. exists p, c. by rewrite Hneg.
        -- destruct Hpost as [->|(c & p & -> & Hc)]; [by left|].
           right. exists c, p. by rewrite Hneg.
      * destruct kw; [unfold PyStr.len in Hlen; simpl in Hlen; lia | done].
  - intros kw Hkw. apply Hiff in Hkw as (Hw & _ & _).
    unfold PyStr.findall_words in Hw.
    apply elem_of_List_filter in Hw as [Hw _].
    pose proof (pieces_all_chars _ _ _ _ (lower_all_lower text) Hw) as Hall.
    rewrite all_chars_and in Hall. by apply andb_true_iff in Hall as [_ ?].
Qed.

Lemma extract_keywords_sound_witness :
  "refactor" ∈ extract_keywords "Refactor the parser".
Proof.
  apply (extract_keywords_sound "Refactor the parser" eq_refl).
  split; [reflexivity|].
  split; [apply (proj1 (bool_decide_eq_false _)); reflexivity|].
  split; [reflexivity|].
  exists "", " the parser". split; [reflexivity|].
  split; [by left|]. right. by exists " "%char, "the parser".
Defined.
